(** * Healthify: the symptom vectorizer of the backend helper and the
      request builders of the client forms

    The development follows the repository:
    - [Py] and [Helper] embed [backend/helper.py] ([prepare_symptoms_array])
      for a header in ASCII and a console that writes every line;
      [HelperPy] embeds it over the interpreter's [str.lower] and a
      [print] that can raise;
    - [Js] embeds the fragment of JavaScript the forms rely on (string to
      number conversion, objects with insertion order, JSON bodies), and
      [Binary64] the rounding of its arithmetic;
    - [SampleData] embeds [src/utils/sampleData.ts];
    - [DiabetesPage], [HeartPage], [KidneyPage], [BreastPage], [LungPage]
      and [ParkinsonsPage] embed the submit handlers and the result panels
      of the pages;
    - [Core] holds the scoring contract of the prediction service. *)

From Stdlib Require Import ZArith QArith Qround Qabs Qcanon Qcabs Qpower Lqa.
From Stdlib Require Import Ascii String List Lia Bool.
From Stdlib Require Import DecimalString DecimalFacts DecimalN.
From stdpp Require Import base list strings.

Local Open Scope string_scope.
Local Open Scope list_scope.

(* ===================================================================== *)
(** ** Python values, exceptions and [str.lower] *)
(* ===================================================================== *)

Module Py.

(** The values a decoded JSON array can put in the symptom list. *)
Inductive value :=
| PyStr (s : string)
| PyInt (z : Z)
| PyBool (b : bool)
| PyNone.

(** The exceptions the helper can meet; each is a subclass of Python's
    [Exception]. *)
Inductive exn :=
| AttributeError (receiver : value) (attr : string)
| IndexError (index size : nat)
| KeyError (key : string)
| ValueError (msg : string).

Inductive result (A : Type) :=
| Ok (a : A)
| Raise (e : exn).
Arguments Ok {A} a.
Arguments Raise {A} e.

Definition bind {A B} (r : result A) (k : A -> result B) : result B :=
  match r with
  | Ok a => k a
  | Raise e => Raise e
  end.

#[global] Instance result_bind : MBind result := fun A B k r => bind r k.
#[global] Instance result_ret : MRet result := @Ok.

(** [str.lower] on the ASCII range: the letters A-Z move to a-z, every
    other byte is kept. *)
Definition lower_ascii (c : ascii) : ascii :=
  let n := nat_of_ascii c in
  if (65 <=? n)%nat && (n <=? 90)%nat then ascii_of_nat (n + 32) else c.

Fixpoint lower (s : string) : string :=
  match s with
  | EmptyString => EmptyString
  | String c rest => String (lower_ascii c) (lower rest)
  end.

(** [v.lower()]: only [str] has the method among the values above. *)
Definition attr_lower (v : value) : result string :=
  match v with
  | PyStr s => Ok (lower s)
  | _ => Raise (AttributeError v "lower")
  end.

End Py.

(* ===================================================================== *)
(** ** backend/helper.py *)
(* ===================================================================== *)

Module Helper.
Import Py.

(** Of the frame read from [data/clean_dataset.tsv] the helper only uses
    the header, [df.columns]. *)
Record DataFrame := { columns : list string }.

(** The array [np.zeros((1, n))] has one row; the row is kept as a list of
    its slots, each holding 0 or 1. *)
Abbreviation ndarray := (list Z).

(** What the four [print] calls write to standard output. *)
Inductive printed :=
| AvailableColumns (cols : list string)
| ReceivedSymptoms (symptoms : list value)
| WarningNotFound (symptom : value)
| ErrorProcessing (symptom : value) (e : exn).

(** [np.zeros((1, n))]; a negative dimension is a [ValueError]. *)
Definition np_zeros (n : Z) : result ndarray :=
  if (n <? 0)%Z then Raise (ValueError "negative dimensions are not allowed")
  else Ok (replicate (Z.to_nat n) 0%Z).

(** [df.columns.get_loc(name)]: the position of the label [name]. *)
Fixpoint get_loc (cols : list string) (name : string) : option nat :=
  match cols with
  | [] => None
  | c :: rest =>
      if String.eqb c name then Some 0%nat
      else match get_loc rest name with
           | Some i => Some (S i)
           | None => None
           end
  end.

(** [symptoms_array[0, idx] = v], with numpy's bounds check. *)
Definition setitem (a : ndarray) (idx : nat) (v : Z) : result ndarray :=
  if (idx <? length a)%nat then Ok (<[idx := v]> a)
  else Raise (IndexError idx (length a)).

(** [[col for col in df.columns if col.lower() == symptom.lower()]]:
    [symptom.lower()] is evaluated once per column, so it raises at the
    first column when the symptom is not a string. *)
Fixpoint matching_cols (cols : list string) (symptom : value)
  : result (list string) :=
  match cols with
  | [] => Ok []
  | col :: rest =>
      s ← attr_lower symptom;
      tl ← matching_cols rest symptom;
      Ok (if String.eqb (lower col) s then col :: tl else tl)
  end.

(** The body of the [try] block for one symptom. *)
Definition try_body (cols : list string) (symptom : value)
    (st : ndarray * list printed) : result (ndarray * list printed) :=
  let '(symptoms_array, out) := st in
  m ← matching_cols cols symptom;
  match m with
  | first :: _ =>
      symptom_idx ← match get_loc cols first with
                     | Some i => Ok i
                     | None => Raise (KeyError first)
                     end;
      a' ← setitem symptoms_array symptom_idx 1%Z;
      Ok (a', out)
  | [] => Ok (symptoms_array, out ++ [WarningNotFound symptom])
  end.

(** One turn of the [for] loop: [except Exception as e] prints and goes on
    with the state the [try] block started from (the only mutation of the
    block is its last statement). *)
Definition loop_step (cols : list string) (st : ndarray * list printed)
    (symptom : value) : ndarray * list printed :=
  match try_body cols symptom st with
  | Ok st' => st'
  | Raise e => (fst st, snd st ++ [ErrorProcessing symptom e])
  end.

Definition prepare_symptoms_array (df : DataFrame) (symptoms : list value)
  : result (ndarray * list printed) :=
  symptoms_array ← np_zeros (Z.of_nat (length (columns df)) - 1);
  let out := [AvailableColumns (columns df); ReceivedSymptoms symptoms] in
  Ok (fold_left (loop_step (columns df)) symptoms (symptoms_array, out)).

(** The symptom vocabulary: the columns that own a slot of the vector,
    that is every column but the last one. *)
Definition vocabulary (df : DataFrame) : list string :=
  take (length (columns df) - 1) (columns df).

(** The position of the first column whose lower-cased name is [s]. *)
Fixpoint first_match (cols : list string) (s : string) : option nat :=
  match cols with
  | [] => None
  | c :: rest =>
      if String.eqb (lower c) s then Some 0%nat
      else match first_match rest s with
           | Some i => Some (S i)
           | None => None
           end
  end.

(** What one turn of the loop leaves in the array: the slot of the first
    column that matches, when there is one. *)
Definition mark (cols : list string) (a : ndarray) (symptom : value) : ndarray :=
  match symptom with
  | PyStr s =>
      match first_match cols (lower s) with
      | Some i => <[i := 1%Z]> a
      | None => a
      end
  | _ => a
  end.

(** [symptom] matches the vocabulary entry [col]: both are strings with
    the same lower-cased form. *)
Definition matches (symptom : value) (col : string) : Prop :=
  attr_lower symptom = Ok (lower col).

(** A line of the output that is a diagnostic about [symptom]. *)
Definition diagnostic_of (symptom : value) (line : printed) : Prop :=
  line = WarningNotFound symptom \/ exists e, line = ErrorProcessing symptom e.

(** The reading of the matching rule under which every vocabulary entry
    that matches a symptom of the list has its slot at 1. *)
Definition every_match_marked : Prop :=
  forall df symptoms a out symptom i col,
    prepare_symptoms_array df symptoms = Ok (a, out) ->
    In symptom symptoms ->
    vocabulary df !! i = Some col ->
    matches symptom col ->
    a !! i = Some 1%Z.

End Helper.

(* ===================================================================== *)
(** ** backend/helper.py on the interpreter's [str.lower] and [print] *)
(* ===================================================================== *)

(** [Helper] reads the header in ASCII and lets every [print] succeed. Here
    the two are what the interpreter provides: [lower] is its [str.lower],
    and [stdout] tells what [print] does with a line, [None] when the line
    is written and [Some e] when [print] raises [e] (a
    [UnicodeEncodeError], which is a [ValueError], for a text the encoding
    of the stream cannot write); what [print] does with a line only
    depends on the line. A text is kept as the bytes of its encoding. The theorems hold for every [lower] and every [stdout];
    [Helper] is the instance [Py.lower], [stdout_any]. *)
Module HelperPy.
Import Py Helper.

Section Run.
Variable lower : string -> string.
Variable stdout : printed -> option exn.

(** [v.lower()]: only [str] has the method. *)
Definition attr_lower (v : value) : result string :=
  match v with
  | PyStr s => Ok (lower s)
  | _ => Raise (AttributeError v "lower")
  end.

(** [print(line)]. *)
Definition print (line : printed) (out : list printed)
  : result (list printed) :=
  match stdout line with
  | None => Ok (out ++ [line])
  | Some e => Raise e
  end.

(** [[col for col in df.columns if col.lower() == symptom.lower()]]. *)
Fixpoint matching_cols (cols : list string) (symptom : value)
  : result (list string) :=
  match cols with
  | [] => Ok []
  | col :: rest =>
      s ← attr_lower symptom;
      tl ← matching_cols rest symptom;
      Ok (if String.eqb (lower col) s then col :: tl else tl)
  end.

(** The body of the [try] block for one symptom; the warning is printed
    inside the block. *)
Definition try_body (cols : list string) (symptom : value)
    (st : ndarray * list printed) : result (ndarray * list printed) :=
  let '(symptoms_array, out) := st in
  m ← matching_cols cols symptom;
  match m with
  | first :: _ =>
      symptom_idx ← match get_loc cols first with
                     | Some i => Ok i
                     | None => Raise (KeyError first)
                     end;
      a' ← setitem symptoms_array symptom_idx 1%Z;
      Ok (a', out)
  | [] =>
      out' ← print (WarningNotFound symptom) out;
      Ok (symptoms_array, out')
  end.

(** One turn of the [for] loop. The handler of [except Exception as e]
    prints outside of any [try]: what its [print] raises leaves the
    function. *)
Definition loop_step (cols : list string) (st : ndarray * list printed)
    (symptom : value) : result (ndarray * list printed) :=
  match try_body cols symptom st with
  | Ok st' => Ok st'
  | Raise e =>
      out' ← print (ErrorProcessing symptom e) (snd st);
      Ok (fst st, out')
  end.

(** The [for] loop. *)
Fixpoint for_loop (cols : list string) (symptoms : list value)
    (st : ndarray * list printed) : result (ndarray * list printed) :=
  match symptoms with
  | [] => Ok st
  | symptom :: rest =>
      st' ← loop_step cols st symptom;
      for_loop cols rest st'
  end.

Definition prepare_symptoms_array (df : DataFrame) (symptoms : list value)
  : result (ndarray * list printed) :=
  symptoms_array ← np_zeros (Z.of_nat (length (columns df)) - 1);
  out ← print (AvailableColumns (columns df)) [];
  out ← print (ReceivedSymptoms symptoms) out;
  for_loop (columns df) symptoms (symptoms_array, out).

(** The position of the first column whose lower-cased name is [s]. *)
Fixpoint first_match (cols : list string) (s : string) : option nat :=
  match cols with
  | [] => None
  | c :: rest =>
      if String.eqb (lower c) s then Some 0%nat
      else match first_match rest s with
           | Some i => Some (S i)
           | None => None
           end
  end.

(** What one turn of the loop leaves in the array: the slot of the first
    column that matches, when there is one. *)
Definition mark (cols : list string) (a : ndarray) (symptom : value) : ndarray :=
  match symptom with
  | PyStr s =>
      match first_match cols (lower s) with
      | Some i => <[i := 1%Z]> a
      | None => a
      end
  | _ => a
  end.

(** [symptom] matches the vocabulary entry [col]. *)
Definition matches (symptom : value) (col : string) : Prop :=
  attr_lower symptom = Ok (lower col).

(** The symptom sets a slot of the vector. *)
Definition sets_slot (df : DataFrame) (symptom : value) : bool :=
  match symptom with
  | PyStr s =>
      match first_match (columns df) (lower s) with
      | Some i => (i <? length (vocabulary df))%nat
      | None => false
      end
  | _ => false
  end.

(** What the [try] block of a symptom comes to on an array of [n] slots:
    it sets a slot, it reaches the warning, or it raises before any
    [print]. *)
Inductive attempt :=
| Sets (i : nat)
| Warns
| Fails (e : exn).

Definition attempt_of (cols : list string) (n : nat) (symptom : value)
  : attempt :=
  match symptom with
  | PyStr s =>
      match first_match cols (lower s) with
      | Some i => if (i <? n)%nat then Sets i else Fails (IndexError i n)
      | None => Warns
      end
  | _ =>
      match cols with
      | [] => Warns
      | _ :: _ => Fails (AttributeError symptom "lower")
      end
  end.

(** The line the turn of a symptom has to write: none when a slot is set,
    the warning when no column matches, and an error line for what the
    [try] block raised, which is the error of [print] itself when the
    warning could not be written. *)
Definition said (cols : list string) (n : nat) (symptom : value)
  : list printed :=
  match attempt_of cols n symptom with
  | Sets _ => []
  | Warns =>
      match stdout (WarningNotFound symptom) with
      | None => [WarningNotFound symptom]
      | Some e => [ErrorProcessing symptom e]
      end
  | Fails e => [ErrorProcessing symptom e]
  end.

(** Every line the call has to write, in order. *)
Definition lines (df : DataFrame) (symptoms : list value) : list printed :=
  [AvailableColumns (columns df); ReceivedSymptoms symptoms]
  ++ flat_map (said (columns df) (length (vocabulary df))) symptoms.

(** [print] of several lines in turn. *)
Fixpoint print_all (ls : list printed) (out : list printed)
  : result (list printed) :=
  match ls with
  | [] => Ok out
  | l :: rest => out' ← print l out; print_all rest out'
  end.

End Run.

(** A stream whose encoding cannot write [token]: [print] of the warning
    or of the error line of that token raises (the two lines hold the
    token itself), whereas the list of the second opening line is printed
    with [repr], which escapes what cannot be written. This is standard
    output in UTF-8 for a token with a lone surrogate. *)
Definition stdout_without (token : string) (line : printed) : option exn :=
  match line with
  | WarningNotFound (PyStr s) | ErrorProcessing (PyStr s) _ =>
      if String.eqb s token then Some (ValueError "UnicodeEncodeError")
      else None
  | _ => None
  end.

(** The text of the lone surrogate U+DC80 (a JSON body carries it as the
    escape [\udc80], and [json.loads] accepts it), which UTF-8 cannot
    write. *)
Definition lone_surrogate : string :=
  String (ascii_of_nat 237)
    (String (ascii_of_nat 178) (String (ascii_of_nat 128) EmptyString)).

(** A stream that writes every line. *)
Definition stdout_any (line : printed) : option exn := None.

End HelperPy.

(* ===================================================================== *)
(** ** The JavaScript fragment used by the client forms *)
(* ===================================================================== *)

Module Js.

(** A JavaScript number. A finite number read from a text is kept as the
    (reduced) rational its decimal text denotes: [Number("0.85")] and the
    literal [0.85] are the same double because they are the same decimal,
    and [toString] and [JSON.stringify] write that decimal back. This
    names the double without loss for the texts of at most 15 significant
    digits, which is what the theorems on typed and generated values
    assume. The signed zero is not told apart from 0. The results of
    arithmetic are rounded to binary64 in [Binary64]. *)
Inductive number :=
| NaN
| Infinity (negative : bool)
| Fin (q : Q).

(** [decimal m f] is the number written with the digits [m] and [f] digits
    after the point: [decimal 285 1] is 28.5. *)
Definition decimal (m : Z) (f : nat) : Q :=
  Qred (inject_Z m * Qpower (10 # 1) (- Z.of_nat f)).

Definition Qltb (x y : Q) : bool := negb (Qle_bool y x).

(** *** Strings to numbers *)

Definition digit (c : ascii) : option Z :=
  let n := nat_of_ascii c in
  if (48 <=? n)%nat && (n <=? 57)%nat then Some (Z.of_nat (n - 48)) else None.

Definition radix_digit (base : Z) (c : ascii) : option Z :=
  let n := nat_of_ascii c in
  let d := if (48 <=? n)%nat && (n <=? 57)%nat then Some (Z.of_nat (n - 48))
           else if (97 <=? n)%nat && (n <=? 102)%nat then Some (Z.of_nat (n - 87))
           else if (65 <=? n)%nat && (n <=? 70)%nat then Some (Z.of_nat (n - 55))
           else None in
  match d with
  | Some v => if (v <? base)%Z then Some v else None
  | None => None
  end.

(** White space and line terminators of the ASCII range. *)
Definition is_space (c : ascii) : bool :=
  let n := nat_of_ascii c in
  (n =? 32)%nat || ((9 <=? n)%nat && (n <=? 13)%nat).

Fixpoint trim_start (s : list ascii) : list ascii :=
  match s with
  | c :: r => if is_space c then trim_start r else s
  | [] => []
  end.

Definition trim (s : list ascii) : list ascii :=
  rev (trim_start (rev (trim_start s))).

(** The longest run of decimal digits at the head of [s]: its value on top
    of [acc], the number of digits read, and what follows. *)
Fixpoint digits (s : list ascii) (acc : Z) (n : nat) : Z * nat * list ascii :=
  match s with
  | c :: r =>
      match digit c with
      | Some d => digits r (acc * 10 + d)%Z (S n)
      | None => (acc, n, s)
      end
  | [] => (acc, n, [])
  end.

Definition sign (s : list ascii) : bool * list ascii :=
  match s with
  | "+"%char :: r => (false, r)
  | "-"%char :: r => (true, r)
  | _ => (false, s)
  end.

(** An exponent part is read only when it is complete. *)
Definition exponent (s : list ascii) : Z * list ascii :=
  match s with
  | c :: r =>
      if Ascii.eqb c "e" || Ascii.eqb c "E" then
        let '(neg, r1) := sign r in
        let '(e, n, r2) := digits r1 0%Z 0%nat in
        if (n =? 0)%nat then (0%Z, s) else ((if neg then - e else e)%Z, r2)
      else (0%Z, s)
  | [] => (0%Z, [])
  end.

Fixpoint starts_with (p s : list ascii) : option (list ascii) :=
  match p, s with
  | [], _ => Some s
  | a :: p', b :: s' => if Ascii.eqb a b then starts_with p' s' else None
  | _ :: _, [] => None
  end.

(** The longest prefix of [s] that is a [StrDecimalLiteral], with its value
    and the rest of [s]. *)
Definition StrDecimalLiteral (s : list ascii) : option (number * list ascii) :=
  let '(neg, s1) := sign s in
  match starts_with (list_ascii_of_string "Infinity") s1 with
  | Some rest => Some (Infinity neg, rest)
  | None =>
      let '(ip, ni, s2) := digits s1 0%Z 0%nat in
      let '(m, nf, s3) :=
        match s2 with
        | "."%char :: r =>
            let '(m, nf, r') := digits r ip 0%nat in
            if ((ni + nf)%nat =? 0)%nat then (m, nf, s2) else (m, nf, r')
        | _ => (ip, 0%nat, s2)
        end in
      if ((ni + nf)%nat =? 0)%nat then None
      else
        let '(e, s4) := exponent s3 in
        let q := Qred (inject_Z m * Qpower (10 # 1) (e - Z.of_nat nf)) in
        Some (Fin (if neg then Qred (- q) else q), s4)
  end.

Fixpoint radix_digits (base : Z) (s : list ascii) (acc : Z) : option Z :=
  match s with
  | [] => Some acc
  | c :: r =>
      match radix_digit base c with
      | Some d => radix_digits base r (acc * base + d)%Z
      | None => None
      end
  end.

Definition NonDecimalIntegerLiteral (s : list ascii) : option Z :=
  match s with
  | "0"%char :: p :: (c :: r) as body =>
      if Ascii.eqb p "x" || Ascii.eqb p "X" then radix_digits 16 body 0%Z
      else if Ascii.eqb p "o" || Ascii.eqb p "O" then radix_digits 8 body 0%Z
      else if Ascii.eqb p "b" || Ascii.eqb p "B" then radix_digits 2 body 0%Z
      else None
  | _ => None
  end.

(** [Number(s)] for a string [s]: the whole trimmed text must be a numeric
    literal, the empty text is 0. *)
Definition Number (s : string) : number :=
  let t := trim (list_ascii_of_string s) in
  match t with
  | [] => Fin 0
  | _ =>
      match NonDecimalIntegerLiteral t with
      | Some z => Fin (inject_Z z)
      | None =>
          match StrDecimalLiteral t with
          | Some (v, []) => v
          | _ => NaN
          end
      end
  end.

(** [parseFloat(s)]: the longest decimal prefix after leading white space. *)
Definition parseFloat (s : string) : number :=
  match StrDecimalLiteral (trim_start (list_ascii_of_string s)) with
  | Some (v, _) => v
  | None => NaN
  end.

(** *** Numbers to strings *)

Definition string_of_nonneg (z : Z) : string :=
  NilZero.string_of_uint (N.to_uint (Z.to_N z)).

Fixpoint zeros (n : nat) : string :=
  match n with
  | O => ""
  | S n' => String "0" (zeros n')
  end.

(** The digits of [n] (which is not negative) with a point before the
    last [f] of them. *)
Definition fixed_digits (n : Z) (f : nat) : string :=
  let ip := (n / 10 ^ Z.of_nat f)%Z in
  let fp := string_of_nonneg (n mod 10 ^ Z.of_nat f) in
  match f with
  | O => string_of_nonneg ip
  | _ => string_of_nonneg ip ++ "." ++ zeros (f - String.length fp) ++ fp
  end.

(** [Math.round(x)]: the integer nearest to [x], halves going up. *)
Definition Math_round (x : Q) : Z := Qfloor (x + (1 # 2)).

(** [x.toFixed(f)]: [f] digits after the point, the magnitude rounded to
    the nearest, halves going up. *)
Definition toFixed (x : Q) (f : nat) : string :=
  let n := Math_round (Qabs x * Qpower (10 # 1) (Z.of_nat f)) in
  (if Qltb x 0 then "-" else "") ++ fixed_digits n f.

(** The least [f <= fuel] with [q * 10^f] an integer. *)
Fixpoint fraction_digits (q : Q) (f fuel : nat) : nat :=
  match fuel with
  | O => f
  | S fuel' =>
      if (Zpos (Qden (Qred (q * Qpower (10 # 1) (Z.of_nat f)))) =? 1)%Z then f
      else fraction_digits q (S f) fuel'
  end.

(** [x.toString()] for the numbers the forms print: decimal notation with
    as many digits after the point as the value needs. *)
Definition toString (x : number) : string :=
  match x with
  | NaN => "NaN"
  | Infinity neg => if neg then "-Infinity" else "Infinity"
  | Fin q =>
      let f := fraction_digits (Qabs q) 0 20 in
      let n := Qfloor (Qabs q * Qpower (10 # 1) (Z.of_nat f)) in
      (if Qltb q 0 then "-" else "") ++ fixed_digits n f
  end.

(** *** Objects and JSON *)

(** An object with string keys: its properties in insertion order. *)
Definition obj (A : Type) := list (string * A).

Fixpoint obj_get {A} (k : string) (o : obj A) : option A :=
  match o with
  | [] => None
  | (k', v) :: rest => if String.eqb k' k then Some v else obj_get k rest
  end.

(** [{...o, [k]: v}]: an own property keeps its place, a new one goes
    last. *)
Fixpoint obj_set {A} (k : string) (v : A) (o : obj A) : obj A :=
  match o with
  | [] => [(k, v)]
  | (k', v') :: rest =>
      if String.eqb k' k then (k, v) :: rest else (k', v') :: obj_set k v rest
  end.

Definition keys {A} (o : obj A) : list string := map fst o.

(** [Array.prototype.includes] on an array of strings. *)
Definition includes (a : list string) (k : string) : bool :=
  existsb (String.eqb k) a.

(** The values the handlers put in a request object. *)
Inductive value :=
| VNum (n : number)
| VStr (s : string).

(** A JSON value, as the body of a request carries it. *)
Inductive json :=
| JNull
| JNumber (q : Q)
| JString (s : string).

(** [JSON.stringify] writes a number that is not finite as [null]. *)
Definition json_of (v : value) : json :=
  match v with
  | VNum (Fin q) => JNumber q
  | VNum _ => JNull
  | VStr s => JString s
  end.

Definition JSON_stringify (o : obj value) : obj json :=
  map (fun kv => (fst kv, json_of (snd kv))) o.

End Js.

(* ===================================================================== *)
(** ** Arithmetic on binary64 numbers *)
(* ===================================================================== *)

(** The results of [+], [-] and [*] are binary64 numbers: the exact result
    rounded to the nearest one, a tie going to the even mantissa. *)
Module Binary64.
Import Js.
Local Open Scope Q_scope.

(** [floor (log2 q)] for a positive rational. *)
Definition ilog2 (q : Q) : Z :=
  let e0 := (Z.log2 (Qnum q) - Z.log2 (Zpos (Qden q)))%Z in
  if Qle_bool (Qpower 2 e0) q then e0 else (e0 - 1)%Z.

(** The integer nearest to [x], a tie going to the even one. *)
Definition round_half_even (x : Q) : Z :=
  let f := Qfloor x in
  match Qcompare (x - inject_Z f) (1 # 2) with
  | Lt => f
  | Gt => (f + 1)%Z
  | Eq => if Z.even f then f else (f + 1)%Z
  end.

(** The exponent of the unit in the last place around [q]: 53 bits of
    mantissa, the subnormal numbers being the multiples of [2^-1074]. *)
Definition ulp_exponent (q : Q) : Z := Z.max (ilog2 q - 52) (-1074).

(** The multiple of the unit in the last place nearest to [q >= 0]. *)
Definition nearest (q : Q) : Q :=
  let e := ulp_exponent q in
  inject_Z (round_half_even (q / Qpower 2 e)) * Qpower 2 e.

(** The binary64 number nearest to [q]; from [2^1024] on it is an
    infinity. This is the value of a numeric literal and of a numeral read
    by the engine. *)
Definition double (q : Q) : number :=
  let m := nearest (Qabs q) in
  if Qle_bool (Qpower 2 1024) m then Infinity (Qltb q 0)
  else Fin (Qred (if Qltb q 0 then - m else m)).

(** [x + y]. *)
Definition plus (x y : number) : number :=
  match x, y with
  | Fin a, Fin b => double (a + b)
  | NaN, _ | _, NaN => NaN
  | Infinity s, Infinity t => if Bool.eqb s t then Infinity s else NaN
  | Infinity s, Fin _ | Fin _, Infinity s => Infinity s
  end.

(** [x - y]. *)
Definition minus (x y : number) : number :=
  match x, y with
  | Fin a, Fin b => double (a - b)
  | NaN, _ | _, NaN => NaN
  | Infinity s, Infinity t => if Bool.eqb s t then NaN else Infinity s
  | Infinity s, Fin _ => Infinity s
  | Fin _, Infinity s => Infinity (negb s)
  end.

(** [x * y]. *)
Definition times (x y : number) : number :=
  match x, y with
  | Fin a, Fin b => double (a * b)
  | NaN, _ | _, NaN => NaN
  | Infinity s, Infinity t => Infinity (xorb s t)
  | Infinity s, Fin b | Fin b, Infinity s =>
      if Qeq_bool b 0 then NaN else Infinity (xorb s (Qltb b 0))
  end.

(** [Math.round(x)] of a number. *)
Definition Math_round (x : number) : number :=
  match x with
  | Fin q => Fin (inject_Z (Js.Math_round q))
  | _ => x
  end.

(** [x.toFixed(f)] of a number; from [1e21] on it is [x.toString()]. *)
Definition toFixed (x : number) (f : nat) : string :=
  match x with
  | Fin q =>
      if Qle_bool (inject_Z (10 ^ 21)) (Qabs q) then toString x
      else Js.toFixed q f
  | _ => toString x
  end.

End Binary64.

(* ===================================================================== *)
(** ** src/utils/sampleData.ts *)
(* ===================================================================== *)

Module SampleData.
Import Js.
Local Open Scope Q_scope.

(** [getRandomNumber(min, max, decimals)]; [r] is the result of the call of
    [Math.random()] it makes, [min] and [max] are the literals of the call.
    The sum and the product are those of binary64 numbers. *)
Definition getRandomNumber (r : Q) (min max : Q) (decimals : nat) : number :=
  let randomNum :=
    Binary64.plus
      (Binary64.times (Binary64.double r)
         (Binary64.minus (Binary64.double max) (Binary64.double min)))
      (Binary64.double min) in
  Number (Binary64.toFixed randomNum decimals).

Definition formatNumber (num : number) : string := toString num.

(** [getRandomHeartData()]; [rnd k] is the result of the [k]-th call of
    [Math.random()], the properties being evaluated in the order they are
    written. *)
Definition getRandomHeartData (rnd : nat -> Q) : obj string :=
  [ ("age", formatNumber (getRandomNumber (rnd 0%nat) 25 85 0));
    ("sex", formatNumber (getRandomNumber (rnd 1%nat) 0 1 0));
    ("cp", formatNumber (getRandomNumber (rnd 2%nat) 0 3 0));
    ("trestbps", formatNumber (getRandomNumber (rnd 3%nat) 90 200 0));
    ("chol", formatNumber (getRandomNumber (rnd 4%nat) 120 570 0));
    ("fbs", formatNumber (getRandomNumber (rnd 5%nat) 0 1 0));
    ("restecg", formatNumber (getRandomNumber (rnd 6%nat) 0 2 0));
    ("thalach", formatNumber (getRandomNumber (rnd 7%nat) 70 210 0));
    ("exang", formatNumber (getRandomNumber (rnd 8%nat) 0 1 0));
    ("oldpeak", formatNumber (getRandomNumber (rnd 9%nat) 0 (62 # 10) 1));
    ("slope", formatNumber (getRandomNumber (rnd 10%nat) 0 2 0));
    ("ca", formatNumber (getRandomNumber (rnd 11%nat) 0 4 0));
    ("thal", formatNumber (getRandomNumber (rnd 12%nat) 0 3 0)) ].

End SampleData.

(* ===================================================================== *)
(** ** The pages: form state, submit handlers, result panels *)
(* ===================================================================== *)

(** The response of the prediction service, as the pages declare it. *)
Record PredictionResult := {
  prediction : bool;
  probability : Q;
  risk_level : string
}.

(** [reduce] over [Object.entries(formData)] with the step
    [(acc, [key, value]) => ({...acc, [key]: f(key, value)})]. *)
Definition reduce_entries {A B} (f : string -> A -> B) (formData : Js.obj A)
  : Js.obj B :=
  fold_left (fun acc kv => Js.obj_set (fst kv) (f (fst kv) (snd kv)) acc)
            formData [].

(** src/app/diabetes/page.tsx *)
Module DiabetesPage.
Import Js.

(** The initial state of the form. *)
Definition formData : obj string :=
  [ ("Pregnancies", "4"); ("Glucose", "130"); ("BloodPressure", "78");
    ("SkinThickness", "25"); ("Insulin", "120"); ("BMI", "28.5");
    ("DiabetesPedigreeFunction", "0.85"); ("Age", "35") ].

(** [Number(formData.k)]; a property that is not there reads [undefined],
    and [Number(undefined)] is [NaN]. *)
Definition Number_of (formData : obj string) (k : string) : value :=
  match obj_get k formData with
  | Some s => VNum (Number s)
  | None => VNum NaN
  end.

(** The body [handlePredict] posts to [/predict/diabetes]. *)
Definition handlePredict (formData : obj string) : obj json :=
  JSON_stringify
    [ ("Pregnancies", Number_of formData "Pregnancies");
      ("Glucose", Number_of formData "Glucose");
      ("BloodPressure", Number_of formData "BloodPressure");
      ("SkinThickness", Number_of formData "SkinThickness");
      ("Insulin", Number_of formData "Insulin");
      ("BMI", Number_of formData "BMI");
      ("DiabetesPedigreeFunction", Number_of formData "DiabetesPedigreeFunction");
      ("Age", Number_of formData "Age") ].

End DiabetesPage.

(** src/app/heart/page.tsx *)
Module HeartPage.
Import Js.

Definition formData : obj string :=
  [ ("age", ""); ("sex", "1"); ("cp", "0"); ("trestbps", ""); ("chol", "");
    ("fbs", "0"); ("restecg", "0"); ("thalach", ""); ("exang", "0");
    ("slope", "0"); ("ca", "0"); ("thal", "1") ].

(** [setFormData(getRandomHeartData())] replaces the state. *)
Definition handleSampleData (rnd : nat -> Q) (prev : obj string) : obj string :=
  SampleData.getRandomHeartData rnd.

(** [setFormData(prev => ({...prev, [name]: value}))]. *)
Definition handleInputChange (name value : string) (prev : obj string)
  : obj string :=
  obj_set name value prev.

(** The body [handlePredict] posts to [/predict/heart]. *)
Definition handlePredict (formData : obj string) : obj json :=
  let numericFormData :=
    reduce_entries (fun key value => VNum (parseFloat value)) formData in
  JSON_stringify numericFormData.

End HeartPage.

(** The kidney page (src/unnamed/part_002). *)
Module KidneyPage.
Import Js.

Definition formData : obj string :=
  [ ("age", ""); ("bp", ""); ("sg", ""); ("al", ""); ("su", "");
    ("rbc", "normal"); ("pc", "normal"); ("pcc", "notpresent");
    ("ba", "notpresent"); ("bgr", ""); ("bu", ""); ("sc", ""); ("sod", "");
    ("pot", ""); ("hemo", ""); ("pcv", ""); ("wc", ""); ("rc", "");
    ("htn", "no"); ("dm", "no"); ("cad", "no"); ("appet", "good");
    ("pe", "no"); ("ane", "no") ].

Definition handleInputChange (name value : string) (prev : obj string)
  : obj string :=
  obj_set name value prev.

Definition numericFields : list string :=
  [ "age"; "bp"; "sg"; "al"; "su"; "bgr"; "bu"; "sc";
    "sod"; "pot"; "hemo"; "pcv"; "wc"; "rc" ].

Definition transformedValue (key value : string) : Js.value :=
  if includes numericFields key
  then (if String.eqb value "" then VNum (Fin 0) else VNum (Number value))
  else VStr value.

(** The body [handleSubmit] posts to [/predict/kidney]. *)
Definition handleSubmit (formData : obj string) : obj json :=
  let transformedData := reduce_entries transformedValue formData in
  JSON_stringify transformedData.

End KidneyPage.

(** src/app/breast/page.tsx *)
Module BreastPage.
Import Js.

Definition fields : list string :=
  [ "radius_mean"; "texture_mean"; "perimeter_mean"; "area_mean";
    "smoothness_mean"; "compactness_mean"; "concavity_mean";
    "concave_points_mean"; "symmetry_mean"; "fractal_dimension_mean";
    "radius_se"; "texture_se"; "perimeter_se"; "area_se"; "smoothness_se";
    "compactness_se"; "concavity_se"; "concave_points_se"; "symmetry_se";
    "fractal_dimension_se";
    "radius_worst"; "texture_worst"; "perimeter_worst"; "area_worst";
    "smoothness_worst"; "compactness_worst"; "concavity_worst";
    "concave_points_worst"; "symmetry_worst"; "fractal_dimension_worst" ].

(** The initial state: every field is the empty string. *)
Definition formData : obj string := map (fun k => (k, "")) fields.

Definition handleInputChange (name value : string) (prev : obj string)
  : obj string :=
  obj_set name value prev.

Definition transformedValue (key value : string) : Js.value :=
  if String.eqb value "" then VNum (Fin 0) else VNum (parseFloat value).

(** The body [handleSubmit] posts to [/predict/breast]. *)
Definition handleSubmit (formData : obj string) : obj json :=
  let transformedData := reduce_entries transformedValue formData in
  JSON_stringify transformedData.

End BreastPage.

(** What a result panel shows for a prediction. *)
Record Panel := {
  colour : string;
  message : string;
  percentage : string
}.

(** The lung page (second half of src/app/diabetes/page.tsx). *)
Module LungPage.
Import Js.
Local Open Scope Q_scope.

Definition panel (prediction : PredictionResult) : Panel :=
  let p := probability prediction in
  {| colour := if Qltb p (1 # 2) then "text-red-500" else "text-green-500";
     message :=
       if Qltb p (1 # 2)
       then "High risk of lung cancer detected. Please consult a healthcare provider immediately."
       else "Low risk of lung cancer detected. Continue monitoring your health.";
     percentage :=
       toString
         (Binary64.Math_round
            (Binary64.times (Binary64.double p) (Binary64.double 100)))
       ++ "%" |}.

End LungPage.

(** src/app/parkinsons/page.tsx *)
Module ParkinsonsPage.
Import Js.
Local Open Scope Q_scope.

Definition panel (prediction : PredictionResult) : Panel :=
  let p := probability prediction in
  {| colour := if Qle_bool (1 # 2) p then "text-red-500" else "text-green-500";
     message :=
       if Qle_bool (1 # 2) p
       then "High risk of Parkinson's disease detected. Please consult a healthcare provider."
       else "Low risk of Parkinson's disease detected. Continue monitoring your health.";
     percentage :=
       Binary64.toFixed
         (Binary64.times (Binary64.double p) (Binary64.double 100)) 1
       ++ "%" |}.

End ParkinsonsPage.

(** The number a panel would show if it printed the probability exactly,
    as a percentage. *)
Definition exact_percentage (prediction : PredictionResult) : string :=
  Js.toString (Js.Fin (Qred (probability prediction * 100))) ++ "%".

(** The reading under which both panels show the probability of the
    response as it is. *)
Definition probability_shown_unmodified : Prop :=
  forall prediction,
    percentage (LungPage.panel prediction) = exact_percentage prediction /\
    percentage (ParkinsonsPage.panel prediction) = exact_percentage prediction.

(** The two pages whose submit handler sends 0 for an empty field. *)
Inductive ZeroFillingPage := KidneyForm | BreastForm.

Definition handleSubmit_of (page : ZeroFillingPage)
  : Js.obj string -> Js.obj Js.json :=
  match page with
  | KidneyForm => KidneyPage.handleSubmit
  | BreastForm => BreastPage.handleSubmit
  end.

(** The fields a page converts to numbers: those of [numericFields] on the
    kidney page, all of them on the breast page. *)
Definition numeric_field (page : ZeroFillingPage) (k : string) : Prop :=
  match page with
  | KidneyForm => In k KidneyPage.numericFields
  | BreastForm => True
  end.

(* ===================================================================== *)
(** ** The core contract of the prediction service *)
(* ===================================================================== *)

(** The service behind [/predict/...] (the backend's request handlers) is
    not part of the sources at hand, only [helper.py] is; this module holds
    its tabular vectorizer and its scoring policy. *)
Module Core.
Import Js.
Local Open Scope Q_scope.

(** Modelled from the spec: the semantic types of a schema entry (the
    backend handler is missing). *)
Inductive semanticType :=
| numeric
| binary
| ordinal_category
| nominal_category.

(** Modelled from the spec: one entry of a FeatureSchema (the backend
    handler is missing): the name, the type, and for a category the table
    from the accepted tokens to their codes. *)
Record SchemaEntry := {
  fieldName : string;
  semType : semanticType;
  encodingRule : list (string * Z)
}.

Definition FeatureSchema := list SchemaEntry.
Definition FeatureVector := list Q.

(** The decoded JSON body of a request. *)
Definition RawRequest := obj json.

(** Modelled from the spec: the two errors of the tabular vectorizer (the
    backend handler is missing). *)
Inductive VectorizationError :=
| InvalidNumericValue (field : string)
| UnknownCategoryToken (field : string).

Inductive vectorized (A : Type) :=
| Accepted (a : A)
| Rejected (e : VectorizationError).
Arguments Accepted {A} a.
Arguments Rejected {A} e.

(** Modelled from the spec: the parse of a [numeric] or [binary] field of
    the tabular vectorizer (the backend handler is missing). A JSON number
    is taken as it is, a string must be a decimal literal, anything else is
    an [InvalidNumericValue]. *)
Definition parse_numeric (field : string) (raw : option json) : vectorized Q :=
  match raw with
  | Some (JNumber q) => Accepted q
  | Some (JString s) =>
      match StrDecimalLiteral (list_ascii_of_string s) with
      | Some (Fin q, []) => Accepted q
      | _ => Rejected (InvalidNumericValue field)
      end
  | _ => Rejected (InvalidNumericValue field)
  end.

(** Modelled from the spec: the look-up of a category token in the
    [encodingRule] of its field (the backend handler is missing). There is
    no fallback: a token that is not a key of the table, or a value that is
    not a token, is an [UnknownCategoryToken]. *)
Definition encode_category (field : string) (rule : list (string * Z))
    (raw : option json) : vectorized Q :=
  match raw with
  | Some (JString token) =>
      match obj_get token rule with
      | Some code => Accepted (inject_Z code)
      | None => Rejected (UnknownCategoryToken field)
      end
  | _ => Rejected (UnknownCategoryToken field)
  end.

(** Modelled from the spec: the slot of one schema entry (the backend
    handler is missing), by the semantic type of the entry. *)
Definition encode_entry (e : SchemaEntry) (req : RawRequest) : vectorized Q :=
  let raw := obj_get (fieldName e) req in
  match semType e with
  | numeric | binary => parse_numeric (fieldName e) raw
  | ordinal_category | nominal_category =>
      encode_category (fieldName e) (encodingRule e) raw
  end.

(** Modelled from the spec: [vectorize] of the tabular path (the backend
    handler is missing). The entries are taken in declared order, the
    first one that fails gives the error, and the slots come out in schema
    order. *)
Fixpoint vectorize (schema : FeatureSchema) (req : RawRequest)
  : vectorized FeatureVector :=
  match schema with
  | [] => Accepted []
  | e :: rest =>
      match encode_entry e req with
      | Rejected err => Rejected err
      | Accepted x =>
          match vectorize rest req with
          | Rejected err => Rejected err
          | Accepted xs => Accepted (x :: xs)
          end
      end
  end.

Definition num (name : string) : SchemaEntry :=
  {| fieldName := name; semType := numeric; encodingRule := [] |}.

Definition nominal (name : string) (rule : list (string * Z)) : SchemaEntry :=
  {| fieldName := name; semType := nominal_category; encodingRule := rule |}.

(** Modelled from the spec: the diabetes schema (the backend handler is
    missing), 8 numeric fields. *)
Definition diabetes_schema : FeatureSchema :=
  map num [ "Pregnancies"; "Glucose"; "BloodPressure"; "SkinThickness";
            "Insulin"; "BMI"; "DiabetesPedigreeFunction"; "Age" ].

(** Modelled from the spec: the token tables of the kidney schema (the
    backend handler is missing). *)
Definition normal_abnormal : list (string * Z) :=
  [("normal", 0%Z); ("abnormal", 1%Z)].

(** Modelled from the spec: the table of [pcc] and [ba] (the backend
    handler is missing). *)
Definition present_notpresent : list (string * Z) :=
  [("present", 1%Z); ("notpresent", 0%Z)].

(** Modelled from the spec: the table of the yes/no fields (the backend
    handler is missing). *)
Definition yes_no : list (string * Z) :=
  [("yes", 1%Z); ("no", 0%Z)].

(** Modelled from the spec: the tokens of [appet] (the backend handler is
    missing). The spec names the tokens and not their codes; the codes are
    those of the trainer's label encoder, classes in sorted order. *)
Definition good_poor : list (string * Z) :=
  [("good", 0%Z); ("poor", 1%Z)].

(** Modelled from the spec: the kidney schema (the backend handler is
    missing), 24 fields of which 14 are numeric and 10 nominal, in the
    column order of the kidney data set. *)
Definition kidney_schema : FeatureSchema :=
  [ num "age"; num "bp"; num "sg"; num "al"; num "su";
    nominal "rbc" normal_abnormal; nominal "pc" normal_abnormal;
    nominal "pcc" present_notpresent; nominal "ba" present_notpresent;
    num "bgr"; num "bu"; num "sc"; num "sod"; num "pot"; num "hemo";
    num "pcv"; num "wc"; num "rc";
    nominal "htn" yes_no; nominal "dm" yes_no; nominal "cad" yes_no;
    nominal "appet" good_poor; nominal "pe" yes_no; nominal "ane" yes_no ].

(** Modelled from the spec: the risk levels of a PredictionResult (the
    backend handler is missing). *)
Inductive RiskLevel := Low | Medium | High.

(** Modelled from the spec: what [classify] returns (the backend handler
    is missing). *)
Record Classification := {
  is_positive : bool;
  level : RiskLevel
}.

(** Modelled from the spec: [classify] of the risk classifier adapter (the
    backend handler is missing): positive from 0.5 on, [Low] under 0.3,
    [Medium] from 0.3 and under 0.7, [High] from 0.7 on. *)
Definition classify (probability : Q) : Classification :=
  {| is_positive := Qle_bool (5 # 10) probability;
     level := if Qltb probability (3 # 10) then Low
              else if Qltb probability (7 # 10) then Medium
              else High |}.

(** Modelled from the spec: the seven disease models of the service (the
    backend handler is missing). *)
Inductive Disease :=
| Diabetes | Heart | Liver | Kidney | Breast | Lung | Parkinsons.

(** Modelled from the spec: the classification the service answers for a
    model (the backend handler is missing); the policy takes no account of
    the model. *)
Definition classify_for (d : Disease) (probability : Q) : Classification :=
  classify probability.

(** The reading of the unknown-category scenario under which every kidney
    form that carries, in a nominal field, a token outside the table of
    the field fails with UnknownCategoryToken. *)
Definition unknown_category_always_reported : Prop :=
  forall (formData : obj string) (field token : string)
         (rule : list (string * Z)),
    NoDup (keys formData) ->
    In (nominal field rule) kidney_schema ->
    obj_get field formData = Some token ->
    obj_get token rule = None ->
    exists f, vectorize kidney_schema (KidneyPage.handleSubmit formData)
              = Rejected (UnknownCategoryToken f).

End Core.

(* ===================================================================== *)
(** ** More of the helper, the sample data and the pages *)
(* ===================================================================== *)

Module HelperOutput.
Import Py Helper.

(** What the turn of a symptom prints when the array has [n] slots:
    nothing when a slot is set, one line otherwise. *)
Definition said (cols : list string) (n : nat) (symptom : value)
  : list printed :=
  match symptom with
  | PyStr s =>
      match first_match cols (lower s) with
      | Some i =>
          if (i <? n)%nat then []
          else [ErrorProcessing symptom (IndexError i n)]
      | None => [WarningNotFound symptom]
      end
  | _ =>
      match cols with
      | [] => [WarningNotFound symptom]
      | _ :: _ => [ErrorProcessing symptom (AttributeError symptom "lower")]
      end
  end.

End HelperOutput.

(** Support for reading the digits that [toFixed] and [toString] write. *)
Module DigitText.
Import Js.

(** The value of a run of decimal digits read after [acc]. *)
Fixpoint uint_val (d : Decimal.uint) (acc : Z) : Z :=
  match d with
  | Decimal.Nil => acc
  | Decimal.D0 d => uint_val d (acc * 10)
  | Decimal.D1 d => uint_val d (acc * 10 + 1)
  | Decimal.D2 d => uint_val d (acc * 10 + 2)
  | Decimal.D3 d => uint_val d (acc * 10 + 3)
  | Decimal.D4 d => uint_val d (acc * 10 + 4)
  | Decimal.D5 d => uint_val d (acc * 10 + 5)
  | Decimal.D6 d => uint_val d (acc * 10 + 6)
  | Decimal.D7 d => uint_val d (acc * 10 + 7)
  | Decimal.D8 d => uint_val d (acc * 10 + 8)
  | Decimal.D9 d => uint_val d (acc * 10 + 9)
  end%Z.

(** The text does not go on with a digit. *)
Definition stops (rest : list ascii) : Prop :=
  match rest with
  | [] => True
  | c :: _ => digit c = None
  end.

(** A digit or the point. *)
Definition numeralb (c : ascii) : bool :=
  match digit c with
  | Some _ => true
  | None => Ascii.eqb c "."
  end.

(** [q] has at most [d] digits after the point. *)
Definition has_decimals (q : Q) (d : nat) : Prop :=
  Qden (Qred (q * Qpower (10 # 1) (Z.of_nat d))) = 1%positive.

End DigitText.

(** [String.prototype.toLowerCase] and [parseInt]. *)
Module JsText.
Import Js.

(** [s.toLowerCase()] on the ASCII range. *)
Definition toLowerCase (s : string) : string := Py.lower s.

(** The longest run of digits of the radix at the head of [s]: its value
    and the number of digits read. *)
Fixpoint radix_prefix (base : Z) (s : list ascii) (acc : Z) (n : nat)
  : Z * nat :=
  match s with
  | c :: r =>
      match radix_digit base c with
      | Some d => radix_prefix base r (acc * base + d)%Z (S n)
      | None => (acc, n)
      end
  | [] => (acc, n)
  end.

(** [parseInt(s)] with no radix: leading white space, a sign, a [0x]
    prefix for radix 16, then the longest run of digits; [NaN] when there
    is no digit. *)
Definition parseInt (s : string) : number :=
  let '(neg, s1) := sign (trim_start (list_ascii_of_string s)) in
  let '(base, s2) :=
    match s1 with
    | "0"%char :: p :: r =>
        if Ascii.eqb p "x" || Ascii.eqb p "X" then (16%Z, r) else (10%Z, s1)
    | _ => (10%Z, s1)
    end in
  let '(v, n) := radix_prefix base s2 0%Z 0%nat in
  if (n =? 0)%nat then NaN else Fin (inject_Z (if neg then - v else v)).

(** [k] is an array index, the canonical text of an integer from 0 to
    [2^32 - 2]: JavaScript enumerates the properties with such names
    first, in ascending order, whenever they were added. *)
Definition array_index (k : string) : bool :=
  let '(v, n, rest) := digits (list_ascii_of_string k) 0%Z 0%nat in
  match rest with
  | [] => negb (n =? 0)%nat && String.eqb (string_of_nonneg v) k
          && (v <? 2 ^ 32 - 1)%Z
  | _ :: _ => false
  end.

(** [data.k] for a property the object has. *)
Definition prop (data : obj string) (k : string) : string :=
  match obj_get k data with
  | Some v => v
  | None => ""
  end.

End JsText.

(** The rest of src/utils/sampleData.ts used below. *)
Module SampleGenerators.
Import Js SampleData.
Local Open Scope Q_scope.

(** [Math.random() > 0.5 ? a : b] for a draw [r]. *)
Definition coin (r : Q) (a b : string) : string :=
  if Qltb (1 # 2) r then a else b.

(** [getRandomDiabetesData()]; [rnd k] is the [k]-th draw. *)
Definition getRandomDiabetesData (rnd : nat -> Q) : obj string :=
  [ ("Pregnancies", formatNumber (getRandomNumber (rnd 0%nat) 0 17 0));
    ("Glucose", formatNumber (getRandomNumber (rnd 1%nat) 70 200 0));
    ("BloodPressure", formatNumber (getRandomNumber (rnd 2%nat) 50 130 0));
    ("SkinThickness", formatNumber (getRandomNumber (rnd 3%nat) 0 60 0));
    ("Insulin", formatNumber (getRandomNumber (rnd 4%nat) 0 850 0));
    ("BMI", formatNumber (getRandomNumber (rnd 5%nat) 15 60 1));
    ("DiabetesPedigreeFunction",
     formatNumber (getRandomNumber (rnd 6%nat) (1 # 10) (25 # 10) 3));
    ("Age", formatNumber (getRandomNumber (rnd 7%nat) 21 85 0)) ].

(** [getRandomLiverData()]. *)
Definition getRandomLiverData (rnd : nat -> Q) : obj string :=
  [ ("age", formatNumber (getRandomNumber (rnd 0%nat) 4 90 0));
    ("gender", formatNumber (getRandomNumber (rnd 1%nat) 0 1 0));
    ("total_bilirubin",
     formatNumber (getRandomNumber (rnd 2%nat) (1 # 10) 75 1));
    ("direct_bilirubin", formatNumber (getRandomNumber (rnd 3%nat) 0 20 1));
    ("alkaline_phosphotase",
     formatNumber (getRandomNumber (rnd 4%nat) 60 2200 0));
    ("alamine_aminotransferase",
     formatNumber (getRandomNumber (rnd 5%nat) 10 2000 0));
    ("aspartate_aminotransferase",
     formatNumber (getRandomNumber (rnd 6%nat) 10 5000 0));
    ("total_proteins", formatNumber (getRandomNumber (rnd 7%nat) 2 10 1));
    ("albumin", formatNumber (getRandomNumber (rnd 8%nat) (9 # 10) 6 1));
    ("albumin_globulin_ratio",
     formatNumber (getRandomNumber (rnd 9%nat) (3 # 10) 3 1)) ].

(** [getRandomKidneyData()]. *)
Definition getRandomKidneyData (rnd : nat -> Q) : obj string :=
  [ ("age", formatNumber (getRandomNumber (rnd 0%nat) 2 90 0));
    ("bp", formatNumber (getRandomNumber (rnd 1%nat) 50 180 0));
    ("sg", formatNumber
             (getRandomNumber (rnd 2%nat) (1005 # 1000) (1025 # 1000) 3));
    ("al", formatNumber (getRandomNumber (rnd 3%nat) 0 5 0));
    ("su", formatNumber (getRandomNumber (rnd 4%nat) 0 5 0));
    ("rbc", coin (rnd 5%nat) "normal" "abnormal");
    ("pc", coin (rnd 6%nat) "normal" "abnormal");
    ("pcc", coin (rnd 7%nat) "present" "notpresent");
    ("ba", coin (rnd 8%nat) "present" "notpresent");
    ("bgr", formatNumber (getRandomNumber (rnd 9%nat) 70 490 0));
    ("bu", formatNumber (getRandomNumber (rnd 10%nat) 10 200 0));
    ("sc", formatNumber (getRandomNumber (rnd 11%nat) (4 # 10) 15 1));
    ("sod", formatNumber (getRandomNumber (rnd 12%nat) 110 150 0));
    ("pot", formatNumber (getRandomNumber (rnd 13%nat) 2 7 1));
    ("hemo", formatNumber (getRandomNumber (rnd 14%nat) (31 # 10) (178 # 10) 1));
    ("pcv", formatNumber (getRandomNumber (rnd 15%nat) 9 54 0));
    ("wc", formatNumber (getRandomNumber (rnd 16%nat) 3800 21000 0));
    ("rc", formatNumber (getRandomNumber (rnd 17%nat) (21 # 10) 8 1));
    ("htn", coin (rnd 18%nat) "yes" "no");
    ("dm", coin (rnd 19%nat) "yes" "no");
    ("cad", coin (rnd 20%nat) "yes" "no");
    ("appet", coin (rnd 21%nat) "good" "poor");
    ("pe", coin (rnd 22%nat) "yes" "no");
    ("ane", coin (rnd 23%nat) "yes" "no") ].

(** [getRandomParkinsonsData()]. *)
Definition getRandomParkinsonsData (rnd : nat -> Q) : obj string :=
  [ ("Fo", formatNumber (getRandomNumber (rnd 0%nat) 80 260 3));
    ("Fhi", formatNumber (getRandomNumber (rnd 1%nat) 80 260 3));
    ("Flo", formatNumber (getRandomNumber (rnd 2%nat) 80 260 3));
    ("jitterPercent", formatNumber (getRandomNumber (rnd 3%nat) 0 1 3));
    ("jitterAbs", formatNumber (getRandomNumber (rnd 4%nat) 0 (1 # 1000) 6));
    ("RAP", formatNumber (getRandomNumber (rnd 5%nat) 0 (3 # 1000) 6));
    ("PPQ", formatNumber (getRandomNumber (rnd 6%nat) 0 (3 # 1000) 6));
    ("DDP", formatNumber (getRandomNumber (rnd 7%nat) 0 (3 # 1000) 6));
    ("Shimmer", formatNumber (getRandomNumber (rnd 8%nat) 0 (2 # 10) 3));
    ("shimmerDb", formatNumber (getRandomNumber (rnd 9%nat) 0 2 3));
    ("APQ3", formatNumber (getRandomNumber (rnd 10%nat) 0 (5 # 100) 3));
    ("APQ5", formatNumber (getRandomNumber (rnd 11%nat) 0 (5 # 100) 3));
    ("APQ", formatNumber (getRandomNumber (rnd 12%nat) 0 (15 # 100) 3));
    ("DDA", formatNumber (getRandomNumber (rnd 13%nat) 0 (15 # 100) 3));
    ("NHR", formatNumber (getRandomNumber (rnd 14%nat) 0 (5 # 10) 3));
    ("HNR", formatNumber (getRandomNumber (rnd 15%nat) 0 40 3));
    ("RPDE", formatNumber (getRandomNumber (rnd 16%nat) 0 1 3));
    ("DFA", formatNumber (getRandomNumber (rnd 17%nat) 0 1 3));
    ("spread1", formatNumber (getRandomNumber (rnd 18%nat) (-8) 8 3));
    ("spread2", formatNumber (getRandomNumber (rnd 19%nat) 0 1 3));
    ("D2", formatNumber (getRandomNumber (rnd 20%nat) 0 5 3));
    ("PPE", formatNumber (getRandomNumber (rnd 21%nat) 0 1 3)) ].

(** [getRandomLungData()]; the first draw is the one of the gender. *)
Definition getRandomLungData (rnd : nat -> Q) : obj string :=
  [ ("gender", coin (rnd 0%nat) "M" "F");
    ("age", formatNumber (getRandomNumber (rnd 1%nat) 20 90 0));
    ("smoking", formatNumber (getRandomNumber (rnd 2%nat) 0 1 0));
    ("yellow_fingers", formatNumber (getRandomNumber (rnd 3%nat) 0 1 0));
    ("anxiety", formatNumber (getRandomNumber (rnd 4%nat) 0 1 0));
    ("peer_pressure", formatNumber (getRandomNumber (rnd 5%nat) 0 1 0));
    ("chronic_disease", formatNumber (getRandomNumber (rnd 6%nat) 0 1 0));
    ("fatigue", formatNumber (getRandomNumber (rnd 7%nat) 0 1 0));
    ("allergy", formatNumber (getRandomNumber (rnd 8%nat) 0 1 0));
    ("wheezing", formatNumber (getRandomNumber (rnd 9%nat) 0 1 0));
    ("alcohol_consuming", formatNumber (getRandomNumber (rnd 10%nat) 0 1 0));
    ("coughing", formatNumber (getRandomNumber (rnd 11%nat) 0 1 0));
    ("shortness_of_breath",
     formatNumber (getRandomNumber (rnd 12%nat) 0 1 0));
    ("swallowing_difficulty",
     formatNumber (getRandomNumber (rnd 13%nat) 0 1 0));
    ("chest_pain", formatNumber (getRandomNumber (rnd 14%nat) 0 1 0)) ].

(** [getRandomBreastData()]; a call with no third argument draws a whole
    number. *)
Definition getRandomBreastData (rnd : nat -> Q) : obj string :=
  [ ("radius_mean", formatNumber (getRandomNumber (rnd 0%nat) 6 28 2));
    ("texture_mean", formatNumber (getRandomNumber (rnd 1%nat) 9 40 2));
    ("perimeter_mean", formatNumber (getRandomNumber (rnd 2%nat) 43 190 2));
    ("area_mean", formatNumber (getRandomNumber (rnd 3%nat) 140 2500 0));
    ("smoothness_mean",
     formatNumber (getRandomNumber (rnd 4%nat) (5 # 100) (16 # 100) 4));
    ("compactness_mean",
     formatNumber (getRandomNumber (rnd 5%nat) (2 # 100) (35 # 100) 4));
    ("concavity_mean",
     formatNumber (getRandomNumber (rnd 6%nat) 0 (5 # 10) 4));
    ("concave_points_mean",
     formatNumber (getRandomNumber (rnd 7%nat) 0 (2 # 10) 4));
    ("symmetry_mean",
     formatNumber (getRandomNumber (rnd 8%nat) (1 # 10) (3 # 10) 4));
    ("fractal_dimension_mean",
     formatNumber (getRandomNumber (rnd 9%nat) (5 # 100) (1 # 10) 4));
    ("radius_se",
     formatNumber (getRandomNumber (rnd 10%nat) (1 # 10) (29 # 10) 4));
    ("texture_se",
     formatNumber (getRandomNumber (rnd 11%nat) (3 # 10) (45 # 10) 4));
    ("perimeter_se",
     formatNumber (getRandomNumber (rnd 12%nat) (7 # 10) 22 4));
    ("area_se", formatNumber (getRandomNumber (rnd 13%nat) 6 550 0));
    ("smoothness_se",
     formatNumber (getRandomNumber (rnd 14%nat) (1 # 1000) (3 # 100) 6));
    ("compactness_se",
     formatNumber (getRandomNumber (rnd 15%nat) (2 # 1000) (14 # 100) 6));
    ("concavity_se",
     formatNumber (getRandomNumber (rnd 16%nat) 0 (4 # 10) 6));
    ("concave_points_se",
     formatNumber (getRandomNumber (rnd 17%nat) 0 (5 # 100) 6));
    ("symmetry_se",
     formatNumber (getRandomNumber (rnd 18%nat) (8 # 1000) (8 # 100) 6));
    ("fractal_dimension_se",
     formatNumber (getRandomNumber (rnd 19%nat) (1 # 1000) (3 # 100) 6));
    ("radius_worst", formatNumber (getRandomNumber (rnd 20%nat) 7 36 2));
    ("texture_worst", formatNumber (getRandomNumber (rnd 21%nat) 12 50 2));
    ("perimeter_worst", formatNumber (getRandomNumber (rnd 22%nat) 50 250 2));
    ("area_worst", formatNumber (getRandomNumber (rnd 23%nat) 180 4000 0));
    ("smoothness_worst",
     formatNumber (getRandomNumber (rnd 24%nat) (7 # 100) (22 # 100) 4));
    ("compactness_worst",
     formatNumber (getRandomNumber (rnd 25%nat) (3 # 100) (11 # 10) 4));
    ("concavity_worst",
     formatNumber (getRandomNumber (rnd 26%nat) 0 (13 # 10) 4));
    ("concave_points_worst",
     formatNumber (getRandomNumber (rnd 27%nat) 0 (3 # 10) 4));
    ("symmetry_worst",
     formatNumber (getRandomNumber (rnd 28%nat) (15 # 100) (7 # 10) 4));
    ("fractal_dimension_worst",
     formatNumber (getRandomNumber (rnd 29%nat) (5 # 100) (2 # 10) 4)) ].

End SampleGenerators.

(** The form of the lung page (second half of src/app/diabetes/page.tsx). *)
Module LungForm.
Import Js.

Definition formData : obj string :=
  [ ("gender", "M"); ("age", ""); ("smoking", "0"); ("yellow_fingers", "0");
    ("anxiety", "0"); ("peer_pressure", "0"); ("chronic_disease", "0");
    ("fatigue", "0"); ("allergy", "0"); ("wheezing", "0");
    ("alcohol_consuming", "0"); ("coughing", "0");
    ("shortness_of_breath", "0"); ("swallowing_difficulty", "0");
    ("chest_pain", "0") ].

Definition handleUseSampleData (rnd : nat -> Q) (prev : obj string)
  : obj string :=
  SampleGenerators.getRandomLungData rnd.

Definition handleInputChange (name value : string) (prev : obj string)
  : obj string :=
  obj_set name value prev.

(** The body [handleSubmit] posts to [/predict/lung]: the form as it is,
    its texts not converted. *)
Definition handleSubmit (formData : obj string) : obj json :=
  JSON_stringify (map (fun kv => (fst kv, VStr (snd kv))) formData).

(** The fields shown as a select of the options [0], [1] and [2]. *)
Definition selects : list string :=
  [ "smoking"; "yellow_fingers"; "anxiety"; "peer_pressure";
    "chronic_disease"; "fatigue"; "allergy"; "wheezing"; "alcohol_consuming";
    "coughing"; "shortness_of_breath"; "swallowing_difficulty"; "chest_pain" ].

Definition options : list string := [ "0"; "1"; "2" ].

End LungForm.

(** src/app/breast/page.tsx, the sample-data button. *)
Module BreastSample.
Import Js.

(** [setFormData(getRandomBreastData())]. *)
Definition handleSampleData (rnd : nat -> Q) (prev : obj string) : obj string :=
  SampleGenerators.getRandomBreastData rnd.

End BreastSample.

(** src/app/diabetes/page.tsx, the sample-data button. *)
Module DiabetesSample.
Import Js.

(** [setFormData(getRandomDiabetesData())]. *)
Definition handleSampleData (rnd : nat -> Q) (prev : obj string) : obj string :=
  SampleGenerators.getRandomDiabetesData rnd.

End DiabetesSample.

(** src/app/parkinsons/page.tsx, the request. *)
Module ParkinsonsForm.
Import Js JsText.

(** The fields of the form, in the order of its initial state. *)
Definition fields : list string :=
  [ "fo"; "fhi"; "flo"; "jitter_percent"; "jitter_abs"; "rap"; "ppq"; "ddp";
    "shimmer"; "shimmer_db"; "apq3"; "apq5"; "apq"; "dda"; "nhr"; "hnr";
    "rpde"; "dfa"; "spread1"; "spread2"; "d2"; "ppe" ].

(** The initial state: every field is the empty string. *)
Definition formData : obj string := map (fun k => (k, "")) fields.

(** [handleSampleData]: the sample data under the names of the form. *)
Definition handleSampleData (rnd : nat -> Q) (prev : obj string) : obj string :=
  let data := SampleGenerators.getRandomParkinsonsData rnd in
  [ ("fo", prop data "Fo"); ("fhi", prop data "Fhi"); ("flo", prop data "Flo");
    ("jitter_percent", prop data "jitterPercent");
    ("jitter_abs", prop data "jitterAbs");
    ("rap", prop data "RAP"); ("ppq", prop data "PPQ"); ("ddp", prop data "DDP");
    ("shimmer", prop data "Shimmer"); ("shimmer_db", prop data "shimmerDb");
    ("apq3", prop data "APQ3"); ("apq5", prop data "APQ5");
    ("apq", prop data "APQ"); ("dda", prop data "DDA");
    ("nhr", prop data "NHR"); ("hnr", prop data "HNR");
    ("rpde", prop data "RPDE"); ("dfa", prop data "DFA");
    ("spread1", prop data "spread1"); ("spread2", prop data "spread2");
    ("d2", prop data "D2"); ("ppe", prop data "PPE") ].

(** The body [handlePredict] posts to [/predict/parkinsons]. *)
Definition handlePredict (formData : obj string) : obj json :=
  let numericFormData :=
    reduce_entries (fun key value => VNum (parseFloat value)) formData in
  JSON_stringify numericFormData.

End ParkinsonsForm.

(** src/app/liver/page.tsx *)
Module LiverPage.
Import Js JsText.

Definition formData : obj string :=
  [ ("age", ""); ("gender", "1"); ("total_bilirubin", "");
    ("direct_bilirubin", ""); ("alkaline_phosphotase", "");
    ("alamine_aminotransferase", ""); ("aspartate_aminotransferase", "");
    ("total_proteins", ""); ("albumin", ""); ("albumin_globulin_ratio", "") ].

Definition handleInputChange (name value : string) (prev : obj string)
  : obj string :=
  obj_set name value prev.

Definition handleSampleData (rnd : nat -> Q) (prev : obj string) : obj string :=
  SampleGenerators.getRandomLiverData rnd.

(** [parseFloat(formData.k)]; a property that is not there reads
    [undefined], which [parseFloat] and [parseInt] turn into [NaN]. *)
Definition parseFloat_of (formData : obj string) (k : string) : value :=
  match obj_get k formData with
  | Some s => VNum (parseFloat s)
  | None => VNum NaN
  end.

Definition parseInt_of (formData : obj string) (k : string) : value :=
  match obj_get k formData with
  | Some s => VNum (parseInt s)
  | None => VNum NaN
  end.

(** [formData.gender === '1' ? 1 : 0]. *)
Definition gender_of (formData : obj string) : value :=
  match obj_get "gender" formData with
  | Some s => if String.eqb s "1" then VNum (Fin 1) else VNum (Fin 0)
  | None => VNum (Fin 0)
  end.

(** The body [handleSubmit] posts to [/predict/liver]. *)
Definition handleSubmit (formData : obj string) : obj json :=
  let numericFormData :=
    [ ("age", parseInt_of formData "age");
      ("gender", gender_of formData);
      ("total_bilirubin", parseFloat_of formData "total_bilirubin");
      ("direct_bilirubin", parseFloat_of formData "direct_bilirubin");
      ("alkaline_phosphotase", parseFloat_of formData "alkaline_phosphotase");
      ("alamine_aminotransferase",
       parseFloat_of formData "alamine_aminotransferase");
      ("aspartate_aminotransferase",
       parseFloat_of formData "aspartate_aminotransferase");
      ("total_proteins", parseFloat_of formData "total_proteins");
      ("albumin", parseFloat_of formData "albumin");
      ("albumin_globulin_ratio",
       parseFloat_of formData "albumin_globulin_ratio") ] in
  JSON_stringify numericFormData.

End LiverPage.

(** The kidney page (src/unnamed/part_002): the sample-data button, the
    select fields and the colours of the result panel. *)
Module KidneyPanel.
Import Js JsText.
Local Open Scope Q_scope.

(** [handleSampleData]: the sample data spread into [typedData], with its
    ten choice fields written again. *)
Definition handleSampleData (rnd : nat -> Q) (prev : obj string) : obj string :=
  let data := SampleGenerators.getRandomKidneyData rnd in
  fold_left (fun acc k => obj_set k (prop data k) acc)
            [ "rbc"; "pc"; "pcc"; "ba"; "htn"; "dm"; "cad"; "appet"; "pe"; "ane" ]
            data.

(** The fields of [selectGroups] with their options. *)
Definition selectGroups : list (string * list string) :=
  [ ("rbc", ["normal"; "abnormal"]); ("pc", ["normal"; "abnormal"]);
    ("pcc", ["present"; "notpresent"]); ("ba", ["present"; "notpresent"]);
    ("htn", ["yes"; "no"]); ("dm", ["yes"; "no"]); ("cad", ["yes"; "no"]);
    ("appet", ["good"; "poor"]); ("pe", ["yes"; "no"]); ("ane", ["yes"; "no"]) ].

Definition getRiskColor (risk : string) : string :=
  let r := toLowerCase risk in
  if String.eqb r "high" then "bg-red-500"
  else if String.eqb r "medium" then "bg-yellow-500"
  else if String.eqb r "low" then "bg-green-500"
  else "bg-blue-500".

Definition getProbabilityColor (probability : Q) : string :=
  if Qle_bool 70 probability then "text-red-500"
  else if Qle_bool 30 probability then "text-yellow-500"
  else "text-green-500".

(** The [stroke] of the progress circle. *)
Definition stroke (probability : Q) : string :=
  if Qle_bool 70 probability then "#EF4444"
  else if Qle_bool 30 probability then "#F59E0B"
  else "#10B981".

(** The colour name in the text class of the risk level:
    [text-${...}-400]. *)
Definition risk_text (risk_level : string) : string :=
  if String.eqb (toLowerCase risk_level) "high" then "red"
  else if String.eqb (toLowerCase risk_level) "medium" then "yellow"
  else "green".

End KidneyPanel.

(* ===================================================================== *)
(** * Properties *)
(* ===================================================================== *)

(** ** The models at work *)

Section Runs.
Import Py Helper Js.

(** A run of the helper on a header with two columns that differ by case
    only: a matching token, a value that is not a string, the name of the
    last column, an unknown token, and a second matching token. *)
Example prepare_symptoms_array_run :
  prepare_symptoms_array
    {| columns := ["Fever"; "fever"; "Cough"; "Disease"] |}
    [PyStr "FEVER"; PyInt 3; PyStr "disease"; PyStr "rash"; PyStr "cough"]
  = Ok ([1%Z; 0%Z; 1%Z],
        [ AvailableColumns ["Fever"; "fever"; "Cough"; "Disease"];
          ReceivedSymptoms [PyStr "FEVER"; PyInt 3; PyStr "disease";
                            PyStr "rash"; PyStr "cough"];
          ErrorProcessing (PyInt 3) (AttributeError (PyInt 3) "lower");
          ErrorProcessing (PyStr "disease") (IndexError 3 3);
          WarningNotFound (PyStr "rash") ]).
Proof. reflexivity. Qed.

Example Number_runs :
  Number "28.5" = Fin (decimal 285 1) /\ Number "0.85" = Fin (decimal 85 2) /\
  Number "" = Fin 0 /\ Number " 12 " = Fin 12 /\ Number "12abc" = NaN /\
  Number "0x1F" = Fin 31 /\ Number "-.5" = Fin (- (1 # 2)) /\
  Number "1e3" = Fin 1000.
Proof. repeat split; reflexivity. Qed.

Example parseFloat_runs :
  parseFloat "" = NaN /\ parseFloat "0" = Fin 0 /\
  parseFloat "12abc" = Fin 12 /\ parseFloat "  3.25 " = Fin (13 # 4) /\
  parseFloat "." = NaN /\ parseFloat "1e" = Fin 1.
Proof. repeat split; reflexivity. Qed.

Example number_printing_runs :
  toFixed 25 0 = "25" /\ toFixed 0 1 = "0.0" /\
  toFixed (12345 # 1000) 1 = "12.3" /\
  toString (Fin (57 # 2)) = "28.5" /\ toString (Fin 120) = "120" /\
  toString (Fin (1 # 1000000)) = "0.000001" /\
  Math_round (123 # 10) = 12%Z.
Proof. repeat split; reflexivity. Qed.

End Runs.

(** ** The symptom vectorizer *)

Section HelperFacts.
Import Py Helper.












Lemma first_match_spec (cols : list string) (s : string) (i : nat) :
  first_match cols s = Some i <->
  (exists c, cols !! i = Some c /\ lower c = s) /\
  (forall j c, (j < i)%nat -> cols !! j = Some c -> lower c <> s).
Proof.
  revert i. induction cols as [|c rest IH]; intros i; simpl.
  - split; [discriminate|]. intros [(c & H & _) _]. discriminate.
  - destruct (String.eqb (lower c) s) eqn:E.
    + apply String.eqb_eq in E. split.
      * intros [= <-]. split; [eauto|]. intros j c' Hj. lia.
      * intros [_ Hmin]. destruct i as [|i]; [reflexivity|].
        destruct (Hmin 0%nat c); [lia|reflexivity|exact E].
    + apply String.eqb_neq in E.
      destruct (first_match rest s) as [k|].
      * split.
        -- intros [= <-]. destruct (proj1 (IH k) eq_refl) as [Hex Hmin].
           split; [exact Hex|].
           intros [|j] c' Hj Hc; simpl in Hc.
           ++ now injection Hc as <-.
           ++ apply (Hmin j); [lia|exact Hc].
        -- intros [(c' & Hc & Hl) Hmin]. destruct i as [|i]; simpl in Hc.
           ++ injection Hc as <-. contradiction.
           ++ assert (Some k = Some i) as [= ->]; [|reflexivity].
              apply IH. split; [eauto|].
              intros j c'' Hj Hc''. apply (Hmin (S j)); [lia|exact Hc''].
      * split; [discriminate|].
        intros [(c' & Hc & Hl) Hmin]. destruct i as [|i]; simpl in Hc.
        -- injection Hc as <-. contradiction.
        -- assert (@None nat = Some i) as Hi; [|discriminate].
           apply IH. split; [eauto|].
           intros j c'' Hj Hc''. apply (Hmin (S j)); [lia|exact Hc''].
Qed.

Lemma vocabulary_length (df : DataFrame) :
  length (vocabulary df) = (length (columns df) - 1)%nat.
Proof. unfold vocabulary. rewrite length_take. lia. Qed.

Lemma vocabulary_lookup (df : DataFrame) (i : nat) (col : string) :
  vocabulary df !! i = Some col <->
  (i < length (columns df) - 1)%nat /\ columns df !! i = Some col.
Proof.
  unfold vocabulary. rewrite lookup_take_Some. tauto.
Qed.


End HelperFacts.

(** ** The helper on any [str.lower] and any standard output *)

Section HelperPyFacts.
Import Py Helper HelperPy.
Variable lower : string -> string.
Variable stdout : printed -> option exn.

Local Abbreviation first_match := (HelperPy.first_match lower).
Local Abbreviation mark := (HelperPy.mark lower).
Local Abbreviation attempt_of := (HelperPy.attempt_of lower).
Local Abbreviation said := (HelperPy.said lower stdout).
Local Abbreviation lines := (HelperPy.lines lower stdout).
Local Abbreviation print := (HelperPy.print stdout).
Local Abbreviation print_all := (HelperPy.print_all stdout).
Local Abbreviation try_body := (HelperPy.try_body lower stdout).
Local Abbreviation loop_step := (HelperPy.loop_step lower stdout).
Local Abbreviation for_loop := (HelperPy.for_loop lower stdout).
Local Abbreviation prepare_symptoms_array :=
  (HelperPy.prepare_symptoms_array lower stdout).

(** The comprehension never raises on a string, and its head is the first
    column that matches. *)
Lemma run_matching_cols_str (cols : list string) (s : string) :
  exists m, HelperPy.matching_cols lower cols (PyStr s) = Ok m /\
    match m with
    | [] => first_match cols (lower s) = None
    | first :: _ =>
        exists i, first_match cols (lower s) = Some i /\
                  get_loc cols first = Some i /\ lower first = lower s
    end.
Proof.
  induction cols as [|c rest IH]; simpl.
  - exists []. split; reflexivity.
  - destruct IH as (m & Hm & Hspec). rewrite Hm. simpl.
    destruct (String.eqb (lower c) (lower s)) eqn:E.
    + exists (c :: m). split; [reflexivity|].
      exists 0%nat. rewrite String.eqb_refl.
      apply String.eqb_eq in E. auto.
    + exists m. split; [reflexivity|].
      destruct m as [|first m'].
      * now rewrite Hspec.
      * destruct Hspec as (i & Hf & Hg & Hl).
        exists (S i). rewrite Hf, Hg.
        destruct (String.eqb c first) eqn:E'.
        -- apply String.eqb_eq in E'. subst first.
           rewrite Hl, String.eqb_refl in E. discriminate.
        -- auto.
Qed.

Lemma run_matching_cols_not_str (c : string) (rest : list string) (v : value) :
  (forall s, v <> PyStr s) ->
  HelperPy.matching_cols lower (c :: rest) v = Raise (AttributeError v "lower").
Proof.
  intros H. destruct v; simpl; try reflexivity. now destruct (H s).
Qed.

(** The [try] block, case by case. *)
Lemma run_try_body_eq (cols : list string) (symptom : value)
    (a : ndarray) (out : list printed) :
  try_body cols symptom (a, out) =
    match attempt_of cols (length a) symptom with
    | Sets i => Ok (<[i := 1%Z]> a, out)
    | Warns => out' ← print (WarningNotFound symptom) out; Ok (a, out')
    | Fails e => Raise e
    end.
Proof.
  unfold HelperPy.try_body, HelperPy.attempt_of.
  destruct symptom as [s| | |].
  - destruct (run_matching_cols_str cols s) as (m & Hm & Hspec).
    rewrite Hm. simpl. destruct m as [|first m'].
    + now rewrite Hspec.
    + destruct Hspec as (i & Hf & Hg & _). rewrite Hf, Hg. simpl.
      unfold setitem. now destruct (i <? length a)%nat.
  - destruct cols; [reflexivity|]. now rewrite run_matching_cols_not_str.
  - destruct cols; [reflexivity|]. now rewrite run_matching_cols_not_str.
  - destruct cols; [reflexivity|]. now rewrite run_matching_cols_not_str.
Qed.

(** The array after a turn. *)
Lemma run_mark_attempt (cols : list string) (a : ndarray) (symptom : value) :
  mark cols a symptom =
    match attempt_of cols (length a) symptom with
    | Sets i => <[i := 1%Z]> a
    | _ => a
    end.
Proof.
  unfold HelperPy.mark, HelperPy.attempt_of.
  destruct symptom as [s| | |]; try (destruct cols; reflexivity).
  destruct (first_match cols (lower s)) as [i|]; [|reflexivity].
  destruct (i <? length a)%nat eqn:E; [reflexivity|].
  apply Nat.ltb_ge in E. now apply list_insert_ge.
Qed.

(** A turn of the loop writes its line, if it has one, and leaves the
    array marked; when the line cannot be written the error of [print]
    leaves the loop. *)
Lemma run_loop_step_eq (cols : list string) (symptom : value)
    (a : ndarray) (out : list printed) :
  loop_step cols (a, out) symptom =
    out' ← print_all (said cols (length a) symptom) out;
    Ok (mark cols a symptom, out').
Proof.
  unfold HelperPy.loop_step. rewrite run_try_body_eq, run_mark_attempt.
  unfold HelperPy.said.
  destruct (attempt_of cols (length a) symptom) as [i| |e]; simpl.
  - reflexivity.
  - unfold HelperPy.print.
    destruct (stdout (WarningNotFound symptom)) as [e|] eqn:E; simpl.
    + unfold HelperPy.print.
      now destruct (stdout (ErrorProcessing symptom e)).
    + unfold HelperPy.print. now rewrite E.
  - unfold HelperPy.print. now destruct (stdout (ErrorProcessing symptom e)).
Qed.

Lemma run_print_all_app (l1 l2 out : list printed) :
  print_all (l1 ++ l2) out = out' ← print_all l1 out; print_all l2 out'.
Proof.
  revert out. induction l1 as [|l l1 IH]; intros out; simpl; [reflexivity|].
  destruct (print l out) as [o|e]; simpl; [apply IH|reflexivity].
Qed.

(** When every line is accepted, all of them are written. *)
Lemma run_print_all_accepted (ls out : list printed) :
  Forall (fun l => stdout l = None) ls -> print_all ls out = Ok (out ++ ls).
Proof.
  intros H. revert out. induction H as [|l ls Hl _ IH]; intros out; simpl.
  - now rewrite app_nil_r.
  - unfold HelperPy.print. rewrite Hl. simpl. rewrite IH.
    now rewrite <- app_assoc.
Qed.

(** [print_all] returns only when every line was accepted. *)
Lemma run_print_all_Ok (ls out out' : list printed) :
  print_all ls out = Ok out' ->
  out' = out ++ ls /\ Forall (fun l => stdout l = None) ls.
Proof.
  revert out. induction ls as [|l ls IH]; intros out; simpl.
  - intros [= <-]. now rewrite app_nil_r.
  - unfold HelperPy.print. destruct (stdout l) eqn:E; [discriminate|]. simpl.
    intros H. apply IH in H as [-> H]. rewrite <- app_assoc. auto.
Qed.

(** The first line that is refused ends the printing with its error. *)
Lemma run_print_all_refused (pre post out : list printed) (l : printed)
    (e : exn) :
  Forall (fun l => stdout l = None) pre -> stdout l = Some e ->
  print_all (pre ++ l :: post) out = Raise e.
Proof.
  intros Hpre Hl. rewrite run_print_all_app, run_print_all_accepted by exact Hpre.
  simpl. unfold HelperPy.print. now rewrite Hl.
Qed.

Lemma run_mark_length (cols : list string) (a : ndarray) (symptom : value) :
  length (mark cols a symptom) = length a.
Proof.
  destruct symptom as [s| | |]; simpl; try reflexivity.
  destruct (first_match cols (lower s)); [apply length_insert|reflexivity].
Qed.

Lemma run_fold_mark_length (cols : list string) (symptoms : list value)
    (a : ndarray) :
  length (fold_left (mark cols) symptoms a) = length a.
Proof.
  revert a. induction symptoms as [|x rest IH]; intros a; simpl; [reflexivity|].
  now rewrite IH, run_mark_length.
Qed.

(** The loop, in one equation. *)
Lemma run_for_loop_eq (cols : list string) (l : list value) (a : ndarray)
    (out : list printed) :
  for_loop cols l (a, out) =
    out' ← print_all (flat_map (said cols (length a)) l) out;
    Ok (fold_left (mark cols) l a, out').
Proof.
  revert a out. induction l as [|x l IH]; intros a out; [reflexivity|].
  cbn [HelperPy.for_loop flat_map fold_left].
  rewrite run_loop_step_eq, run_print_all_app.
  destruct (print_all (said cols (length a) x) out) as [o|e]; simpl;
    [|reflexivity].
  now rewrite IH, run_mark_length.
Qed.

(** The call, in one equation: the lines are written in turn, and the
    vector only depends on the symptoms. *)
Lemma run_prepare_symptoms_array_eq (df : DataFrame) (l : list value) :
  columns df <> [] ->
  prepare_symptoms_array df l =
    out ← print_all (lines df l) [];
    Ok (fold_left (mark (columns df)) l
          (replicate (length (vocabulary df)) 0%Z), out).
Proof.
  intros Hne. unfold HelperPy.prepare_symptoms_array, np_zeros, HelperPy.lines.
  assert (Hlen : length (vocabulary df) = (length (columns df) - 1)%nat)
    by (unfold vocabulary; rewrite length_take; lia).
  destruct (columns df) as [|c rest] eqn:E; [contradiction|].
  simpl length in *.
  destruct (Z.ltb_spec (Z.of_nat (S (length rest)) - 1) 0); [lia|].
  replace (Z.to_nat (Z.of_nat (S (length rest)) - 1))
    with (length (vocabulary df)) by lia.
  cbn [app HelperPy.print_all]. simpl mbind.
  destruct (print (AvailableColumns (c :: rest)) []) as [o1|e1]; simpl;
    [|reflexivity].
  destruct (print (ReceivedSymptoms l) o1) as [o2|e2]; simpl; [|reflexivity].
  now rewrite run_for_loop_eq, length_replicate.
Qed.

(** The call returns exactly when every line it has to write is accepted,
    and then the output is these lines. *)
Lemma run_returns (df : DataFrame) (l : list value) :
  columns df <> [] ->
  Forall (fun line => stdout line = None) (lines df l) ->
  prepare_symptoms_array df l =
    Ok (fold_left (mark (columns df)) l
          (replicate (length (vocabulary df)) 0%Z), lines df l).
Proof.
  intros Hne Hacc. rewrite run_prepare_symptoms_array_eq by exact Hne.
  now rewrite run_print_all_accepted by exact Hacc.
Qed.

Lemma run_returned (df : DataFrame) (l : list value) (a : ndarray)
    (out : list printed) :
  columns df <> [] ->
  prepare_symptoms_array df l = Ok (a, out) ->
  a = fold_left (mark (columns df)) l (replicate (length (vocabulary df)) 0%Z)
  /\ out = lines df l
  /\ Forall (fun line => stdout line = None) (lines df l).
Proof.
  intros Hne. rewrite run_prepare_symptoms_array_eq by exact Hne.
  destruct (print_all (lines df l) []) as [o|e] eqn:E; [|discriminate].
  simpl. intros [= <- <-]. apply run_print_all_Ok in E as [-> H]. auto.
Qed.

(** On a frame without columns the call raises before the loop. *)
Lemma run_no_columns (df : DataFrame) (l : list value) :
  columns df = [] ->
  prepare_symptoms_array df l
  = Raise (ValueError "negative dimensions are not allowed").
Proof.
  intros E. unfold HelperPy.prepare_symptoms_array. now rewrite E.
Qed.

Lemma run_fold_mark_keeps (cols : list string) (symptoms : list value)
    (a : ndarray) (i : nat) :
  a !! i = Some 1%Z -> fold_left (mark cols) symptoms a !! i = Some 1%Z.
Proof.
  revert a. induction symptoms as [|x rest IH]; intros a H; simpl; [exact H|].
  apply IH. destruct x as [s| | |]; simpl; try exact H.
  destruct (first_match cols (lower s)) as [j|]; [|exact H].
  destruct (decide (j = i)) as [->|Hne].
  - apply list_lookup_insert_eq. now apply lookup_lt_Some in H.
  - now rewrite list_lookup_insert_ne.
Qed.

Lemma run_fold_mark_sets (cols : list string) (symptoms : list value)
    (a : ndarray) (s : string) (i : nat) :
  In (PyStr s) symptoms ->
  first_match cols (lower s) = Some i ->
  (i < length a)%nat ->
  fold_left (mark cols) symptoms a !! i = Some 1%Z.
Proof.
  revert a. induction symptoms as [|x rest IH]; intros a Hin Hf Hlt; simpl.
  - destruct Hin.
  - destruct Hin as [->|Hin].
    + apply run_fold_mark_keeps. simpl. rewrite Hf.
      now apply list_lookup_insert_eq.
    + apply IH; auto. now rewrite run_mark_length.
Qed.

Lemma run_fold_mark_inv (cols : list string) (symptoms : list value)
    (a : ndarray) (i : nat) :
  fold_left (mark cols) symptoms a !! i = Some 1%Z ->
  a !! i = Some 1%Z \/
  exists s, In (PyStr s) symptoms /\ first_match cols (lower s) = Some i.
Proof.
  revert a. induction symptoms as [|x rest IH]; intros a H; simpl in *.
  - now left.
  - destruct (IH _ H) as [H1|(s & Hin & Hf)]; [|right; eauto].
    destruct x as [s| | |]; simpl in H1; auto.
    destruct (first_match cols (lower s)) as [j|] eqn:Hf; auto.
    destruct (decide (j = i)) as [->|Hne].
    + right. exists s. auto.
    + rewrite list_lookup_insert_ne in H1 by exact Hne. auto.
Qed.

Lemma run_fold_mark_bits (cols : list string) (symptoms : list value)
    (a : ndarray) :
  (forall i x, a !! i = Some x -> x = 0%Z \/ x = 1%Z) ->
  forall i x, fold_left (mark cols) symptoms a !! i = Some x ->
              x = 0%Z \/ x = 1%Z.
Proof.
  revert a. induction symptoms as [|y rest IH]; intros a Ha; simpl; [exact Ha|].
  apply IH. intros i x. destruct y as [s| | |]; simpl; try apply Ha.
  destruct (first_match cols (lower s)) as [j|]; [|apply Ha].
  destruct (decide (j = i)) as [->|Hne].
  - intros H. destruct (decide (i < length a)%nat) as [Hlt|Hge].
    + rewrite list_lookup_insert_eq in H by exact Hlt. injection H as <-. now right.
    + rewrite list_insert_ge in H by lia. eapply Ha, H.
  - rewrite list_lookup_insert_ne by exact Hne. apply Ha.
Qed.

Lemma run_first_match_spec (cols : list string) (s : string) (i : nat) :
  first_match cols s = Some i <->
  (exists c, cols !! i = Some c /\ lower c = s) /\
  (forall j c, (j < i)%nat -> cols !! j = Some c -> lower c <> s).
Proof.
  revert i. induction cols as [|c rest IH]; intros i; simpl.
  - split; [discriminate|]. intros [(c & H & _) _]. discriminate.
  - destruct (String.eqb (lower c) s) eqn:E.
    + apply String.eqb_eq in E. split.
      * intros [= <-]. split; [eauto|]. intros j c' Hj. lia.
      * intros [_ Hmin]. destruct i as [|i]; [reflexivity|].
        destruct (Hmin 0%nat c); [lia|reflexivity|exact E].
    + apply String.eqb_neq in E.
      destruct (first_match rest s) as [k|].
      * split.
        -- intros [= <-]. destruct (proj1 (IH k) eq_refl) as [Hex Hmin].
           split; [exact Hex|].
           intros [|j] c' Hj Hc; simpl in Hc.
           ++ now injection Hc as <-.
           ++ apply (Hmin j); [lia|exact Hc].
        -- intros [(c' & Hc & Hl) Hmin]. destruct i as [|i]; simpl in Hc.
           ++ injection Hc as <-. contradiction.
           ++ assert (Some k = Some i) as [= ->]; [|reflexivity].
              apply IH. split; [eauto|].
              intros j c'' Hj Hc''. apply (Hmin (S j)); [lia|exact Hc''].
      * split; [discriminate|].
        intros [(c' & Hc & Hl) Hmin]. destruct i as [|i]; simpl in Hc.
        -- injection Hc as <-. contradiction.
        -- assert (@None nat = Some i) as Hi; [|discriminate].
           apply IH. split; [eauto|].
           intros j c'' Hj Hc''. apply (Hmin (S j)); [lia|exact Hc''].
Qed.

Lemma run_first_match_exists (cols : list string) (s : string) (j : nat) (c : string) :
  cols !! j = Some c -> lower c = s ->
  exists i, (i <= j)%nat /\ first_match cols s = Some i.
Proof.
  revert j. induction cols as [|c0 rest IH]; intros j Hj Hl; [discriminate|].
  simpl. destruct (String.eqb (lower c0) s) eqn:E.
  - exists 0%nat. split; [lia|reflexivity].
  - destruct j as [|j]; simpl in Hj.
    + injection Hj as ->. rewrite Hl, String.eqb_refl in E. discriminate.
    + destruct (IH j Hj Hl) as (i & Hle & ->). exists (S i). split; [lia|reflexivity].
Qed.

Lemma run_fold_mark_skip (cols : list string) (pre post : list value)
    (x : value) (a : ndarray) :
  (forall b, length b = length a -> mark cols b x = b) ->
  fold_left (mark cols) (pre ++ x :: post) a =
  fold_left (mark cols) (pre ++ post) a.
Proof.
  intros H. rewrite !fold_left_app. simpl. rewrite H; [reflexivity|].
  apply run_fold_mark_length.
Qed.

Lemma run_vector_one (cols : list string) (l : list value) (n i : nat) :
  fold_left (mark cols) l (replicate n 0%Z) !! i = Some 1%Z <->
  (i < n)%nat /\
  exists s, In (PyStr s) l /\ first_match cols (lower s) = Some i.
Proof.
  split.
  - intros H.
    assert (Hi : (i < n)%nat).
    { apply lookup_lt_Some in H.
      now rewrite run_fold_mark_length, length_replicate in H. }
    split; [exact Hi|].
    apply run_fold_mark_inv in H as [H|H]; [|exact H].
    apply lookup_replicate in H as [H _]. discriminate.
  - intros (Hi & s & Hin & Hf). apply (run_fold_mark_sets _ _ _ s); auto.
    now rewrite length_replicate.
Qed.

Lemma run_vector_bit (cols : list string) (l : list value) (n i : nat) (x : Z) :
  fold_left (mark cols) l (replicate n 0%Z) !! i = Some x ->
  x = 0%Z \/ x = 1%Z.
Proof.
  apply run_fold_mark_bits. intros k y Hk.
  apply lookup_replicate in Hk as [-> _]. now left.
Qed.

Lemma run_first_match_lt (cols : list string) (s : string) (i : nat) :
  first_match cols s = Some i -> (i < length cols)%nat.
Proof.
  intros H. apply run_first_match_spec in H as [(c & Hc & _) _].
  now apply lookup_lt_Some in Hc.
Qed.

Lemma run_first_match_None (cols : list string) (s : string) :
  first_match cols s = None <-> forall c, In c cols -> lower c <> s.
Proof.
  induction cols as [|c rest IH]; simpl.
  - split; [intros _ c []|reflexivity].
  - destruct (String.eqb (lower c) s) eqn:E.
    + apply String.eqb_eq in E. split; [discriminate|].
      intros H. now destruct (H c (or_introl eq_refl)).
    + apply String.eqb_neq in E.
      destruct (first_match rest s) as [i|].
      * split; [discriminate|]. intros H.
        assert (@None nat = Some i) as Hn; [|discriminate].
        rewrite <- (proj2 IH) at 1; [reflexivity|]. intros c' Hc'.
        apply H. now right.
      * split; [|reflexivity]. intros _ c' [<-|Hc']; [exact E|].
        now apply (proj1 IH eq_refl).
Qed.

End HelperPyFacts.

Section HelperPyMoreFacts.
Import Py Helper HelperPy.
Variable lower : string -> string.
Variable stdout : printed -> option exn.

(** The turn of a symptom whose [try] block raises has the error line to
    write. *)
Lemma run_said_of_raise (cols : list string) (bad : value) (a : ndarray)
    (out : list printed) (e : exn) :
  try_body lower stdout cols bad (a, out) = Raise e ->
  said lower stdout cols (length a) bad = [ErrorProcessing bad e] /\
  forall b, length b = length a -> mark lower cols b bad = b.
Proof.
  rewrite run_try_body_eq. unfold said. intros H. split.
  - destruct (attempt_of lower cols (length a) bad) as [i| |e0];
      [discriminate| |now injection H as ->].
    unfold print in H.
    destruct (stdout (WarningNotFound bad)); [now injection H as ->|discriminate].
  - intros b Hb. rewrite run_mark_attempt, Hb.
    now destruct (attempt_of lower cols (length a) bad).
Qed.

(** A symptom that matches a vocabulary entry sets a slot and has nothing
    to write. *)
Lemma run_known (df : DataFrame) (known : value) (col : string) :
  In col (vocabulary df) -> matches lower known col ->
  exists i, (i < length (vocabulary df))%nat /\
            attempt_of lower (columns df) (length (vocabulary df)) known
            = Sets i.
Proof.
  intros Hcol Hk.
  apply list_elem_of_In, list_elem_of_lookup in Hcol as (j & Hj).
  apply vocabulary_lookup in Hj as [Hjlt Hj].
  destruct known as [s| | |]; try discriminate Hk.
  unfold matches in Hk. simpl in Hk. injection Hk as Hk.
  destruct (run_first_match_exists lower (columns df) (lower s) j col Hj
              (eq_sym Hk)) as (i & Hij & Hf).
  exists i. rewrite vocabulary_length. split; [lia|].
  unfold attempt_of. rewrite Hf.
  now destruct (Nat.ltb_spec i (length (columns df) - 1)); [|lia].
Qed.

(** A symptom that matches no vocabulary entry sets no slot and has one
    diagnostic to write. *)
Lemma run_unknown (df : DataFrame) (unknown : value) :
  columns df <> [] ->
  (forall c, In c (vocabulary df) -> ~ matches lower unknown c) ->
  (forall b, mark lower (columns df) b unknown = b
             \/ length b <> length (vocabulary df)) /\
  exists line, diagnostic_of unknown line /\
    said lower stdout (columns df) (length (vocabulary df)) unknown = [line].
Proof.
  intros Hne Hno.
  assert (Hatt : forall i, attempt_of lower (columns df)
                             (length (vocabulary df)) unknown <> Sets i).
  { intros i H. unfold attempt_of in H.
    destruct unknown as [s| | |];
      try (destruct (columns df); discriminate).
    destruct (first_match lower (columns df) (lower s)) as [k|] eqn:Hf;
      [|discriminate].
    destruct (Nat.ltb_spec k (length (vocabulary df))); [|discriminate].
    apply run_first_match_spec in Hf as [(c & Hc & Hl) _].
    apply (Hno c).
    - apply list_elem_of_In, list_elem_of_lookup. exists k.
      apply vocabulary_lookup. rewrite <- vocabulary_length. auto.
    - unfold matches. simpl. now rewrite Hl. }
  split.
  - intros b. destruct (decide (length b = length (vocabulary df))) as [E|E];
      [left|now right].
    rewrite run_mark_attempt, E.
    destruct (attempt_of lower (columns df) (length (vocabulary df)) unknown)
      as [i| |e] eqn:Ha; [now destruct (Hatt i)|reflexivity|reflexivity].
  - unfold said.
    destruct (attempt_of lower (columns df) (length (vocabulary df)) unknown)
      as [i| |e] eqn:Ha; [now destruct (Hatt i)| |].
    + destruct (stdout (WarningNotFound unknown)) as [e|].
      * exists (ErrorProcessing unknown e). split; [right; eauto|reflexivity].
      * exists (WarningNotFound unknown). split; [now left|reflexivity].
    + exists (ErrorProcessing unknown e). split; [right; eauto|reflexivity].
Qed.

Lemma run_said_length (df : DataFrame) (x : value) :
  columns df <> [] ->
  length (said lower stdout (columns df) (length (vocabulary df)) x)
  = if sets_slot lower df x then 0%nat else 1%nat.
Proof.
  intros Hne. unfold said, attempt_of, sets_slot.
  destruct x as [s| | |]; try (destruct (columns df); [contradiction|reflexivity]).
  destruct (first_match lower (columns df) (lower s)) as [i|].
  - now destruct (i <? length (vocabulary df))%nat.
  - now destruct (stdout (WarningNotFound (PyStr s))).
Qed.

(** The console of [Helper] writes every line and reads the header in
    ASCII: its run is the run of the helper on that console. *)
Lemma run_on_ascii_console (df : DataFrame) (l : list value) :
  HelperPy.prepare_symptoms_array Py.lower stdout_any df l
  = Helper.prepare_symptoms_array df l.
Proof.
  assert (Hm : forall c v, HelperPy.matching_cols Py.lower c v
                           = Helper.matching_cols c v).
  { intros c v. induction c as [|c0 c IHc]; [reflexivity|].
    simpl. now rewrite IHc. }
  assert (Hstep : forall c st x,
            HelperPy.loop_step Py.lower stdout_any c st x
            = Ok (Helper.loop_step c st x)).
  { intros c [a out] x.
    unfold HelperPy.loop_step, Helper.loop_step,
      HelperPy.try_body, Helper.try_body.
    rewrite Hm.
    destruct (Helper.matching_cols c x) as [[|first m]|e]; try reflexivity.
    simpl.
    destruct (get_loc c first) as [i|]; simpl; [|reflexivity].
    destruct (setitem a i 1%Z); reflexivity. }
  assert (Hloop : forall c st,
            HelperPy.for_loop Py.lower stdout_any c l st
            = Ok (fold_left (Helper.loop_step c) l st)).
  { intros c. induction l as [|x l' IH]; intros st; [reflexivity|].
    simpl. rewrite Hstep. simpl. apply IH. }
  unfold HelperPy.prepare_symptoms_array, Helper.prepare_symptoms_array.
  destruct (np_zeros (Z.of_nat (length (columns df)) - 1)) as [a|e];
    [|reflexivity].
  simpl. apply Hloop.
Qed.

End HelperPyMoreFacts.

Section HelperClaims.
Import Py Helper.



(** With the header Fever, fever, Disease the token FEVER matches both
    vocabulary entries and only the slot of the first is set: not every
    matching entry has its slot at 1. *)
Lemma every_match_marked_fails :
  prepare_symptoms_array {| columns := ["Fever"; "fever"; "Disease"] |}
                         [PyStr "FEVER"]
  = Ok ([1%Z; 0%Z],
        [AvailableColumns ["Fever"; "fever"; "Disease"];
         ReceivedSymptoms [PyStr "FEVER"]]) /\
  vocabulary {| columns := ["Fever"; "fever"; "Disease"] |} !! 1%nat
  = Some "fever" /\
  matches (PyStr "FEVER") "fever" /\
  ~ every_match_marked.
Proof.
  split; [reflexivity|]. split; [reflexivity|]. split; [reflexivity|].
  intros H.
  specialize (H {| columns := ["Fever"; "fever"; "Disease"] |}
                [PyStr "FEVER"] [1%Z; 0%Z]
                [AvailableColumns ["Fever"; "fever"; "Disease"];
                 ReceivedSymptoms [PyStr "FEVER"]]
                (PyStr "FEVER") 1%nat "fever"
                eq_refl (or_introl eq_refl) eq_refl eq_refl).
  discriminate H.
Qed.

End HelperClaims.

Section HelperRunClaims.
Import Py Helper.

(** C2: take a symptom that matches a vocabulary entry and one that
    matches none, and let the call on the matching symptom alone return
    the vector [a]. Then [a] is the one-hot vector of a slot. When
    standard output writes the diagnostic of the other symptom, the list
    of the two returns the same vector [a], in either order, and the
    symptom without a match only leaves its diagnostic line. When standard
    output refuses the diagnostics of that symptom, the handler's own
    [print] raises outside the [try] block and the call raises instead of
    returning: the unmatched symptom fails the request. *)
Theorem unknown_symptom_run (lower : string -> string)
    (stdout : printed -> option exn) (df : DataFrame)
    (known unknown : value) (col : string) (a : ndarray)
    (out : list printed) :
  In col (vocabulary df) ->
  HelperPy.matches lower known col ->
  (forall c, In c (vocabulary df) -> ~ HelperPy.matches lower unknown c) ->
  HelperPy.prepare_symptoms_array lower stdout df [known] = Ok (a, out) ->
  stdout (ReceivedSymptoms [known; unknown]) = None ->
  stdout (ReceivedSymptoms [unknown; known]) = None ->
  (exists i, (i < length (vocabulary df))%nat /\
             a = <[i := 1%Z]> (replicate (length (vocabulary df)) 0%Z)) /\
  ((forall line, diagnostic_of unknown line -> stdout line = None) ->
   exists line, diagnostic_of unknown line /\
     HelperPy.prepare_symptoms_array lower stdout df [known; unknown]
     = Ok (a, [AvailableColumns (columns df);
               ReceivedSymptoms [known; unknown]; line]) /\
     HelperPy.prepare_symptoms_array lower stdout df [unknown; known]
     = Ok (a, [AvailableColumns (columns df);
               ReceivedSymptoms [unknown; known]; line])) /\
  ((forall line, diagnostic_of unknown line -> stdout line <> None) ->
   exists e,
     HelperPy.prepare_symptoms_array lower stdout df [known; unknown]
     = Raise e /\
     HelperPy.prepare_symptoms_array lower stdout df [unknown; known]
     = Raise e).
Proof.
  intros Hcol Hk Hu Hrun Hr1 Hr2.
  assert (Hne : columns df <> []).
  { intros E. unfold vocabulary in Hcol. rewrite E in Hcol. destruct Hcol. }
  destruct (run_known lower df known col Hcol Hk) as (i & Hi & Hatt).
  destruct (run_unknown lower stdout df unknown Hne Hu)
    as (Hmark & line & Hd & Hsaid).
  set (zero := replicate (length (vocabulary df)) 0%Z) in *.
  assert (Hzero : length zero = length (vocabulary df))
    by apply length_replicate.
  assert (Hsk : HelperPy.said lower stdout (columns df)
                  (length (vocabulary df)) known = []).
  { unfold HelperPy.said. now rewrite Hatt. }
  assert (Hmk : forall b, length b = length (vocabulary df) ->
                          HelperPy.mark lower (columns df) b known
                          = <[i := 1%Z]> b).
  { intros b Hb. now rewrite run_mark_attempt, Hb, Hatt. }
  assert (Hmu : forall b, length b = length (vocabulary df) ->
                          HelperPy.mark lower (columns df) b unknown = b).
  { intros b Hb. now destruct (Hmark b). }
  apply (run_returned lower stdout df _ _ _ Hne) in Hrun as (Ha & Hout & Hacc).
  simpl in Ha. rewrite Hmk in Ha by exact Hzero. fold zero in Ha.
  unfold HelperPy.lines in Hacc. simpl in Hacc.
  apply Forall_cons in Hacc as [Hav _].
  assert (Hv1 : fold_left (HelperPy.mark lower (columns df)) [known; unknown]
                  zero = a).
  { simpl. rewrite Hmk by exact Hzero.
    rewrite Hmu by (now rewrite length_insert). now symmetry. }
  assert (Hv2 : fold_left (HelperPy.mark lower (columns df)) [unknown; known]
                  zero = a).
  { simpl. rewrite Hmu by exact Hzero. rewrite Hmk by exact Hzero.
    now symmetry. }
  assert (Hl1 : HelperPy.lines lower stdout df [known; unknown]
                = [AvailableColumns (columns df);
                   ReceivedSymptoms [known; unknown]; line]).
  { unfold HelperPy.lines. simpl. now rewrite Hsk, Hsaid. }
  assert (Hl2 : HelperPy.lines lower stdout df [unknown; known]
                = [AvailableColumns (columns df);
                   ReceivedSymptoms [unknown; known]; line]).
  { unfold HelperPy.lines. simpl. now rewrite Hsk, Hsaid. }
  split; [exists i; auto|]. split.
  - intros Hok. exists line. split; [exact Hd|].
    rewrite !run_prepare_symptoms_array_eq by exact Hne.
    fold zero. rewrite Hv1, Hv2, Hl1, Hl2.
    rewrite !run_print_all_accepted;
      [split; reflexivity| |];
      repeat (apply Forall_cons; split; auto); apply Forall_nil.
  - intros Hno. destruct (stdout line) as [e|] eqn:El;
      [|now destruct (Hno line Hd)].
    exists e. rewrite !run_prepare_symptoms_array_eq by exact Hne.
    rewrite Hl1, Hl2.
    pose proof (run_print_all_refused stdout
                  [AvailableColumns (columns df);
                   ReceivedSymptoms [known; unknown]] [] [] line e) as H1.
    pose proof (run_print_all_refused stdout
                  [AvailableColumns (columns df);
                   ReceivedSymptoms [unknown; known]] [] [] line e) as H2.
    cbn [app] in H1, H2.
    rewrite H1, H2; [split; reflexivity| | | |]; try exact El;
      repeat (apply Forall_cons; split; auto); apply Forall_nil.
Qed.

Lemma unknown_symptom_run_witness :
  (exists line, diagnostic_of (PyStr "rash") line /\
     HelperPy.prepare_symptoms_array Py.lower HelperPy.stdout_any
       {| columns := ["fever"; "Cough"; "Disease"] |}
       [PyStr "COUGH"; PyStr "rash"]
     = Ok ([0%Z; 1%Z],
           [AvailableColumns ["fever"; "Cough"; "Disease"];
            ReceivedSymptoms [PyStr "COUGH"; PyStr "rash"]; line]) /\
     HelperPy.prepare_symptoms_array Py.lower HelperPy.stdout_any
       {| columns := ["fever"; "Cough"; "Disease"] |}
       [PyStr "rash"; PyStr "COUGH"]
     = Ok ([0%Z; 1%Z],
           [AvailableColumns ["fever"; "Cough"; "Disease"];
            ReceivedSymptoms [PyStr "rash"; PyStr "COUGH"]; line])) /\
  (exists e,
     HelperPy.prepare_symptoms_array Py.lower
       (HelperPy.stdout_without HelperPy.lone_surrogate)
       {| columns := ["fever"; "Cough"; "Disease"] |}
       [PyStr "COUGH"; PyStr HelperPy.lone_surrogate]
     = Raise e /\
     HelperPy.prepare_symptoms_array Py.lower
       (HelperPy.stdout_without HelperPy.lone_surrogate)
       {| columns := ["fever"; "Cough"; "Disease"] |}
       [PyStr HelperPy.lone_surrogate; PyStr "COUGH"]
     = Raise e).
Proof.
  split.
  - destruct (unknown_symptom_run Py.lower HelperPy.stdout_any
                {| columns := ["fever"; "Cough"; "Disease"] |}
                (PyStr "COUGH") (PyStr "rash") "Cough" [0%Z; 1%Z]
                [AvailableColumns ["fever"; "Cough"; "Disease"];
                 ReceivedSymptoms [PyStr "COUGH"]]) as (_ & Hok & _).
    + simpl. right. left. reflexivity.
    + reflexivity.
    + intros c [<-|[<-|[]]]; discriminate.
    + reflexivity.
    + reflexivity.
    + reflexivity.
    + apply Hok. intros line _. reflexivity.
  - destruct (unknown_symptom_run Py.lower
                (HelperPy.stdout_without HelperPy.lone_surrogate)
                {| columns := ["fever"; "Cough"; "Disease"] |}
                (PyStr "COUGH") (PyStr HelperPy.lone_surrogate) "Cough"
                [0%Z; 1%Z]
                [AvailableColumns ["fever"; "Cough"; "Disease"];
                 ReceivedSymptoms [PyStr "COUGH"]]) as (_ & _ & Hno).
    + simpl. right. left. reflexivity.
    + reflexivity.
    + intros c [<-|[<-|[]]]; discriminate.
    + reflexivity.
    + reflexivity.
    + reflexivity.
    + apply Hno. intros line [->|[e ->]]; discriminate.
Defined.

(** C3: let the [try] block of one element of the list raise [e], and let
    the call on the list without that element return the vector [a]. When
    standard output writes the error line of the element, the error is
    caught and printed with the symptom and the loop goes on: the call
    returns the same vector [a], of the full vocabulary length, with the
    slot of every other symptom at 1. When standard output refuses that
    line (the case of a token the stream cannot encode, whose warning
    raised inside the block), the handler's [print] raises outside of any
    [try] and the call raises: the one element aborts the vectorization of
    the rest. *)
Theorem bad_symptom_run (lower : string -> string)
    (stdout : printed -> option exn) (df : DataFrame)
    (pre post : list value) (bad : value) (e : exn) (a : ndarray)
    (out' : list printed) :
  HelperPy.try_body lower stdout (columns df) bad
    (replicate (length (vocabulary df)) 0%Z, []) = Raise e ->
  HelperPy.prepare_symptoms_array lower stdout df (pre ++ post)
  = Ok (a, out') ->
  stdout (ReceivedSymptoms (pre ++ bad :: post)) = None ->
  (stdout (ErrorProcessing bad e) = None ->
   exists out,
     HelperPy.prepare_symptoms_array lower stdout df (pre ++ bad :: post)
     = Ok (a, out) /\
     length a = length (vocabulary df) /\
     In (ErrorProcessing bad e) out /\
     (forall s i, In (PyStr s) (pre ++ post) ->
                  HelperPy.first_match lower (columns df) (lower s) = Some i ->
                  (i < length a)%nat -> a !! i = Some 1%Z)) /\
  (forall e', stdout (ErrorProcessing bad e) = Some e' ->
     HelperPy.prepare_symptoms_array lower stdout df (pre ++ bad :: post)
     = Raise e').
Proof.
  intros Hraise Hrun Hrecv.
  assert (Hne : columns df <> []).
  { intros E. now rewrite run_no_columns in Hrun. }
  set (zero := replicate (length (vocabulary df)) 0%Z) in *.
  assert (Hzero : length zero = length (vocabulary df))
    by apply length_replicate.
  destruct (run_said_of_raise lower stdout _ _ _ _ _ Hraise) as [Hsaid Hmark].
  rewrite Hzero in Hsaid.
  apply (run_returned lower stdout df _ _ _ Hne) in Hrun as (Ha & Hout & Hacc).
  fold zero in Ha.
  assert (Hv : fold_left (HelperPy.mark lower (columns df))
                 (pre ++ bad :: post) zero = a).
  { rewrite Ha. apply run_fold_mark_skip. exact Hmark. }
  unfold HelperPy.lines in Hacc. rewrite flat_map_app in Hacc.
  apply Forall_app in Hacc as [Hopen Hacc].
  apply Forall_cons in Hopen as [Hav _].
  apply Forall_app in Hacc as [Hpre Hpost].
  assert (Hl : HelperPy.lines lower stdout df (pre ++ bad :: post)
               = ([AvailableColumns (columns df);
                   ReceivedSymptoms (pre ++ bad :: post)]
                  ++ flat_map (HelperPy.said lower stdout (columns df)
                                 (length (vocabulary df))) pre)
                 ++ ErrorProcessing bad e
                    :: flat_map (HelperPy.said lower stdout (columns df)
                                   (length (vocabulary df))) post).
  { unfold HelperPy.lines. rewrite flat_map_app. cbn [flat_map].
    rewrite Hsaid. now rewrite <- app_assoc. }
  assert (Hfront : Forall (fun l => stdout l = None)
                     ([AvailableColumns (columns df);
                       ReceivedSymptoms (pre ++ bad :: post)]
                      ++ flat_map (HelperPy.said lower stdout (columns df)
                                     (length (vocabulary df))) pre)).
  { apply Forall_app. split; [|exact Hpre].
    repeat (apply Forall_cons; split; auto). }
  split.
  - intros Herr. rewrite run_prepare_symptoms_array_eq by exact Hne.
    fold zero. rewrite Hv, Hl.
    rewrite run_print_all_accepted.
    2:{ apply Forall_app. split; [exact Hfront|].
        apply Forall_cons. split; [exact Herr|exact Hpost]. }
    eexists. split; [reflexivity|].
    split; [now rewrite Ha, run_fold_mark_length|].
    split.
    + apply in_or_app. right. apply in_or_app. right. now left.
    + intros s i Hin Hf Hlt. rewrite Ha, run_fold_mark_length in Hlt.
      rewrite Ha. eapply run_fold_mark_sets; eauto.
  - intros e' Herr. rewrite run_prepare_symptoms_array_eq by exact Hne.
    rewrite Hl.
    now rewrite (run_print_all_refused stdout _ _ _ _ e' Hfront Herr).
Qed.

Lemma bad_symptom_run_witness :
  (exists out,
     HelperPy.prepare_symptoms_array Py.lower HelperPy.stdout_any
       {| columns := ["fever"; "Cough"; "Disease"] |}
       ([PyStr "Fever"] ++ PyInt 7 :: [PyStr "cough"]) = Ok ([1%Z; 1%Z], out) /\
     length [1%Z; 1%Z]
     = length (vocabulary {| columns := ["fever"; "Cough"; "Disease"] |}) /\
     In (ErrorProcessing (PyInt 7) (AttributeError (PyInt 7) "lower")) out /\
     (forall s i, In (PyStr s) ([PyStr "Fever"] ++ [PyStr "cough"]) ->
                  HelperPy.first_match Py.lower ["fever"; "Cough"; "Disease"]
                    (Py.lower s) = Some i ->
                  (i < length [1%Z; 1%Z])%nat ->
                  [1%Z; 1%Z] !! i = Some 1%Z)) /\
  HelperPy.prepare_symptoms_array Py.lower
    (HelperPy.stdout_without HelperPy.lone_surrogate)
    {| columns := ["fever"; "Cough"; "Disease"] |}
    ([PyStr "Fever"] ++ PyStr HelperPy.lone_surrogate :: [PyStr "cough"])
  = Raise (ValueError "UnicodeEncodeError").
Proof.
  split.
  - apply (bad_symptom_run Py.lower HelperPy.stdout_any
             {| columns := ["fever"; "Cough"; "Disease"] |}
             [PyStr "Fever"] [PyStr "cough"] (PyInt 7)
             (AttributeError (PyInt 7) "lower") [1%Z; 1%Z]
             [AvailableColumns ["fever"; "Cough"; "Disease"];
              ReceivedSymptoms [PyStr "Fever"; PyStr "cough"]]);
      reflexivity.
  - apply (bad_symptom_run Py.lower
             (HelperPy.stdout_without HelperPy.lone_surrogate)
             {| columns := ["fever"; "Cough"; "Disease"] |}
             [PyStr "Fever"] [PyStr "cough"] (PyStr HelperPy.lone_surrogate)
             (ValueError "UnicodeEncodeError") [1%Z; 1%Z]
             [AvailableColumns ["fever"; "Cough"; "Disease"];
              ReceivedSymptoms [PyStr "Fever"; PyStr "cough"]]);
      reflexivity.
Defined.

(** C4 (as the code has it): the input token and the column names are
    compared in lower case, the header being kept as it is, and of the
    vocabulary entries whose lower-cased name equals the lower-cased token
    it is the first one, in column order, whose slot is set to 1: in the
    vector the call returns a slot is at 1 exactly when its entry is the
    first match of a symptom of the list, and at 0 otherwise; and the call
    returns whenever standard output writes its lines. *)
Theorem first_match_marked (lower : string -> string)
    (stdout : printed -> option exn) (df : DataFrame)
    (symptoms : list value) (i : nat) (col : string) :
  vocabulary df !! i = Some col ->
  ((forall line, stdout line = None) ->
   exists a out,
     HelperPy.prepare_symptoms_array lower stdout df symptoms = Ok (a, out)) /\
  (forall a out,
     HelperPy.prepare_symptoms_array lower stdout df symptoms = Ok (a, out) ->
     (a !! i = Some 1%Z <->
        exists s, In (PyStr s) symptoms /\ lower col = lower s /\
                  forall j c, (j < i)%nat -> columns df !! j = Some c ->
                              lower c <> lower s) /\
     (a !! i = Some 1%Z \/ a !! i = Some 0%Z)).
Proof.
  intros Hcol.
  apply vocabulary_lookup in Hcol as [Hi Hcol].
  assert (Hne : columns df <> []).
  { intros E. rewrite E in Hcol. discriminate. }
  split.
  { intros Hall. do 2 eexists. apply run_returns; [exact Hne|].
    apply Forall_forall. auto. }
  intros a out Hrun.
  apply (run_returned lower stdout df _ _ _ Hne) in Hrun as (Ha & _ & _).
  rewrite <- vocabulary_length in Hi.
  split; [split|].
  - intros H1. rewrite Ha in H1.
    apply run_vector_one in H1 as (_ & s & Hin & Hf).
    apply run_first_match_spec in Hf as [(c & Hc & Hl) Hmin].
    exists s. split; [exact Hin|]. split; [congruence|exact Hmin].
  - intros (s & Hin & Hl & Hmin). rewrite Ha.
    apply run_vector_one. split; [exact Hi|]. exists s. split; [exact Hin|].
    apply run_first_match_spec. split; [eauto|exact Hmin].
  - assert (Hlt : (i < length a)%nat)
      by (rewrite Ha, run_fold_mark_length, length_replicate; exact Hi).
    apply lookup_lt_is_Some in Hlt as [x Hx]. rewrite Hx.
    rewrite Ha in Hx. apply run_vector_bit in Hx as [->| ->]; auto.
Qed.

Lemma first_match_marked_witness :
  (exists a out,
     HelperPy.prepare_symptoms_array Py.lower HelperPy.stdout_any
       {| columns := ["Fever"; "fever"; "Disease"] |} [PyStr "FEVER"]
     = Ok (a, out)) /\
  ([1%Z; 0%Z] !! 0%nat = Some 1%Z <->
     exists s, In (PyStr s) [PyStr "FEVER"] /\
               Py.lower "Fever" = Py.lower s /\
               forall j c, (j < 0)%nat ->
                           ["Fever"; "fever"; "Disease"] !! j = Some c ->
                           Py.lower c <> Py.lower s) /\
  ([1%Z; 0%Z] !! 0%nat = Some 1%Z \/ [1%Z; 0%Z] !! 0%nat = Some 0%Z).
Proof.
  destruct (first_match_marked Py.lower HelperPy.stdout_any
              {| columns := ["Fever"; "fever"; "Disease"] |} [PyStr "FEVER"]
              0%nat "Fever" eq_refl) as [Hret Hvec].
  split.
  - apply Hret. intros line. reflexivity.
  - apply (Hvec [1%Z; 0%Z]
             [AvailableColumns ["Fever"; "fever"; "Disease"];
              ReceivedSymptoms [PyStr "FEVER"]]).
    reflexivity.
Defined.

End HelperRunClaims.

(** ** Objects *)

Section ObjectFacts.
Import Js.
Context {A : Type}.
Implicit Types (o : obj A) (k : string).

Lemma obj_set_fresh o k (v : A) :
  ~ In k (keys o) -> obj_set k v o = o ++ [(k, v)].
Proof.
  induction o as [|[k' v'] rest IH]; simpl; intros H; [reflexivity|].
  destruct (String.eqb k' k) eqn:E.
  - apply String.eqb_eq in E. tauto.
  - rewrite IH by tauto. reflexivity.
Qed.

Lemma obj_set_same o k (v : A) :
  obj_get k o = Some v -> obj_set k v o = o.
Proof.
  induction o as [|[k' v'] rest IH]; simpl; [discriminate|].
  destruct (String.eqb k' k) eqn:E.
  - apply String.eqb_eq in E. now intros [= ->]; subst.
  - intros H. now rewrite IH.
Qed.

Lemma keys_obj_set o k (v w : A) :
  obj_get k o = Some w -> keys (obj_set k v o) = keys o.
Proof.
  unfold keys. induction o as [|[k' v'] rest IH]; simpl; [discriminate|].
  destruct (String.eqb k' k) eqn:E; simpl.
  - apply String.eqb_eq in E. now subst.
  - intros H. now rewrite IH.
Qed.

End ObjectFacts.

Section ReduceFacts.
Import Js.
Context {A B : Type}.
Implicit Types (o : obj A) (k : string).

Lemma obj_get_map (g : string -> A -> B) o k :
  obj_get k (map (fun kv => (fst kv, g (fst kv) (snd kv))) o)
  = match obj_get k o with Some v => Some (g k v) | None => None end.
Proof.
  induction o as [|[k' v'] rest IH]; simpl; [reflexivity|].
  destruct (String.eqb k' k) eqn:E; [|exact IH].
  apply String.eqb_eq in E. now subst.
Qed.

Lemma map_obj_set (g : string -> A -> B) o k (v : A) :
  map (fun kv => (fst kv, g (fst kv) (snd kv))) (obj_set k v o)
  = obj_set k (g k v) (map (fun kv => (fst kv, g (fst kv) (snd kv))) o).
Proof.
  induction o as [|[k' v'] rest IH]; simpl; [reflexivity|].
  destruct (String.eqb k' k); simpl; [reflexivity|now rewrite IH].
Qed.

(** On an object (no key twice) the reduction of the handlers is a map
    over the entries, in their order. *)
Lemma reduce_entries_map (g : string -> A -> B) o :
  NoDup (keys o) ->
  reduce_entries g o = map (fun kv => (fst kv, g (fst kv) (snd kv))) o.
Proof.
  unfold reduce_entries.
  assert (H : forall (acc : obj B),
             NoDup (keys acc ++ keys o) ->
             fold_left (fun acc kv => obj_set (fst kv) (g (fst kv) (snd kv)) acc) o acc
             = acc ++ map (fun kv => (fst kv, g (fst kv) (snd kv))) o).
  { induction o as [|[k v] rest IH]; intros acc Hnd; simpl.
    - now rewrite app_nil_r.
    - simpl in Hnd. rewrite obj_set_fresh.
      + rewrite IH.
        * now rewrite <- app_assoc.
        * unfold keys at 1. rewrite map_app. simpl.
          rewrite <- app_assoc. exact Hnd.
      + apply NoDup_app in Hnd as (_ & Hdis & _). intros Hin.
        apply (Hdis k); [now apply list_elem_of_In|]. now left. }
  intros Hnd. now rewrite (H [] Hnd).
Qed.

End ReduceFacts.

(** ** The request builders of the pages *)

Section FormFacts.
Import Js.

Lemma obj_get_JSON_stringify (o : obj value) (k : string) :
  obj_get k (JSON_stringify o)
  = match obj_get k o with Some v => Some (json_of v) | None => None end.
Proof. apply (obj_get_map (fun _ => json_of)). Qed.

Lemma JSON_stringify_obj_set (o : obj value) (k : string) (v : value) :
  JSON_stringify (obj_set k v o) = obj_set k (json_of v) (JSON_stringify o).
Proof. apply (map_obj_set (fun _ => json_of)). Qed.

Lemma includes_In (a : list string) (k : string) :
  In k a -> includes a k = true.
Proof.
  intros H. unfold includes. apply existsb_exists.
  exists k. split; [exact H|apply String.eqb_refl].
Qed.

(** A handler that maps the entries with [g] sends [g k ""] for an empty
    field [k], and cannot tell [""] from a text with the same image. *)
Lemma handler_empty_field (g : string -> string -> value)
    (formData : obj string) (k typed : string) :
  NoDup (keys formData) ->
  obj_get k formData = Some "" ->
  g k typed = g k "" ->
  obj_get k (JSON_stringify (reduce_entries g formData)) = Some (json_of (g k "")) /\
  JSON_stringify (reduce_entries g formData)
  = JSON_stringify (reduce_entries g (obj_set k typed formData)).
Proof.
  intros Hnd Hk Hg.
  rewrite !reduce_entries_map;
    [|now rewrite (keys_obj_set _ _ _ _ Hk)|exact Hnd].
  split.
  - now rewrite obj_get_JSON_stringify, obj_get_map, Hk.
  - rewrite map_obj_set, Hg. symmetry. f_equal.
    apply obj_set_same. now rewrite obj_get_map, Hk.
Qed.

End FormFacts.

Section FormClaims.
Import Js.

(** C10: on the kidney and the breast page a numeric field whose text is
    empty is sent as the number 0, whatever the other fields hold, and the
    body is the one sent when 0 was typed in that field. *)
Theorem empty_numeric_field_sent_as_zero (page : ZeroFillingPage)
    (formData : obj string) (k : string) :
  NoDup (keys formData) ->
  numeric_field page k ->
  obj_get k formData = Some "" ->
  obj_get k (handleSubmit_of page formData) = Some (JNumber 0) /\
  handleSubmit_of page formData
  = handleSubmit_of page (obj_set k "0" formData).
Proof.
  intros Hnd Hnum Hk. destruct page; cbn [handleSubmit_of numeric_field] in *.
  - unfold KidneyPage.handleSubmit.
    assert (E0 : KidneyPage.transformedValue k "" = VNum (Fin 0)).
    { unfold KidneyPage.transformedValue. now rewrite (includes_In _ _ Hnum). }
    assert (E1 : KidneyPage.transformedValue k "0" = KidneyPage.transformedValue k "").
    { unfold KidneyPage.transformedValue. now rewrite (includes_In _ _ Hnum). }
    destruct (handler_empty_field KidneyPage.transformedValue formData k "0"
                Hnd Hk E1) as [H1 H2].
    rewrite E0 in H1. split; [exact H1|exact H2].
  - unfold BreastPage.handleSubmit.
    destruct (handler_empty_field BreastPage.transformedValue formData k "0"
                Hnd Hk eq_refl) as [H1 H2].
    split; [exact H1|exact H2].
Qed.

Lemma empty_numeric_field_sent_as_zero_witness :
  obj_get "bp" (KidneyPage.handleSubmit KidneyPage.formData) = Some (JNumber 0) /\
  KidneyPage.handleSubmit KidneyPage.formData
  = KidneyPage.handleSubmit (obj_set "bp" "0" KidneyPage.formData).
Proof.
  apply (empty_numeric_field_sent_as_zero KidneyForm KidneyPage.formData "bp").
  - apply (bool_decide_unpack _). vm_compute. exact I.
  - simpl. tauto.
  - reflexivity.
Defined.

(** C6: the diabetes form in its initial state sends the eight fields
    Pregnancies, Glucose, BloodPressure, SkinThickness, Insulin, BMI,
    DiabetesPedigreeFunction, Age as the numbers 4, 130, 78, 25, 120,
    28.5, 0.85, 35, in that order whatever the state of the form, and
    vectorization of that body gives the vector of these eight numbers in
    the same order. *)
Theorem diabetes_scenario_vector :
  DiabetesPage.handlePredict DiabetesPage.formData
  = [ ("Pregnancies", JNumber 4); ("Glucose", JNumber 130);
      ("BloodPressure", JNumber 78); ("SkinThickness", JNumber 25);
      ("Insulin", JNumber 120); ("BMI", JNumber (decimal 285 1));
      ("DiabetesPedigreeFunction", JNumber (decimal 85 2));
      ("Age", JNumber 35) ] /\
  Core.vectorize Core.diabetes_schema
    (DiabetesPage.handlePredict DiabetesPage.formData)
  = Core.Accepted [ 4; 130; 78; 25; 120; decimal 285 1; decimal 85 2; 35 ]%Q /\
  (forall formData,
     keys (DiabetesPage.handlePredict formData)
     = [ "Pregnancies"; "Glucose"; "BloodPressure"; "SkinThickness";
         "Insulin"; "BMI"; "DiabetesPedigreeFunction"; "Age" ]) /\
  map Core.fieldName Core.diabetes_schema
  = keys (DiabetesPage.handlePredict DiabetesPage.formData).
Proof.
  split; [reflexivity|]. split; [reflexivity|]. split; [|reflexivity].
  intros formData. reflexivity.
Qed.

(** C7 (the code at the failing input): after the sample-data button the
    heart form sends 13 fields, [oldpeak] among them, whatever the random
    draws; and the form as it first shows sends [null] for its empty
    fields. *)
Theorem heart_request_fields :
  (forall rnd prev,
     keys (HeartPage.handlePredict (HeartPage.handleSampleData rnd prev))
     = [ "age"; "sex"; "cp"; "trestbps"; "chol"; "fbs"; "restecg";
         "thalach"; "exang"; "oldpeak"; "slope"; "ca"; "thal" ]) /\
  HeartPage.handlePredict
    (HeartPage.handleSampleData (fun _ => 0%Q) HeartPage.formData)
  = [ ("age", JNumber 25); ("sex", JNumber 0); ("cp", JNumber 0);
      ("trestbps", JNumber 90); ("chol", JNumber 120); ("fbs", JNumber 0);
      ("restecg", JNumber 0); ("thalach", JNumber 70); ("exang", JNumber 0);
      ("oldpeak", JNumber 0); ("slope", JNumber 0); ("ca", JNumber 0);
      ("thal", JNumber 0) ] /\
  HeartPage.handlePredict HeartPage.formData
  = [ ("age", JNull); ("sex", JNumber 1); ("cp", JNumber 0);
      ("trestbps", JNull); ("chol", JNull); ("fbs", JNumber 0);
      ("restecg", JNumber 0); ("thalach", JNull); ("exang", JNumber 0);
      ("slope", JNumber 0); ("ca", JNumber 0); ("thal", JNumber 1) ].
Proof.
  split; [|split; vm_compute; reflexivity].
  intros rnd prev. unfold HeartPage.handlePredict, HeartPage.handleSampleData.
  rewrite reduce_entries_map.
  - unfold keys, JSON_stringify. rewrite !map_map. reflexivity.
  - unfold keys, SampleData.getRandomHeartData. cbn [map fst].
    apply (bool_decide_unpack _). vm_compute. exact I.
Qed.

End FormClaims.

(** ** Comparisons and rounding *)

Section NumberFacts.
Import Js.
Local Open Scope Q_scope.

Lemma Qltb_lt (x y : Q) : Qltb x y = true <-> x < y.
Proof.
  unfold Qltb. rewrite negb_true_iff. split.
  - intros H. apply Qnot_le_lt. intros Hle.
    apply Qle_bool_iff in Hle. congruence.
  - intros H. destruct (Qle_bool y x) eqn:E; [|reflexivity].
    apply Qle_bool_iff in E. lra.
Qed.

Lemma Qltb_ge (x y : Q) : Qltb x y = false <-> y <= x.
Proof.
  unfold Qltb. rewrite negb_false_iff. apply Qle_bool_iff.
Qed.

(** [Math.round] is within one half of its argument. *)
Lemma Math_round_bounds (x : Q) :
  x - (1 # 2) < inject_Z (Math_round x) /\ inject_Z (Math_round x) <= x + (1 # 2).
Proof.
  unfold Math_round. split.
  - pose proof (Qlt_floor (x + (1 # 2))) as H.
    rewrite inject_Z_plus in H. change (inject_Z 1) with 1 in H. lra.
  - apply Qfloor_le.
Qed.

Lemma Math_round_nonneg (x : Q) : 0 <= x -> (0 <= Math_round x)%Z.
Proof.
  intros H. unfold Math_round.
  change 0%Z with (Qfloor 0). apply Qfloor_resp_le. lra.
Qed.

(** A whole number that is not negative prints as its digits. *)
Lemma toString_nonneg (n : Z) :
  (0 <= n)%Z -> toString (Fin (inject_Z n)) = string_of_nonneg n.
Proof.
  intros Hn. unfold toString.
  assert (Hf : fraction_digits (Qabs (inject_Z n)) 0 20 = 0%nat).
  { cbn [fraction_digits]. rewrite Qred_identity.
    - reflexivity.
    - simpl. apply Z.gcd_1_r. }
  rewrite Hf.
  assert (Hs : Qltb (inject_Z n) 0 = false).
  { apply Qltb_ge. change 0 with (inject_Z 0). now rewrite <- Zle_Qle. }
  rewrite Hs. unfold fixed_digits. simpl.
  rewrite Z.mul_1_r, !Z.div_1_r, Z.abs_eq by exact Hn. reflexivity.
Qed.

End NumberFacts.

(** ** The scoring policy and the tabular vectorizer *)

Section CoreFacts.
Import Js Core.

Lemma vectorize_never_accepts (schema : FeatureSchema) (req : RawRequest)
    (e : SchemaEntry) :
  In e schema ->
  (forall x, encode_entry e req <> Accepted x) ->
  forall v, vectorize schema req <> Accepted v.
Proof.
  induction schema as [|e0 rest IH]; simpl; intros Hin Hrej v; [destruct Hin|].
  destruct Hin as [->|Hin].
  - destruct (encode_entry e req) as [x|err] eqn:E; [|discriminate].
    now destruct (Hrej x).
  - destruct (encode_entry e0 req); [|discriminate].
    destruct (vectorize rest req) as [xs|err] eqn:E; [|discriminate].
    now destruct (IH Hin Hrej xs).
Qed.

(** The error of a vector is the error of one of its entries. *)
Lemma vectorize_error_source (schema : FeatureSchema) (req : RawRequest)
    (err : VectorizationError) :
  vectorize schema req = Rejected err ->
  exists e, In e schema /\ encode_entry e req = Rejected err.
Proof.
  induction schema as [|e0 rest IH]; simpl; [discriminate|].
  destruct (encode_entry e0 req) as [x|err0] eqn:E.
  - destruct (vectorize rest req) as [xs|err1]; [discriminate|].
    intros [= ->]. destruct (IH eq_refl) as (e & Hin & He). eauto.
  - intros [= ->]. eauto.
Qed.

Lemma encode_category_error (field : string) (rule : list (string * Z))
    (raw : option json) (err : VectorizationError) :
  encode_category field rule raw = Rejected err ->
  err = UnknownCategoryToken field.
Proof.
  unfold encode_category.
  destruct raw as [[| |token]|]; try (now intros [= <-]).
  destruct (obj_get token rule); [discriminate|now intros [= <-]].
Qed.

Lemma kidney_numeric_entries (e : SchemaEntry) :
  In e kidney_schema -> semType e = numeric ->
  In (fieldName e) KidneyPage.numericFields.
Proof.
  intros Hin Hty. unfold kidney_schema in Hin. simpl in Hin.
  repeat (destruct Hin as [<-|Hin]; [first [discriminate Hty|simpl; tauto]|]).
  destruct Hin.
Qed.

Lemma kidney_entry_types (e : SchemaEntry) :
  In e kidney_schema -> semType e = numeric \/ semType e = nominal_category.
Proof.
  intros Hin. unfold kidney_schema in Hin. simpl in Hin.
  repeat (destruct Hin as [<-|Hin]; [simpl; tauto|]).
  destruct Hin.
Qed.

Lemma kidney_nominal_not_numeric (field : string) (rule : list (string * Z)) :
  In (nominal field rule) kidney_schema ->
  includes KidneyPage.numericFields field = false.
Proof.
  intros Hin. unfold kidney_schema in Hin. simpl in Hin.
  repeat (destruct Hin as [Hin|Hin];
          [first [discriminate Hin|injection Hin as <- _; reflexivity]|]).
  destruct Hin.
Qed.

Lemma parse_numeric_error (field : string) (raw : option json)
    (err : VectorizationError) :
  parse_numeric field raw = Rejected err ->
  err = InvalidNumericValue field /\ forall q, raw <> Some (JNumber q).
Proof.
  unfold parse_numeric.
  destruct raw as [[|q|s]|]; try (intros [= <-]; split; [reflexivity|discriminate]).
  - discriminate.
  - destruct (StrDecimalLiteral (list_ascii_of_string s)) as [[[| |q] [|c l]]|];
      try discriminate; intros [= <-]; split; (reflexivity || discriminate).
Qed.

(** The first entry that fails gives the error of the vector. *)
Lemma vectorize_first_error (before after : FeatureSchema) (e : SchemaEntry)
    (req : RawRequest) (err : VectorizationError) :
  (forall e0, In e0 before -> exists x, encode_entry e0 req = Accepted x) ->
  encode_entry e req = Rejected err ->
  vectorize (before ++ e :: after) req = Rejected err.
Proof.
  intros Hbefore He. induction before as [|e0 rest IH]; simpl.
  - now rewrite He.
  - destruct (Hbefore e0 (or_introl eq_refl)) as (x & ->).
    rewrite IH; [reflexivity|]. intros e1 H1. apply Hbefore. now right.
Qed.

End CoreFacts.

Section CoreClaims.
Import Js Core.
Local Open Scope Q_scope.

(** C5: [classify] applies fixed thresholds, the same for the seven
    models: the prediction is positive exactly from 0.5 on, the risk level
    is Low under 0.3, Medium from 0.3 and under 0.7, High from 0.7 on; so
    0.5 is positive and 0.4999 is not, 0.29999 is Low, 0.3 and 0.69999 are
    Medium, 0.7 is High. *)
Theorem classify_thresholds :
  (forall p, is_positive (classify p) = true <-> 5 # 10 <= p) /\
  (forall p, level (classify p) = Low <-> p < 3 # 10) /\
  (forall p, level (classify p) = Medium <-> 3 # 10 <= p /\ p < 7 # 10) /\
  (forall p, level (classify p) = High <-> 7 # 10 <= p) /\
  (forall d p, classify_for d p = classify p) /\
  is_positive (classify (5 # 10)) = true /\
  is_positive (classify (4999 # 10000)) = false /\
  level (classify (29999 # 100000)) = Low /\
  level (classify (3 # 10)) = Medium /\
  level (classify (69999 # 100000)) = Medium /\
  level (classify (7 # 10)) = High.
Proof.
  assert (Hlevel : forall p,
            (p < 3 # 10 /\ level (classify p) = Low) \/
            (3 # 10 <= p /\ p < 7 # 10 /\ level (classify p) = Medium) \/
            (7 # 10 <= p /\ level (classify p) = High)).
  { intros p. unfold classify. simpl.
    destruct (Qltb p (3 # 10)) eqn:E3.
    - left. apply Qltb_lt in E3. auto.
    - apply Qltb_ge in E3. destruct (Qltb p (7 # 10)) eqn:E7.
      + right. left. apply Qltb_lt in E7. auto.
      + right. right. apply Qltb_ge in E7. auto. }
  split; [intros p; apply Qle_bool_iff|].
  split; [intros p; destruct (Hlevel p) as [[H ->]|[(H1 & H2 & ->)|[H ->]]];
          split; (discriminate || lra || tauto)|].
  split; [intros p; destruct (Hlevel p) as [[H ->]|[(H1 & H2 & ->)|[H ->]]];
          split; (discriminate || lra || tauto)|].
  split; [intros p; destruct (Hlevel p) as [[H ->]|[(H1 & H2 & ->)|[H ->]]];
          split; (discriminate || lra || tauto)|].
  split; [reflexivity|].
  repeat split; reflexivity.
Qed.

(** C8 (as the contract has it): a kidney request whose nominal field
    carries a token that is not in the encoding table of the field (for
    example appet: excellent, the table having good and poor) is sent by
    the form with the token as it was typed, and is not vectorized: the
    field is an UnknownCategoryToken and no vector comes out. The request
    fails with the error of the first entry, in declared order, that is
    not valid: with UnknownCategoryToken for the field when every entry
    declared before it is valid, with an UnknownCategoryToken when the
    numeric fields are numbers, and otherwise with the InvalidNumericValue
    of a numeric field that is not a number. *)
Theorem unknown_category_rejected (formData : obj string)
    (field token : string) (rule : list (string * Z)) :
  NoDup (keys formData) ->
  In (nominal field rule) kidney_schema ->
  obj_get field formData = Some token ->
  obj_get token rule = None ->
  obj_get field (KidneyPage.handleSubmit formData) = Some (JString token) /\
  encode_entry (nominal field rule) (KidneyPage.handleSubmit formData)
  = Rejected (UnknownCategoryToken field) /\
  (forall v, vectorize kidney_schema (KidneyPage.handleSubmit formData)
             <> Accepted v) /\
  (exists err,
     vectorize kidney_schema (KidneyPage.handleSubmit formData)
     = Rejected err /\
     ((exists f, err = UnknownCategoryToken f) \/
      (exists k, In k KidneyPage.numericFields /\
                 err = InvalidNumericValue k /\
                 forall q, obj_get k (KidneyPage.handleSubmit formData)
                           <> Some (JNumber q)))) /\
  (forall before after,
     kidney_schema = before ++ nominal field rule :: after ->
     (forall e, In e before ->
                exists x, encode_entry e (KidneyPage.handleSubmit formData)
                          = Accepted x) ->
     vectorize kidney_schema (KidneyPage.handleSubmit formData)
     = Rejected (UnknownCategoryToken field)) /\
  ((forall k, In k KidneyPage.numericFields ->
              exists q, obj_get k (KidneyPage.handleSubmit formData)
                        = Some (JNumber q)) ->
   exists f, vectorize kidney_schema (KidneyPage.handleSubmit formData)
             = Rejected (UnknownCategoryToken f)).
Proof.
  intros Hnd Hin Hfield Htoken.
  set (req := KidneyPage.handleSubmit formData).
  assert (Hsent : obj_get field req = Some (JString token)).
  { unfold req, KidneyPage.handleSubmit.
    rewrite reduce_entries_map by exact Hnd.
    rewrite obj_get_JSON_stringify, obj_get_map, Hfield.
    unfold KidneyPage.transformedValue.
    now rewrite (kidney_nominal_not_numeric field rule Hin). }
  assert (Hentry : encode_entry (nominal field rule) req
                   = Rejected (UnknownCategoryToken field)).
  { unfold encode_entry. simpl. rewrite Hsent. simpl. now rewrite Htoken. }
  assert (Hnever : forall v, vectorize kidney_schema req <> Accepted v).
  { apply (vectorize_never_accepts _ _ _ Hin). intros x. rewrite Hentry.
    discriminate. }
  assert (Herror : exists err,
            vectorize kidney_schema req = Rejected err /\
            ((exists f, err = UnknownCategoryToken f) \/
             (exists k, In k KidneyPage.numericFields /\
                        err = InvalidNumericValue k /\
                        forall q, obj_get k req <> Some (JNumber q)))).
  { destruct (vectorize kidney_schema req) as [v|err] eqn:E;
      [now destruct (Hnever v)|].
    exists err. split; [reflexivity|].
    destruct (vectorize_error_source _ _ _ E) as (e & He & Herr).
    destruct (kidney_entry_types e He) as [Hty|Hty];
      unfold encode_entry in Herr; rewrite Hty in Herr.
    - apply parse_numeric_error in Herr as [-> Hnot]. right.
      exists (fieldName e). split; [|split; [reflexivity|exact Hnot]].
      now apply kidney_numeric_entries.
    - apply encode_category_error in Herr. subst err. left. eauto. }
  split; [exact Hsent|]. split; [exact Hentry|]. split; [exact Hnever|].
  split; [exact Herror|]. split.
  - intros before after -> Hbefore.
    now apply vectorize_first_error.
  - intros Hnum.
    destruct Herror as (err & -> & [(f & ->)|(k & Hk & _ & Hnot)]);
      [eauto|].
    destruct (Hnum k Hk) as (q & Hq). now destruct (Hnot q).
Qed.

Lemma unknown_category_rejected_witness :
  obj_get "appet"
    (KidneyPage.handleSubmit (obj_set "appet" "excellent" KidneyPage.formData))
  = Some (JString "excellent") /\
  encode_entry (nominal "appet" good_poor)
    (KidneyPage.handleSubmit (obj_set "appet" "excellent" KidneyPage.formData))
  = Rejected (UnknownCategoryToken "appet") /\
  vectorize kidney_schema
    (KidneyPage.handleSubmit (obj_set "appet" "excellent" KidneyPage.formData))
  = Rejected (UnknownCategoryToken "appet") /\
  exists f, vectorize kidney_schema
              (KidneyPage.handleSubmit
                 (obj_set "appet" "excellent" KidneyPage.formData))
            = Rejected (UnknownCategoryToken f).
Proof.
  destruct (unknown_category_rejected
              (obj_set "appet" "excellent" KidneyPage.formData)
              "appet" "excellent" good_poor)
    as (Hsent & Hentry & _ & _ & Hfirst & Hnum).
  - apply (bool_decide_unpack _). vm_compute. exact I.
  - unfold kidney_schema. simpl. tauto.
  - reflexivity.
  - reflexivity.
  - split; [exact Hsent|]. split; [exact Hentry|]. split.
    + apply (Hfirst (firstn 21 kidney_schema) (skipn 22 kidney_schema));
        [reflexivity|].
      intros e He. simpl in He.
      repeat (destruct He as [<-|He]; [eexists; vm_compute; reflexivity|]).
      destruct He.
    + apply Hnum. intros k Hk. simpl in Hk.
      repeat (destruct Hk as [<-|Hk]; [eexists; vm_compute; reflexivity|]).
      destruct Hk.
Defined.

(** With abc typed for the age and excellent for the appetite, the form
    sends null for the age and the token excellent, and the request fails
    on the age, the entry declared first: the error is not an
    UnknownCategoryToken. *)
Lemma unknown_category_always_reported_fails :
  obj_get "appet"
    (KidneyPage.handleSubmit
       (obj_set "age" "abc"
          (obj_set "appet" "excellent" KidneyPage.formData)))
  = Some (JString "excellent") /\
  obj_get "excellent" good_poor = None /\
  vectorize kidney_schema
    (KidneyPage.handleSubmit
       (obj_set "age" "abc"
          (obj_set "appet" "excellent" KidneyPage.formData)))
  = Rejected (InvalidNumericValue "age") /\
  ~ unknown_category_always_reported.
Proof.
  split; [reflexivity|]. split; [reflexivity|]. split; [reflexivity|].
  intros H.
  destruct (H (obj_set "age" "abc"
                 (obj_set "appet" "excellent" KidneyPage.formData))
              "appet" "excellent" good_poor) as (f & Hf).
  - apply (bool_decide_unpack _). vm_compute. exact I.
  - unfold kidney_schema. simpl. tauto.
  - reflexivity.
  - reflexivity.
  - discriminate Hf.
Qed.

End CoreClaims.

Section Binary64Facts.
Import Js Binary64.
Local Open Scope Q_scope.

Lemma two_pow_pos (e : Z) : 0 < Qpower 2 e.
Proof. apply Qpower_0_lt. reflexivity. Qed.

Lemma two_pow_succ (e : Z) : Qpower 2 (e + 1) == 2 * Qpower 2 e.
Proof. rewrite Qpower_plus by discriminate. simpl. ring. Qed.

Lemma round_half_even_error (x : Q) :
  Qabs (inject_Z (round_half_even x) - x) <= 1 # 2.
Proof.
  unfold round_half_even.
  pose proof (Qfloor_le x) as H1. pose proof (Qlt_floor x) as H2.
  rewrite inject_Z_plus in H2. change (inject_Z 1) with 1 in H2.
  set (f := Qfloor x) in *.
  assert (Hdown : x - inject_Z f <= 1 # 2 ->
                  Qabs (inject_Z f - x) <= 1 # 2).
  { intros H. apply Qabs_Qle_condition. split; lra. }
  assert (Hup : 1 # 2 <= x - inject_Z f ->
                Qabs (inject_Z (f + 1) - x) <= 1 # 2).
  { intros H. rewrite inject_Z_plus. change (inject_Z 1) with 1.
    apply Qabs_Qle_condition. split; lra. }
  destruct (Qcompare_spec (x - inject_Z f) (1 # 2)) as [E|E|E].
  - destruct (Z.even f); [apply Hdown|apply Hup]; lra.
  - apply Hdown. lra.
  - apply Hup. lra.
Qed.

Lemma round_half_even_nonneg (x : Q) :
  0 <= x -> (0 <= round_half_even x)%Z.
Proof.
  intros Hx. unfold round_half_even.
  assert (H : (0 <= Qfloor x)%Z)
    by (change 0%Z with (Qfloor 0); now apply Qfloor_resp_le).
  destruct (Qcompare _ _); [destruct (Z.even _)| |]; lia.
Qed.

Lemma ilog2_lt (q : Q) (k : Z) :
  (0 <= k)%Z -> 0 <= q -> q < Qpower 2 k -> (ilog2 q < k)%Z.
Proof.
  intros Hk Hq Hlt. unfold ilog2.
  set (e0 := (Z.log2 (Qnum q) - Z.log2 (Zpos (Qden q)))%Z).
  destruct (Qle_bool (Qpower 2 e0) q) eqn:E.
  - apply Qle_bool_iff in E.
    apply (Qpower_lt_compat_l_inv 2); [|reflexivity].
    eapply Qle_lt_trans; eassumption.
  - assert (e0 <= k)%Z; [|lia]. unfold e0.
    destruct q as [a b]. cbn [Qnum Qden].
    assert (Ha : (0 <= a)%Z) by (unfold Qle in Hq; simpl in Hq; lia).
    assert (Hab : (a < 2 ^ k * Zpos b)%Z).
    { assert (E2 : Qpower 2 k == inject_Z (2 ^ k))
        by (symmetry; apply (Zpower_Qpower 2 k Hk)).
      rewrite E2 in Hlt. unfold Qlt in Hlt. simpl in Hlt. lia. }
    assert (Z.log2 a <= Z.log2 (Zpos b * 2 ^ k))%Z
      by (apply Z.log2_le_mono; lia).
    rewrite Z.log2_mul_pow2 in H by lia. lia.
Qed.

Lemma nearest_nonneg (q : Q) : 0 <= q -> 0 <= nearest q.
Proof.
  intros Hq. unfold nearest. apply Qmult_le_0_compat.
  - change 0 with (inject_Z 0). rewrite <- Zle_Qle.
    apply round_half_even_nonneg. apply Qle_shift_div_l; [apply two_pow_pos|].
    now rewrite Qmult_0_l.
  - apply Qlt_le_weak, two_pow_pos.
Qed.

(** Rounding a number under [2^k] moves it by at most half a unit in the
    last place of that range. *)
Lemma nearest_error (q : Q) (k : Z) :
  (0 <= k)%Z -> 0 <= q -> q < Qpower 2 k ->
  Qabs (nearest q - q) <= Qpower 2 (k - 54).
Proof.
  intros Hk Hq Hlt. unfold nearest.
  assert (He : (ulp_exponent q <= k - 53)%Z).
  { pose proof (ilog2_lt q k Hk Hq Hlt). unfold ulp_exponent. lia. }
  set (e := ulp_exponent q) in *.
  pose proof (two_pow_pos e) as Hp.
  pose proof (round_half_even_error (q / Qpower 2 e)) as Hr.
  set (m := inject_Z (round_half_even (q / Qpower 2 e))) in *.
  assert (E : m * Qpower 2 e - q == (m - q / Qpower 2 e) * Qpower 2 e).
  { field. lra. }
  rewrite E, Qabs_Qmult, (Qabs_pos (Qpower 2 e)) by lra.
  assert (Hhalf : (1 # 2) * Qpower 2 e == Qpower 2 (e - 1)).
  { replace e with ((e - 1) + 1)%Z at 1 by lia. rewrite two_pow_succ. ring. }
  apply Qle_trans with ((1 # 2) * Qpower 2 e).
  - apply Qmult_le_compat_r; [exact Hr|lra].
  - rewrite Hhalf. apply Qpower_le_compat_l; [lia|discriminate].
Qed.

(** The binary64 number nearest to a number under [2^k] in magnitude is
    finite and within [2^(k-54)] of it. *)
Lemma double_error (q : Q) (k : Z) :
  (0 <= k <= 1023)%Z -> Qabs q < Qpower 2 k ->
  exists v, double q = Fin v /\ Qred v = v /\
            Qabs (v - q) <= Qpower 2 (k - 54) /\
            (0 <= q -> 0 <= v).
Proof.
  intros [Hk0 Hk1] Hlt. unfold double.
  pose proof (nearest_error (Qabs q) k Hk0 (Qabs_nonneg q) Hlt) as Herr.
  pose proof (nearest_nonneg (Qabs q) (Qabs_nonneg q)) as Hm0.
  set (m := nearest (Qabs q)) in *.
  assert (Hsmall : Qpower 2 (k - 54) <= Qpower 2 k)
    by (apply Qpower_le_compat_l; [lia|discriminate]).
  assert (Htop : Qpower 2 (k + 1) <= Qpower 2 1024)
    by (apply Qpower_le_compat_l; [lia|discriminate]).
  rewrite two_pow_succ in Htop.
  apply Qabs_Qle_condition in Herr.
  assert (Qle_bool (Qpower 2 1024) m = false) as ->.
  { destruct (Qle_bool (Qpower 2 1024) m) eqn:E; [|reflexivity].
    apply Qle_bool_iff in E. lra. }
  eexists. split; [reflexivity|]. split; [apply Qred_involutive|].
  rewrite Qred_correct.
  destruct (Qltb q 0) eqn:E.
  - apply Qltb_lt in E. rewrite (Qabs_neg q) in Herr by lra.
    split; [apply Qabs_Qle_condition; split; lra|lra].
  - apply Qltb_ge in E. rewrite (Qabs_pos q) in Herr by lra.
    split; [apply Qabs_Qle_condition; split; lra|lra].
Qed.

Lemma double_100 : double 100 = Fin 100.
Proof. vm_compute. reflexivity. Qed.

End Binary64Facts.

Section PanelClaims.
Import Js.
Local Open Scope Q_scope.

(** C9 (as the code has it): the lung panel and the Parkinson's panel
    present the same probability in opposite ways: under 0.5 the lung
    panel shows its high-risk message and the Parkinson's panel its
    low-risk message, from 0.5 on it is the other way round. The number on
    each panel is computed from the probability of the response itself
    (not from its complement), as a rounded percentage: for a probability
    between 0 and 1 the lung panel prints a whole number within 1/2 of
    100 p and the Parkinson's panel prints, with one digit after the
    point, a number of tenths within 1/2 of 1000 p, up to the rounding of
    the binary64 numbers p and p * 100 (at most 2^-45 on 100 p). *)
Theorem opposite_presentation (r : PredictionResult) :
  (probability r < 1 # 2 ->
     message (LungPage.panel r)
     = "High risk of lung cancer detected. Please consult a healthcare provider immediately."
     /\ message (ParkinsonsPage.panel r)
     = "Low risk of Parkinson's disease detected. Continue monitoring your health.") /\
  (1 # 2 <= probability r ->
     message (LungPage.panel r)
     = "Low risk of lung cancer detected. Continue monitoring your health."
     /\ message (ParkinsonsPage.panel r)
     = "High risk of Parkinson's disease detected. Please consult a healthcare provider.") /\
  (0 <= probability r <= 1 ->
   exists n : Z,
     percentage (LungPage.panel r) = (string_of_nonneg n ++ "%")%string /\
     probability r * 100 - (1 # 2) - Qpower 2 (-45) < inject_Z n /\
     inject_Z n <= probability r * 100 + (1 # 2) + Qpower 2 (-45)) /\
  (0 <= probability r <= 1 ->
   exists n : Z,
     percentage (ParkinsonsPage.panel r) = (fixed_digits n 1 ++ "%")%string /\
     probability r * 1000 - (1 # 2) - Qpower 2 (-41) < inject_Z n /\
     inject_Z n <= probability r * 1000 + (1 # 2) + Qpower 2 (-41)).
Proof.
  unfold LungPage.panel, ParkinsonsPage.panel.
  cbn [message percentage].
  assert (Hprod : 0 <= probability r <= 1 ->
            exists y, Binary64.times (Binary64.double (probability r))
                        (Binary64.double 100) = Fin y /\
                      0 <= y /\
                      Qabs (y - probability r * 100) <= Qpower 2 (-45)).
  { intros [H0 H1].
    destruct (double_error (probability r) 1) as (v & Hv & _ & Hev & Hv0).
    - lia.
    - rewrite Qabs_pos by exact H0.
      apply Qle_lt_trans with 1; [exact H1|reflexivity].
    - specialize (Hv0 H0). apply Qabs_Qle_condition in Hev.
      assert (E53 : Qpower 2 (1 - 54) == 1 # 9007199254740992) by reflexivity.
      rewrite E53 in Hev.
      rewrite Hv, double_100. cbn [Binary64.times].
      destruct (double_error (v * 100) 7) as (y & Hy & _ & He & Hy0).
      + lia.
      + rewrite Qabs_pos by lra.
        apply Qle_lt_trans with 101; [lra|reflexivity].
      + exists y. split; [exact Hy|]. split; [apply Hy0; lra|].
        apply Qabs_Qle_condition in He.
        assert (E47 : Qpower 2 (7 - 54) == 1 # 140737488355328)
          by reflexivity.
        rewrite E47 in He.
        assert (E45 : Qpower 2 (-45) == 1 # 35184372088832) by reflexivity.
        apply Qabs_Qle_condition. rewrite E45. split; lra. }
  split; [|split; [|split]].
  - intros Hlt.
    assert (Qltb (probability r) (1 # 2) = true) as -> by now apply Qltb_lt.
    assert (Qle_bool (1 # 2) (probability r) = false) as ->; [|tauto].
    destruct (Qle_bool (1 # 2) (probability r)) eqn:E; [|reflexivity].
    apply Qle_bool_iff in E. lra.
  - intros Hge.
    assert (Qltb (probability r) (1 # 2) = false) as -> by now apply Qltb_ge.
    assert (Qle_bool (1 # 2) (probability r) = true) as ->
      by now apply Qle_bool_iff.
    tauto.
  - intros Hp. destruct (Hprod Hp) as (y & -> & Hy0 & He).
    apply Qabs_Qle_condition in He.
    cbn [Binary64.Math_round].
    exists (Math_round y).
    rewrite toString_nonneg by (apply Math_round_nonneg; exact Hy0).
    split; [reflexivity|].
    pose proof (Math_round_bounds y) as [H1 H2]. split; lra.
  - intros Hp. destruct (Hprod Hp) as (y & -> & Hy0 & He).
    apply Qabs_Qle_condition in He.
    assert (Hpow : Qpower 2 (-41) == 16 * Qpower 2 (-45)) by reflexivity.
    pose proof (two_pow_pos (-45)) as Hpos.
    assert (H47 : Qpower 2 (-45) <= 1) by discriminate.
    exists (Math_round (Qabs y * Qpower (10 # 1) 1)).
    unfold Binary64.toFixed.
    assert (Qle_bool (inject_Z (10 ^ 21)) (Qabs y) = false) as ->.
    { destruct (Qle_bool (inject_Z (10 ^ 21)) (Qabs y)) eqn:E; [|reflexivity].
      apply Qle_bool_iff in E. rewrite Qabs_pos in E by exact Hy0.
      assert (102 < inject_Z (10 ^ 21)) by reflexivity. lra. }
    unfold toFixed.
    assert (Qltb y 0 = false) as -> by (apply Qltb_ge; exact Hy0).
    split; [reflexivity|].
    assert (Habs : Qabs y * Qpower (10 # 1) 1 == y * 10).
    { rewrite Qabs_pos by exact Hy0. reflexivity. }
    pose proof (Math_round_bounds (Qabs y * Qpower (10 # 1) 1)) as [H1 H2].
    set (x := Qabs y * Qpower (10 # 1) 1) in *.
    split; lra.
Qed.

Lemma opposite_presentation_witness :
  (message (LungPage.panel
              {| prediction := false; probability := 1 # 8; risk_level := "Low" |})
   = "High risk of lung cancer detected. Please consult a healthcare provider immediately."
   /\ message (ParkinsonsPage.panel
                 {| prediction := false; probability := 1 # 8; risk_level := "Low" |})
   = "Low risk of Parkinson's disease detected. Continue monitoring your health.") /\
  (message (LungPage.panel
              {| prediction := true; probability := 3 # 4; risk_level := "High" |})
   = "Low risk of lung cancer detected. Continue monitoring your health."
   /\ message (ParkinsonsPage.panel
                 {| prediction := true; probability := 3 # 4; risk_level := "High" |})
   = "High risk of Parkinson's disease detected. Please consult a healthcare provider.") /\
  (exists n : Z,
     percentage (LungPage.panel
                   {| prediction := false; probability := 1 # 8; risk_level := "Low" |})
     = (string_of_nonneg n ++ "%")%string /\
     (1 # 8) * 100 - (1 # 2) - Qpower 2 (-45) < inject_Z n /\
     inject_Z n <= (1 # 8) * 100 + (1 # 2) + Qpower 2 (-45)) /\
  (exists n : Z,
     percentage (ParkinsonsPage.panel
                   {| prediction := false; probability := 1 # 8; risk_level := "Low" |})
     = (fixed_digits n 1 ++ "%")%string /\
     (1 # 8) * 1000 - (1 # 2) - Qpower 2 (-41) < inject_Z n /\
     inject_Z n <= (1 # 8) * 1000 + (1 # 2) + Qpower 2 (-41)).
Proof.
  destruct (opposite_presentation
              {| prediction := false; probability := 1 # 8; risk_level := "Low" |})
    as (Hlow & _ & Hlung & Hpark).
  destruct (opposite_presentation
              {| prediction := true; probability := 3 # 4; risk_level := "High" |})
    as (_ & Hhigh & _).
  split; [apply Hlow; reflexivity|].
  split; [apply Hhigh; discriminate|].
  split; [apply Hlung|apply Hpark]; split; discriminate.
Defined.

(** For the probability 0.123 the lung panel prints 12% and the
    Parkinson's panel 12.3%: the two panels do not print the same number,
    and the lung panel does not print the probability as it is. *)
Lemma probability_shown_unmodified_fails :
  percentage (LungPage.panel
                {| prediction := false; probability := 123 # 1000; risk_level := "Low" |})
  = "12%" /\
  percentage (ParkinsonsPage.panel
                {| prediction := false; probability := 123 # 1000; risk_level := "Low" |})
  = "12.3%" /\
  exact_percentage
    {| prediction := false; probability := 123 # 1000; risk_level := "Low" |}
  = "12.3%" /\
  ~ probability_shown_unmodified.
Proof.
  split; [vm_compute; reflexivity|]. split; [vm_compute; reflexivity|].
  split; [reflexivity|].
  intros H.
  destruct (H {| prediction := false; probability := 123 # 1000; risk_level := "Low" |})
    as [Hl _].
  vm_compute in Hl. discriminate Hl.
Qed.

End PanelClaims.

(** ** Reading back the digits of a number *)

Section DigitFacts.
Import Js DigitText.


Lemma digits_stops rest acc n : stops rest -> digits rest acc n = (acc, n, rest).
Proof. destruct rest as [|c r]; simpl; [reflexivity|]. now intros ->. Qed.

Lemma digits_uint (d : Decimal.uint) rest acc n :
  stops rest ->
  digits (list_ascii_of_string (NilEmpty.string_of_uint d) ++ rest) acc n
  = (uint_val d acc, (n + Decimal.nb_digits d)%nat, rest).
Proof.
  intros Hs. revert acc n.
  induction d; intros acc n; simpl;
    try (rewrite IHd, Nat.add_succ_r; simpl; rewrite ?Z.add_0_r; reflexivity).
  rewrite digits_stops by exact Hs. now rewrite Nat.add_0_r.
Qed.

Lemma uint_val_pos (d : Decimal.uint) (p : positive) :
  uint_val d (Zpos p) = Zpos (Pos.of_uint_acc d p).
Proof.
  revert p. induction d; intros p; simpl; try reflexivity;
    rewrite <- IHd; f_equal; lia.
Qed.

Lemma uint_val_of_uint (d : Decimal.uint) :
  uint_val d 0 = Z.of_N (Pos.of_uint d).
Proof.
  induction d; cbn [uint_val Pos.of_uint]; try reflexivity; try exact IHd;
    rewrite Z.mul_0_l, Z.add_0_l; now rewrite uint_val_pos.
Qed.

Lemma uint_val_to_uint (n : N) : uint_val (N.to_uint n) 0 = Z.of_N n.
Proof.
  rewrite uint_val_of_uint. change (Pos.of_uint ?d) with (N.of_uint d).
  now rewrite DecimalN.Unsigned.of_to.
Qed.

(** More digits in front only add to the value. *)
Lemma uint_val_acc (d : Decimal.uint) (acc : Z) :
  uint_val d acc = (acc * 10 ^ Z.of_nat (Decimal.nb_digits d) + uint_val d 0)%Z.
Proof.
  revert acc. induction d; intros acc; simpl Decimal.nb_digits; simpl uint_val;
    try (rewrite IHd, (IHd (0 * 10 + _)%Z) || rewrite IHd, (IHd (0 * 10)%Z));
    rewrite ?Nat2Z.inj_succ, ?Z.pow_succ_r by lia; simpl; lia.
Qed.

Lemma uint_val_nonneg (d : Decimal.uint) (acc : Z) :
  (0 <= acc -> 0 <= uint_val d acc)%Z.
Proof.
  revert acc. induction d; intros acc H; simpl; try apply IHd; lia.
Qed.


Lemma to_uint_normal (n : N) : Decimal.unorm (N.to_uint n) = N.to_uint n.
Proof.
  rewrite <- DecimalN.Unsigned.to_of. now rewrite DecimalN.Unsigned.of_to.
Qed.

Lemma uint_val_lead (d : Decimal.uint) :
  d <> Decimal.Nil -> (forall d', d <> Decimal.D0 d') ->
  (10 ^ (Z.of_nat (Decimal.nb_digits d) - 1) <= uint_val d 0)%Z.
Proof.
  intros Hnil H0.
  destruct d; try congruence; try (now destruct (H0 d));
    simpl Decimal.nb_digits; simpl uint_val; rewrite uint_val_acc;
    replace (Z.of_nat (S (Decimal.nb_digits d)) - 1)%Z
      with (Z.of_nat (Decimal.nb_digits d)) by lia;
    pose proof (uint_val_nonneg d 0 ltac:(lia));
    assert (0 < 10 ^ Z.of_nat (Decimal.nb_digits d))%Z
      by (apply Z.pow_pos_nonneg; lia);
    nia.
Qed.

(** A number under [10 ^ f] has at most [f] digits. *)
Lemma nb_digits_bound (n : N) (f : nat) :
  (Z.of_N n < 10 ^ Z.of_nat f)%Z -> (1 <= f)%nat ->
  (Decimal.nb_digits (N.to_uint n) <= f)%nat.
Proof.
  intros Hlt Hf.
  pose proof (to_uint_normal n) as Hn.
  pose proof (uint_val_to_uint n) as Hv.
  unfold Decimal.unorm in Hn.
  destruct (Decimal.nzhead (N.to_uint n)) eqn:E;
    try (rewrite <- Hn; simpl; lia);
    try (now destruct (DecimalFacts.nzhead_nonzero _ _ E));
    (assert (Hlead : (10 ^ (Z.of_nat (Decimal.nb_digits (N.to_uint n)) - 1)
                      <= uint_val (N.to_uint n) 0)%Z)
       by (apply uint_val_lead; rewrite <- Hn; congruence));
    rewrite Hv in Hlead;
    destruct (Nat.le_gt_cases (Decimal.nb_digits (N.to_uint n)) f) as [|Hgt];
    try assumption;
    exfalso;
    assert (10 ^ Z.of_nat f <= 10 ^ (Z.of_nat (Decimal.nb_digits (N.to_uint n)) - 1))%Z
      by (apply Z.pow_le_mono_r; lia);
    lia.
Qed.

Lemma length_string_of_uint (d : Decimal.uint) :
  String.length (NilEmpty.string_of_uint d) = Decimal.nb_digits d.
Proof. induction d; simpl; congruence. Qed.

Lemma string_of_nonneg_eq (z : Z) :
  string_of_nonneg z = NilEmpty.string_of_uint (N.to_uint (Z.to_N z)).
Proof.
  unfold string_of_nonneg, NilZero.string_of_uint.
  destruct (N.to_uint (Z.to_N z)) eqn:E; try reflexivity.
  destruct (Z.to_N z); simpl in E; [discriminate|].
  now destruct (DecimalPos.Unsigned.to_uint_nonnil p).
Qed.

Lemma list_ascii_of_string_app (a b : string) :
  list_ascii_of_string (a ++ b)%string
  = list_ascii_of_string a ++ list_ascii_of_string b.
Proof.
  induction a as [|c a IH]; [reflexivity|].
  change (list_ascii_of_string (String c a ++ b)%string)
    with (c :: list_ascii_of_string (a ++ b)%string).
  now rewrite IH.
Qed.

Lemma digits_zeros (k : nat) rest acc n :
  digits (list_ascii_of_string (zeros k) ++ rest) acc n
  = digits rest (acc * 10 ^ Z.of_nat k)%Z (n + k)%nat.
Proof.
  revert acc n. induction k; intros acc n.
  - simpl. f_equal; [lia|lia].
  - change (digits (list_ascii_of_string (zeros (S k)) ++ rest) acc n)
      with (digits (list_ascii_of_string (zeros k) ++ rest) (acc * 10 + 0)%Z (S n)).
    rewrite IHk. f_equal; [|lia].
    rewrite Nat2Z.inj_succ, Z.pow_succ_r by lia. lia.
Qed.

Lemma to_uint_nonnil (n : N) : N.to_uint n <> Decimal.Nil.
Proof. rewrite <- to_uint_normal. apply DecimalFacts.unorm_nonnil. Qed.

Lemma sign_uint (d : Decimal.uint) (rest : list ascii) :
  d <> Decimal.Nil ->
  sign (list_ascii_of_string (NilEmpty.string_of_uint d) ++ rest)
  = (false, list_ascii_of_string (NilEmpty.string_of_uint d) ++ rest).
Proof. destruct d; intros H; try reflexivity. congruence. Qed.

Lemma Infinity_uint (d : Decimal.uint) (rest : list ascii) :
  d <> Decimal.Nil ->
  starts_with (list_ascii_of_string "Infinity")
              (list_ascii_of_string (NilEmpty.string_of_uint d) ++ rest) = None.
Proof. destruct d; intros H; try reflexivity. congruence. Qed.

Lemma nb_digits_pos (d : Decimal.uint) :
  d <> Decimal.Nil -> (Decimal.nb_digits d <> 0)%nat.
Proof. intros H E. apply H. now apply DecimalFacts.nb_digits_0. Qed.

Lemma StrDecimalLiteral_fixed_digits (n : Z) (f : nat) :
  (0 <= n)%Z ->
  StrDecimalLiteral (list_ascii_of_string (fixed_digits n f))
  = Some (Fin (Qred (inject_Z n * Qpower (10 # 1) (0 - Z.of_nat f))), []).
Proof.
  intros Hn. unfold fixed_digits.
  assert (Hpow : (0 < 10 ^ Z.of_nat f)%Z) by (apply Z.pow_pos_nonneg; lia).
  set (ip := (n / 10 ^ Z.of_nat f)%Z).
  assert (Hip : (0 <= ip)%Z) by (apply Z.div_pos; lia).
  set (dip := N.to_uint (Z.to_N ip)).
  assert (Hdip : dip <> Decimal.Nil) by apply to_uint_nonnil.
  assert (Hvip : uint_val dip 0 = ip)
    by (unfold dip; rewrite uint_val_to_uint; lia).
  destruct f as [|f].
  - rewrite string_of_nonneg_eq. fold dip.
    rewrite <- (app_nil_r (list_ascii_of_string _)).
    unfold StrDecimalLiteral.
    rewrite sign_uint, Infinity_uint, digits_uint by (exact Hdip || exact I).
    cbn [app].
    destruct (Nat.eqb_spec (0 + Decimal.nb_digits dip + 0) 0) as [E|_];
      [pose proof (nb_digits_pos dip Hdip); lia|].
    cbn [exponent]. rewrite Hvip. unfold ip. now rewrite Z.div_1_r.
  - rewrite !list_ascii_of_string_app, !string_of_nonneg_eq. fold dip.
    set (fp := (n mod 10 ^ Z.of_nat (S f))%Z).
    assert (Hfp : (0 <= fp < 10 ^ Z.of_nat (S f))%Z)
      by (apply Z.mod_pos_bound; lia).
    set (dfp := N.to_uint (Z.to_N fp)).
    assert (Hvfp : uint_val dfp 0 = fp)
      by (unfold dfp; rewrite uint_val_to_uint; lia).
    assert (Hlen : (Decimal.nb_digits dfp <= S f)%nat)
      by (apply nb_digits_bound; [rewrite Z2N.id by lia; lia|lia]).
    rewrite length_string_of_uint.
    unfold StrDecimalLiteral.
    rewrite sign_uint, Infinity_uint, digits_uint
      by (exact Hdip || reflexivity).
    change (list_ascii_of_string "." ++ ?r) with ("."%char :: r).
    cbn iota beta.
    rewrite <- (app_nil_r (list_ascii_of_string (NilEmpty.string_of_uint dfp))).
    rewrite digits_zeros, digits_uint by exact I.
    replace (0 + (S f - Decimal.nb_digits dfp) + Decimal.nb_digits dfp)%nat
      with (S f) by lia.
    destruct (Nat.eqb_spec (0 + Decimal.nb_digits dip + S f) 0) as [E|_];
      [lia|].
    cbv beta iota zeta.
    destruct (Nat.eqb_spec (0 + Decimal.nb_digits dip + S f) 0) as [E|_];
      [lia|].
    cbn [exponent].
    rewrite uint_val_acc, Hvip, Hvfp.
    replace (ip * 10 ^ Z.of_nat (S f - Decimal.nb_digits dfp)
             * 10 ^ Z.of_nat (Decimal.nb_digits dfp) + fp)%Z with n;
      [reflexivity|].
    rewrite <- Z.mul_assoc, <- Z.pow_add_r by lia.
    replace (Z.of_nat (S f - Decimal.nb_digits dfp)
             + Z.of_nat (Decimal.nb_digits dfp))%Z with (Z.of_nat (S f)) by lia.
    unfold ip, fp. rewrite Z.mul_comm. apply Z.div_mod. lia.
Qed.

(** *** Texts made of digits and a point *)


Lemma numeralb_facts (c : ascii) :
  numeralb c = true ->
  is_space c = false /\
  (Ascii.eqb c "x" || Ascii.eqb c "X" = false) /\
  (Ascii.eqb c "o" || Ascii.eqb c "O" = false) /\
  (Ascii.eqb c "b" || Ascii.eqb c "B" = false).
Proof.
  destruct c as [[] [] [] [] [] [] [] []]; intros H;
    try discriminate H; repeat split; reflexivity.
Qed.

Lemma numeralb_uint (d : Decimal.uint) :
  Forall (fun c => numeralb c = true)
         (list_ascii_of_string (NilEmpty.string_of_uint d)).
Proof. induction d; simpl; constructor; (reflexivity || assumption). Qed.

Lemma numeralb_zeros (k : nat) :
  Forall (fun c => numeralb c = true) (list_ascii_of_string (zeros k)).
Proof. induction k; simpl; constructor; (reflexivity || assumption). Qed.

Lemma numeralb_fixed_digits (n : Z) (f : nat) :
  Forall (fun c => numeralb c = true) (list_ascii_of_string (fixed_digits n f)).
Proof.
  unfold fixed_digits. destruct f as [|f].
  - rewrite string_of_nonneg_eq. apply numeralb_uint.
  - rewrite !list_ascii_of_string_app, !string_of_nonneg_eq.
    repeat apply Forall_app_2;
      try apply numeralb_uint; try apply numeralb_zeros.
    constructor; [reflexivity|constructor].
Qed.

Lemma fixed_digits_nonempty (n : Z) (f : nat) :
  list_ascii_of_string (fixed_digits n f) <> [].
Proof.
  unfold fixed_digits.
  pose proof (to_uint_nonnil (Z.to_N (n / 10 ^ Z.of_nat f))) as Hd.
  destruct f as [|f]; rewrite ?list_ascii_of_string_app, string_of_nonneg_eq;
    destruct (N.to_uint (Z.to_N (n / 10 ^ Z.of_nat _))); try congruence;
    discriminate.
Qed.

Lemma trim_start_head (c : ascii) (l : list ascii) :
  is_space c = false -> trim_start (c :: l) = c :: l.
Proof. intros H. simpl. now rewrite H. Qed.

(** A text with no white space at either end is its own trimmed text. *)
Lemma trim_no_space (l : list ascii) :
  Forall (fun c => is_space c = false) l -> trim l = l.
Proof.
  intros H. unfold trim.
  assert (E : forall l', Forall (fun c => is_space c = false) l' ->
                         trim_start l' = l').
  { intros [|c r] H'; [reflexivity|]. apply trim_start_head.
    now apply Forall_inv in H'. }
  rewrite (E l H), E; [apply rev_involutive|].
  now apply Forall_rev.
Qed.

Lemma NonDecimalIntegerLiteral_numeral (l : list ascii) :
  Forall (fun c => numeralb c = true) l -> NonDecimalIntegerLiteral l = None.
Proof.
  intros H. destruct l as [|a [|p [|c r]]]; [reflexivity|..];
    try (destruct a as [[] [] [] [] [] [] [] []]; reflexivity).
  apply Forall_inv_tail, Forall_inv in H.
  destruct (numeralb_facts p H) as (_ & Hx & Ho & Hb).
  unfold NonDecimalIntegerLiteral.
  destruct a as [[] [] [] [] [] [] [] []]; try reflexivity.
  now rewrite Hx, Ho, Hb.
Qed.

(** A minus sign in front of an unsigned literal negates its value. *)
Lemma StrDecimalLiteral_minus (l rest : list ascii) (q : Q) :
  sign l = (false, l) ->
  StrDecimalLiteral l = Some (Fin q, rest) ->
  StrDecimalLiteral ("-"%char :: l) = Some (Fin (Qred (- q)), rest).
Proof.
  unfold StrDecimalLiteral. intros Hs. rewrite Hs. cbn [sign].
  destruct (starts_with _ l); [discriminate|].
  destruct (digits l 0 0) as [[ip ni] s2].
  destruct (match s2 with [] => _ | _ => _ end) as [[m nf] s3].
  destruct (ni + nf =? 0)%nat; [discriminate|].
  destruct (exponent s3) as [e s4].
  now intros [= <- <-].
Qed.

Lemma sign_fixed_digits (n : Z) (f : nat) :
  sign (list_ascii_of_string (fixed_digits n f))
  = (false, list_ascii_of_string (fixed_digits n f)).
Proof.
  pose proof (numeralb_fixed_digits n f) as H.
  destruct (list_ascii_of_string (fixed_digits n f)) as [|c r]; [reflexivity|].
  apply Forall_inv in H.
  destruct c as [[] [] [] [] [] [] [] []]; try discriminate H; reflexivity.
Qed.

(** What [Number] and [parseFloat] read in the digits [toFixed] and
    [toString] write. *)
Lemma read_fixed_digits (n : Z) (f : nat) :
  (0 <= n)%Z ->
  Number (fixed_digits n f) = Fin (decimal n f) /\
  parseFloat (fixed_digits n f) = Fin (decimal n f) /\
  Number ("-" ++ fixed_digits n f) = Fin (Qred (- decimal n f)) /\
  parseFloat ("-" ++ fixed_digits n f) = Fin (Qred (- decimal n f)).
Proof.
  intros Hn.
  pose proof (StrDecimalLiteral_fixed_digits n f Hn) as Hlit.
  rewrite Z.sub_0_l in Hlit. fold (decimal n f) in Hlit.
  pose proof (StrDecimalLiteral_minus _ _ _ (sign_fixed_digits n f) Hlit) as Hneg.
  pose proof (numeralb_fixed_digits n f) as Hnum.
  assert (Hsp : Forall (fun c => is_space c = false)
                       (list_ascii_of_string (fixed_digits n f))).
  { eapply Forall_impl; [exact Hnum|]. intros c Hc. now apply numeralb_facts. }
  pose proof (fixed_digits_nonempty n f) as Hne.
  assert (Htrim : trim_start (list_ascii_of_string (fixed_digits n f))
                  = list_ascii_of_string (fixed_digits n f)).
  { destruct (list_ascii_of_string (fixed_digits n f)) as [|c r];
      [reflexivity|]. apply trim_start_head. now apply Forall_inv in Hsp. }
  split; [|split; [|split]].
  - unfold Number. rewrite (trim_no_space _ Hsp).
    rewrite (NonDecimalIntegerLiteral_numeral _ Hnum), Hlit.
    now destruct (list_ascii_of_string (fixed_digits n f)).
  - unfold parseFloat. now rewrite Htrim, Hlit.
  - unfold Number.
    change (list_ascii_of_string ("-" ++ fixed_digits n f)%string)
      with ("-"%char :: list_ascii_of_string (fixed_digits n f)).
    rewrite trim_no_space by (constructor; [reflexivity|exact Hsp]).
    now rewrite Hneg.
  - unfold parseFloat.
    change (list_ascii_of_string ("-" ++ fixed_digits n f)%string)
      with ("-"%char :: list_ascii_of_string (fixed_digits n f)).
    rewrite trim_start_head by reflexivity. now rewrite Hneg.
Qed.

(** *** Printing and reading back *)

Local Open Scope Q_scope.

Lemma Qabs_nonneg_eq (q : Q) : 0 <= q -> Qabs q = q.
Proof.
  destruct q as [a b]. unfold Qle. simpl. intros H.
  f_equal. apply Z.abs_eq. lia.
Qed.

Lemma Qred_inject_Z (z : Z) : Qred (inject_Z z) = inject_Z z.
Proof. apply Qred_identity. simpl. apply Z.gcd_1_r. Qed.

Lemma ten_pow_pos (z : Z) : 0 < Qpower (10 # 1) z.
Proof. apply Qpower_0_lt. reflexivity. Qed.

Lemma ten_pow_cancel (z : Z) : Qpower (10 # 1) z * Qpower (10 # 1) (- z) == 1.
Proof.
  rewrite <- Qpower_plus by discriminate.
  now rewrite Z.add_opp_diag_r.
Qed.

(** A number whose reduced form has denominator 1 is its own floor. *)
Lemma whole_floor (x : Q) :
  Qden (Qred x) = 1%positive -> inject_Z (Qfloor x) == x.
Proof.
  intros H. rewrite <- (Qred_correct x) at 2.
  rewrite <- (Qfloor_comp _ _ (Qred_correct x)).
  destruct (Qred x) as [a b]. simpl in H. subst b.
  simpl. now rewrite Z.div_1_r.
Qed.

Lemma fraction_digits_whole (x : Q) (fuel f : nat) :
  Qden (Qred (x * Qpower (10 # 1) (Z.of_nat (f + fuel)))) = 1%positive ->
  Qden (Qred (x * Qpower (10 # 1) (Z.of_nat (fraction_digits x f fuel))))
  = 1%positive.
Proof.
  revert f. induction fuel as [|fuel IH]; intros f H; cbn [fraction_digits].
  - now rewrite Nat.add_0_r in H.
  - destruct (Z.eqb_spec
                (Zpos (Qden (Qred (x * Qpower (10 # 1) (Z.of_nat f))))) 1)
      as [E|_].
    + injection E as E. exact E.
    + apply IH. now rewrite Nat.add_succ_r in H.
Qed.

(** [toString] writes no more digits after the point than the value
    needs. *)
Lemma fraction_digits_le (x : Q) (fuel f d : nat) :
  (f <= d)%nat ->
  Qden (Qred (x * Qpower (10 # 1) (Z.of_nat d))) = 1%positive ->
  (fraction_digits x f fuel <= d)%nat.
Proof.
  revert f. induction fuel as [|fuel IH]; intros f Hf H; cbn [fraction_digits].
  - exact Hf.
  - destruct (Z.eqb_spec
                (Zpos (Qden (Qred (x * Qpower (10 # 1) (Z.of_nat f))))) 1)
      as [E|E]; [exact Hf|].
    apply IH; [|exact H].
    destruct (Nat.eq_dec f d) as [->|Hne]; [|lia].
    rewrite H in E. now destruct E.
Qed.

(** The text of a number that is not negative and has at most [d] digits
    after the point: digits, with a point before the last [f <= d]. *)
Lemma toString_plain (q : Q) (d : nat) :
  0 <= q -> has_decimals q d ->
  exists m f, (f <= d)%nat /\ (0 <= m)%Z /\
              toString (Fin q) = fixed_digits m f.
Proof.
  intros Hq Hd. unfold toString.
  rewrite (Qabs_nonneg_eq q Hq).
  assert (Qltb q 0 = false) as -> by now apply Qltb_ge.
  exists (Qfloor (q * Qpower (10 # 1) (Z.of_nat (fraction_digits q 0 20)))),
         (fraction_digits q 0 20).
  split; [apply fraction_digits_le; [lia|exact Hd]|].
  split; [|reflexivity].
  change 0%Z with (Qfloor 0). apply Qfloor_resp_le.
  apply Qmult_le_0_compat; [exact Hq|apply Qlt_le_weak, ten_pow_pos].
Qed.

(** [decimal n f] for a whole number [n] that is not negative. *)
Lemma decimal_eq (n : Z) (f : nat) :
  decimal n f == inject_Z n * Qpower (10 # 1) (- Z.of_nat f).
Proof. unfold decimal. apply Qred_correct. Qed.

Lemma decimal_of_whole (x : Q) (f : nat) :
  Qden (Qred (x * Qpower (10 # 1) (Z.of_nat f))) = 1%positive ->
  decimal (Qfloor (x * Qpower (10 # 1) (Z.of_nat f))) f = Qred x.
Proof.
  intros H. unfold decimal. apply Qred_complete.
  rewrite (whole_floor _ H), <- Qmult_assoc, ten_pow_cancel. ring.
Qed.

(** A finite number printed by [toString] is read back by [Number] and by
    [parseFloat]. *)
Lemma toString_read (q : Q) :
  Qred q = q ->
  Qden (Qred (Qabs q * Qpower (10 # 1) 20)) = 1%positive ->
  Number (toString (Fin q)) = Fin q /\ parseFloat (toString (Fin q)) = Fin q.
Proof.
  intros Hred Hwhole. unfold toString.
  set (f := fraction_digits (Qabs q) 0 20).
  assert (Hf : Qden (Qred (Qabs q * Qpower (10 # 1) (Z.of_nat f))) = 1%positive)
    by (apply fraction_digits_whole; exact Hwhole).
  set (n := Qfloor (Qabs q * Qpower (10 # 1) (Z.of_nat f))).
  assert (Hn : (0 <= n)%Z).
  { unfold n. change 0%Z with (Qfloor 0). apply Qfloor_resp_le.
    apply Qmult_le_0_compat; [apply Qabs_nonneg|].
    apply Qlt_le_weak, ten_pow_pos. }
  assert (Hdec : decimal n f = Qabs q).
  { unfold n. rewrite (decimal_of_whole _ _ Hf), Qred_abs. now rewrite Hred. }
  destruct (read_fixed_digits n f Hn) as (H1 & H2 & H3 & H4).
  rewrite Hdec in H1, H2, H3, H4.
  destruct (Qltb q 0) eqn:E.
  - apply Qltb_lt in E.
    assert (Hq : Qred (- Qabs q) = q).
    { rewrite <- Hred at 2. apply Qred_complete.
      rewrite Qabs_neg by lra. ring. }
    rewrite Hq in H3, H4. split; assumption.
  - apply Qltb_ge in E. rewrite (Qabs_nonneg_eq q E) in H1, H2.
    split; assumption.
Qed.

(** *** The random numbers of the sample data *)


Lemma decimal_le (n m : Z) (d : nat) :
  (n <= m)%Z -> decimal n d <= decimal m d.
Proof.
  intros H. rewrite !decimal_eq.
  apply Qmult_le_compat_r; [now rewrite <- Zle_Qle|].
  apply Qlt_le_weak, ten_pow_pos.
Qed.

Lemma decimal_floor (x : Q) (d : nat) :
  has_decimals x d ->
  decimal (Qfloor (x * Qpower (10 # 1) (Z.of_nat d))) d == x.
Proof.
  intros H. rewrite (decimal_of_whole x d H). apply Qred_correct.
Qed.

Lemma decimal_has_decimals (n : Z) (d : nat) : has_decimals (decimal n d) d.
Proof.
  unfold has_decimals.
  assert (E : decimal n d * Qpower (10 # 1) (Z.of_nat d) == inject_Z n).
  { rewrite decimal_eq, <- Qmult_assoc, (Qmult_comm (Qpower _ (- _))),
      ten_pow_cancel. ring. }
  rewrite (Qred_complete _ _ E), Qred_inject_Z. reflexivity.
Qed.

Lemma has_decimals_more (q : Q) (d e : nat) :
  has_decimals q d -> (d <= e)%nat -> has_decimals q e.
Proof.
  unfold has_decimals. intros H Hle.
  assert (E : q * Qpower (10 # 1) (Z.of_nat e)
              == inject_Z (Qfloor (q * Qpower (10 # 1) (Z.of_nat d))
                           * 10 ^ Z.of_nat (e - d))).
  { rewrite inject_Z_mult, (whole_floor _ H), Zpower_Qpower by lia.
    replace (Z.of_nat e) with (Z.of_nat d + Z.of_nat (e - d))%Z by lia.
    rewrite Qpower_plus by discriminate. change (inject_Z 10) with (10 # 1).
    ring. }
  rewrite (Qred_complete _ _ E), Qred_inject_Z. reflexivity.
Qed.

Lemma decimal_nonneg (n : Z) (d : nat) : (0 <= n)%Z -> 0 <= decimal n d.
Proof.
  intros Hn. rewrite decimal_eq. apply Qmult_le_0_compat.
  - change 0 with (inject_Z 0). now rewrite <- Zle_Qle.
  - apply Qlt_le_weak, ten_pow_pos.
Qed.

Lemma decimal_opp (n : Z) (d : nat) : decimal (- n) d == - decimal n d.
Proof. rewrite !decimal_eq, inject_Z_opp. ring. Qed.

(** [Math.round] of a number near a range of whole numbers falls in the
    range. *)
Lemma Math_round_near (y : Q) (a b : Z) :
  inject_Z a - (1 # 2) <= y -> y < inject_Z b + (1 # 2) ->
  (a <= Math_round y <= b)%Z.
Proof.
  intros Ha Hb. unfold Math_round. split.
  - rewrite <- (Qfloor_Z a). apply Qfloor_resp_le. lra.
  - assert (H : inject_Z (Qfloor (y + (1 # 2))) < inject_Z (b + 1)).
    { eapply Qle_lt_trans; [apply Qfloor_le|].
      rewrite inject_Z_plus. change (inject_Z 1) with 1. lra. }
    rewrite <- Zlt_Qlt in H. lia.
Qed.

(** What [Number] reads in the text [toFixed] writes for a number whose
    multiple by [10^d] is within 1/2 of the whole numbers from [a] to
    [b]. *)
Lemma Number_toFixed (x : Q) (d : nat) (a b : Z) :
  inject_Z a - (1 # 2) < x * Qpower (10 # 1) (Z.of_nat d) ->
  x * Qpower (10 # 1) (Z.of_nat d) < inject_Z b + (1 # 2) ->
  exists n : Z, (a <= n <= b)%Z /\ Number (toFixed x d) = Fin (decimal n d).
Proof.
  intros Ha Hb. unfold toFixed.
  set (p := Qpower (10 # 1) (Z.of_nat d)) in *.
  assert (Hp : 0 < p) by apply ten_pow_pos.
  destruct (Qltb x 0) eqn:E.
  - apply Qltb_lt in E.
    assert (Habs : Qabs x * p == - (x * p)).
    { rewrite (Qabs_neg x) by lra. ring. }
    set (n := Math_round (Qabs x * p)).
    assert (Hn : (- b <= n <= - a)%Z).
    { apply Math_round_near; rewrite inject_Z_opp, Habs; lra. }
    assert (Hn0 : (0 <= n)%Z).
    { apply Math_round_nonneg. apply Qmult_le_0_compat;
        [apply Qabs_nonneg|lra]. }
    destruct (read_fixed_digits n d Hn0) as (_ & _ & H3 & _).
    exists (- n)%Z. split; [lia|]. rewrite H3. f_equal.
    unfold decimal at 2. apply Qred_complete.
    rewrite decimal_eq, inject_Z_opp. ring.
  - apply Qltb_ge in E. rewrite (Qabs_nonneg_eq x E).
    set (n := Math_round (x * p)).
    assert (Hn : (a <= n <= b)%Z) by (apply Math_round_near; lra).
    assert (Hn0 : (0 <= n)%Z).
    { apply Math_round_nonneg. apply Qmult_le_0_compat; lra. }
    destruct (read_fixed_digits n d Hn0) as (H1 & _).
    exists n. split; [exact Hn|exact H1].
Qed.

(** The sum [r * (max - min) + min] of binary64 numbers is within
    [2^-34] of the range from [min] to [max]. *)
Lemma randomNum_range (r min max : Q) :
  0 <= r <= 1 -> min <= max -> -30000 <= min -> max <= 30000 ->
  exists x,
    Binary64.plus
      (Binary64.times (Binary64.double r)
         (Binary64.minus (Binary64.double max) (Binary64.double min)))
      (Binary64.double min) = Fin x /\
    min - Qpower 2 (-34) <= x /\ x <= max + Qpower 2 (-34).
Proof.
  intros [Hr0 Hr1] Hle Hlo Hhi.
  set (eps := Qpower 2 (-38)).
  assert (Heps : Qpower 2 (16 - 54) = eps) by reflexivity.
  assert (Heps53 : Qpower 2 (1 - 54) <= eps) by discriminate.
  assert (Heps0 : 0 < eps) by reflexivity.
  assert (Heps1 : eps <= 1 # 1000000) by discriminate.
  assert (Heps34 : Qpower 2 (-34) == 16 * eps) by reflexivity.
  assert (H16 : Qpower 2 16 == 65536) by reflexivity.
  assert (H1 : Qpower 2 1 == 2) by reflexivity.
  destruct (double_error r 1) as (r' & -> & _ & Er & Hr'); [lia| |].
  { rewrite H1, Qabs_pos by lra. lra. }
  destruct (double_error min 16) as (min' & -> & _ & Emin & _); [lia| |].
  { rewrite H16. apply Qabs_Qlt_condition. split; lra. }
  destruct (double_error max 16) as (max' & -> & _ & Emax & _); [lia| |].
  { rewrite H16. apply Qabs_Qlt_condition. split; lra. }
  rewrite Heps in Emin, Emax.
  apply Qabs_Qle_condition in Er, Emin, Emax.
  specialize (Hr' Hr0).
  cbn [Binary64.minus].
  destruct (double_error (max' - min') 16) as (D & -> & _ & ED & _); [lia| |].
  { rewrite H16. apply Qabs_Qlt_condition. split; lra. }
  rewrite Heps in ED. apply Qabs_Qle_condition in ED.
  cbn [Binary64.times].
  assert (HrD : - (4 * eps) <= r' * D /\ r' * D <= max - min + 6 * eps).
  { set (dl := Qpower 2 (1 - 54)) in *.
    assert (Hdl0 : 0 < dl) by reflexivity.
    assert (Hdl : dl * 60001 <= 2 * eps) by discriminate.
    assert (Hr1' : r' <= 1 + dl) by lra.
    assert (HD0 : - (3 * eps) <= D) by lra.
    assert (HD1 : D <= max - min + 3 * eps) by lra.
    assert (HU : 0 <= max - min + 3 * eps) by lra.
    assert (HU1 : max - min + 3 * eps <= 60001) by lra.
    split.
    - apply Qle_trans with (r' * - (3 * eps)).
      + assert (r' * (3 * eps) <= (1 + dl) * (3 * eps))
          by (apply Qmult_le_compat_r; lra).
        assert (dl * (3 * eps) <= (1 # 1000000) * (3 * eps))
          by (apply Qmult_le_compat_r; lra).
        lra.
      + rewrite !(Qmult_comm r'). apply Qmult_le_compat_r; lra.
    - apply Qle_trans with (r' * (max - min + 3 * eps)).
      + rewrite !(Qmult_comm r'). apply Qmult_le_compat_r; lra.
      + assert (r' * (max - min + 3 * eps)
                <= (1 + dl) * (max - min + 3 * eps))
          by (apply Qmult_le_compat_r; lra).
        assert (dl * (max - min + 3 * eps) <= dl * 60001)
          by (rewrite !(Qmult_comm dl); apply Qmult_le_compat_r; lra).
        lra. }
  destruct (double_error (r' * D) 16) as (P & -> & _ & EP & _); [lia| |].
  { rewrite H16. apply Qabs_Qlt_condition. split; lra. }
  rewrite Heps in EP. apply Qabs_Qle_condition in EP.
  cbn [Binary64.plus].
  destruct (double_error (P + min') 16) as (x & -> & _ & Ex & _); [lia| |].
  { rewrite H16. apply Qabs_Qlt_condition. split; lra. }
  rewrite Heps in Ex. apply Qabs_Qle_condition in Ex.
  exists x. split; [reflexivity|]. rewrite Heps34.
  split; lra.
Qed.

(** The number [getRandomNumber] returns for a draw [r]: a decimal with
    [d] digits after the point, between [min] and [max]. *)
Lemma getRandomNumber_draw (r min max : Q) (d : nat) :
  0 <= r <= 1 -> min <= max -> -30000 <= min -> max <= 30000 ->
  has_decimals min d -> has_decimals max d -> (d <= 6)%nat ->
  exists n : Z,
    (Qfloor (min * Qpower (10 # 1) (Z.of_nat d)) <= n
     <= Qfloor (max * Qpower (10 # 1) (Z.of_nat d)))%Z /\
    SampleData.getRandomNumber r min max d = Fin (decimal n d).
Proof.
  intros Hr Hle Hlo Hhi Hdmin Hdmax Hd.
  unfold SampleData.getRandomNumber.
  destruct (randomNum_range r min max Hr Hle Hlo Hhi) as (x & -> & Hx0 & Hx1).
  set (p := Qpower (10 # 1) (Z.of_nat d)).
  assert (Hp : 0 < p) by apply ten_pow_pos.
  assert (Hp6 : p <= 1000000).
  { unfold p. apply Qle_trans with (Qpower (10 # 1) 6); [|discriminate].
    apply Qpower_le_compat_l; [lia|discriminate]. }
  assert (H34 : Qpower 2 (-34) * 1000000 < 1 # 2) by reflexivity.
  assert (H34' : 0 < Qpower 2 (-34)) by reflexivity.
  assert (Hslack : Qpower 2 (-34) * p < 1 # 2).
  { apply Qle_lt_trans with (Qpower 2 (-34) * 1000000); [|exact H34].
    rewrite !(Qmult_comm (Qpower 2 (-34))). apply Qmult_le_compat_r; lra. }
  pose proof (whole_floor _ Hdmin) as Ha.
  pose proof (whole_floor _ Hdmax) as Hb.
  fold p in Ha, Hb |- *.
  assert (Hxp0 : (min - Qpower 2 (-34)) * p <= x * p)
    by (apply Qmult_le_compat_r; lra).
  assert (Hxp1 : x * p <= (max + Qpower 2 (-34)) * p)
    by (apply Qmult_le_compat_r; lra).
  unfold Binary64.toFixed.
  assert (Qle_bool (inject_Z (10 ^ 21)) (Qabs x) = false) as ->.
  { destruct (Qle_bool (inject_Z (10 ^ 21)) (Qabs x)) eqn:E; [|reflexivity].
    apply Qle_bool_iff in E.
    assert (Hx : Qabs x <= 30001).
    { assert (Qpower 2 (-34) <= 1) by discriminate.
      apply Qabs_Qle_condition. split; lra. }
    assert (30001 < inject_Z (10 ^ 21)) by reflexivity. lra. }
  apply Number_toFixed; fold p; lra.
Qed.

(** The same for a range that is not negative. *)
Lemma getRandomNumber_spec (r min max : Q) (d : nat) :
  0 <= r <= 1 -> 0 <= min -> min <= max ->
  has_decimals min d -> has_decimals max d ->
  max <= 30000 -> (d <= 6)%nat ->
  exists n : Z,
    SampleData.getRandomNumber r min max d = Fin (decimal n d) /\
    (0 <= n)%Z /\
    min <= decimal n d /\ decimal n d <= max.
Proof.
  intros Hr Hmin Hle Hdmin Hdmax Hhi Hd.
  destruct (getRandomNumber_draw r min max d Hr Hle) as (n & Hn & E);
    try assumption; [lra|].
  exists n. split; [exact E|].
  assert (Ha0 : (0 <= Qfloor (min * Qpower (10 # 1) (Z.of_nat d)))%Z).
  { change 0%Z with (Qfloor 0). apply Qfloor_resp_le.
    apply Qmult_le_0_compat; [lra|apply Qlt_le_weak, ten_pow_pos]. }
  split; [lia|]. split.
  - rewrite <- (decimal_floor min d Hdmin). apply decimal_le. apply Hn.
  - rewrite <- (decimal_floor max d Hdmax). apply decimal_le. apply Hn.
Qed.

(** What [formatNumber] writes for such a number is read back by
    [parseFloat] and by [Number]. *)
Lemma formatNumber_decimal (n : Z) (d : nat) :
  (0 <= n)%Z -> (d <= 20)%nat ->
  parseFloat (SampleData.formatNumber (Fin (decimal n d))) = Fin (decimal n d) /\
  Number (SampleData.formatNumber (Fin (decimal n d))) = Fin (decimal n d).
Proof.
  intros Hn Hd. unfold SampleData.formatNumber.
  assert (H0 : 0 <= decimal n d).
  { rewrite decimal_eq. apply Qmult_le_0_compat.
    - change 0 with (inject_Z 0). now rewrite <- Zle_Qle.
    - apply Qlt_le_weak, ten_pow_pos. }
  destruct (toString_read (decimal n d)) as [H1 H2].
  - apply Qred_involutive.
  - rewrite (Qabs_nonneg_eq _ H0).
    apply (has_decimals_more _ d 20); [apply decimal_has_decimals|exact Hd].
  - split; assumption.
Qed.

End DigitFacts.

(** ** More on the symptom vectorizer *)

Section HelperMoreFacts.
Import Py Helper HelperOutput.







End HelperMoreFacts.

Section HelperMoreClaims.
Import Py Helper HelperOutput.





End HelperMoreClaims.

Section HelperRunMoreClaims.
Import Py Helper.

(** X2: only the lower-cased form of a token counts: two lists of tokens
    that agree position by position after [str.lower] give the same
    vector, whatever the output. *)
Theorem letter_case_ignored (lower : string -> string)
    (stdout : printed -> option exn) (df : DataFrame) (ss ts : list string) :
  columns df <> [] ->
  Forall2 (fun s t => lower s = lower t) ss ts ->
  ((forall line, stdout line = None) ->
   exists a out1 out2,
     HelperPy.prepare_symptoms_array lower stdout df (map PyStr ss)
     = Ok (a, out1) /\
     HelperPy.prepare_symptoms_array lower stdout df (map PyStr ts)
     = Ok (a, out2)) /\
  (forall a1 out1 a2 out2,
     HelperPy.prepare_symptoms_array lower stdout df (map PyStr ss)
     = Ok (a1, out1) ->
     HelperPy.prepare_symptoms_array lower stdout df (map PyStr ts)
     = Ok (a2, out2) ->
     a1 = a2).
Proof.
  intros Hne Hcase.
  assert (Hv : forall a,
            fold_left (HelperPy.mark lower (columns df)) (map PyStr ss) a
            = fold_left (HelperPy.mark lower (columns df)) (map PyStr ts) a).
  { induction Hcase as [|s t ss ts Hst _ IH]; intros a; [reflexivity|].
    simpl. rewrite Hst. apply IH. }
  split.
  - intros Hall.
    rewrite !run_returns; try exact Hne; try (apply Forall_forall; auto).
    do 3 eexists. split; [reflexivity|]. now rewrite Hv.
  - intros a1 out1 a2 out2 H1 H2.
    apply (run_returned lower stdout df _ _ _ Hne) in H1 as (-> & _ & _).
    apply (run_returned lower stdout df _ _ _ Hne) in H2 as (-> & _ & _).
    apply Hv.
Qed.

Lemma letter_case_ignored_witness :
  (exists a out1 out2,
     HelperPy.prepare_symptoms_array Py.lower HelperPy.stdout_any
       {| columns := ["fever"; "Cough"; "Disease"] |}
       (map PyStr ["FEVER"; "cough"]) = Ok (a, out1) /\
     HelperPy.prepare_symptoms_array Py.lower HelperPy.stdout_any
       {| columns := ["fever"; "Cough"; "Disease"] |}
       (map PyStr ["Fever"; "COUGH"]) = Ok (a, out2)) /\
  [1%Z; 1%Z] = [1%Z; 1%Z].
Proof.
  destruct (letter_case_ignored Py.lower HelperPy.stdout_any
              {| columns := ["fever"; "Cough"; "Disease"] |}
              ["FEVER"; "cough"] ["Fever"; "COUGH"]) as [Hret Hsame].
  - discriminate.
  - repeat constructor.
  - split.
    + apply Hret. intros line. reflexivity.
    + apply (Hsame [1%Z; 1%Z]
               [AvailableColumns ["fever"; "Cough"; "Disease"];
                ReceivedSymptoms [PyStr "FEVER"; PyStr "cough"]]
               [1%Z; 1%Z]
               [AvailableColumns ["fever"; "Cough"; "Disease"];
                ReceivedSymptoms [PyStr "Fever"; PyStr "COUGH"]]);
        reflexivity.
Defined.

(** X4: a token whose first match is the last column of the frame (the
    column that has no slot) is reported with an IndexError for the index
    one past the array and changes nothing: the vector is the one of the
    list without it. *)
Theorem last_column_symptom (lower : string -> string)
    (stdout : printed -> option exn) (df : DataFrame)
    (pre post : list value) (s : string) :
  HelperPy.first_match lower (columns df) (lower s)
  = Some (length (columns df) - 1)%nat ->
  ((forall line, stdout line = None) ->
   exists a out out',
     HelperPy.prepare_symptoms_array lower stdout df (pre ++ PyStr s :: post)
     = Ok (a, out) /\
     HelperPy.prepare_symptoms_array lower stdout df (pre ++ post)
     = Ok (a, out')) /\
  (forall a out,
     HelperPy.prepare_symptoms_array lower stdout df (pre ++ PyStr s :: post)
     = Ok (a, out) ->
     In (ErrorProcessing (PyStr s)
           (IndexError (length (columns df) - 1) (length (columns df) - 1)))
        out /\
     forall a' out',
       HelperPy.prepare_symptoms_array lower stdout df (pre ++ post)
       = Ok (a', out') ->
       a' = a).
Proof.
  intros Hf.
  assert (Hne : columns df <> []).
  { intros E. rewrite E in Hf. discriminate. }
  assert (Hv : fold_left (HelperPy.mark lower (columns df))
                 (pre ++ PyStr s :: post)
                 (replicate (length (vocabulary df)) 0%Z)
               = fold_left (HelperPy.mark lower (columns df)) (pre ++ post)
                   (replicate (length (vocabulary df)) 0%Z)).
  { apply run_fold_mark_skip.
    intros b Hb. unfold HelperPy.mark. rewrite Hf. apply list_insert_ge.
    rewrite Hb, length_replicate, vocabulary_length. lia. }
  split.
  - intros Hall.
    rewrite !run_returns; try exact Hne; try (apply Forall_forall; auto).
    do 3 eexists. split; [reflexivity|]. now rewrite Hv.
  - intros a out Hrun.
    apply (run_returned lower stdout df _ _ _ Hne) in Hrun as (-> & -> & _).
    split.
    + apply in_or_app. right. apply in_flat_map. exists (PyStr s).
      split; [apply in_or_app; right; now left|].
      unfold HelperPy.said, HelperPy.attempt_of.
      rewrite Hf, vocabulary_length, Nat.ltb_irrefl. now left.
    + intros a' out' Hrun'.
      apply (run_returned lower stdout df _ _ _ Hne) in Hrun' as (-> & _ & _).
      now symmetry.
Qed.

Lemma last_column_symptom_witness :
  (exists a out out',
     HelperPy.prepare_symptoms_array Py.lower HelperPy.stdout_any
       {| columns := ["fever"; "Cough"; "Disease"] |}
       ([PyStr "fever"] ++ PyStr "DISEASE" :: [PyStr "cough"]) = Ok (a, out) /\
     HelperPy.prepare_symptoms_array Py.lower HelperPy.stdout_any
       {| columns := ["fever"; "Cough"; "Disease"] |}
       ([PyStr "fever"] ++ [PyStr "cough"]) = Ok (a, out')) /\
  In (ErrorProcessing (PyStr "DISEASE") (IndexError 2 2))
     [AvailableColumns ["fever"; "Cough"; "Disease"];
      ReceivedSymptoms [PyStr "fever"; PyStr "DISEASE"; PyStr "cough"];
      ErrorProcessing (PyStr "DISEASE") (IndexError 2 2)].
Proof.
  destruct (last_column_symptom Py.lower HelperPy.stdout_any
              {| columns := ["fever"; "Cough"; "Disease"] |}
              [PyStr "fever"] [PyStr "cough"] "DISEASE" eq_refl)
    as [Hret Hrun].
  split.
  - apply Hret. intros line. reflexivity.
  - apply (Hrun [1%Z; 1%Z]). reflexivity.
Defined.

(** X5: the output of a call that returns is the two opening lines
    followed by one line for each symptom that sets no slot; a symptom
    that sets a slot prints nothing. *)
Theorem output_line_count (lower : string -> string)
    (stdout : printed -> option exn) (df : DataFrame)
    (symptoms : list value) :
  columns df <> [] ->
  ((forall line, stdout line = None) ->
   exists a out,
     HelperPy.prepare_symptoms_array lower stdout df symptoms = Ok (a, out)) /\
  (forall a out,
     HelperPy.prepare_symptoms_array lower stdout df symptoms = Ok (a, out) ->
     take 2 out = [AvailableColumns (columns df); ReceivedSymptoms symptoms] /\
     length out
     = (2 + length (List.filter
                      (fun x => negb (HelperPy.sets_slot lower df x))
                      symptoms))%nat).
Proof.
  intros Hne. split.
  { intros Hall. do 2 eexists. apply run_returns; [exact Hne|].
    apply Forall_forall. auto. }
  intros a out Hrun.
  apply (run_returned lower stdout df _ _ _ Hne) in Hrun as (_ & -> & _).
  split; [reflexivity|].
  unfold HelperPy.lines. rewrite length_app. simpl length. f_equal.
  induction symptoms as [|x l IH]; [reflexivity|].
  cbn [flat_map List.filter]. rewrite length_app, IH.
  rewrite (run_said_length lower stdout df x Hne).
  now destruct (HelperPy.sets_slot lower df x).
Qed.

Lemma output_line_count_witness :
  (exists a out,
     HelperPy.prepare_symptoms_array Py.lower HelperPy.stdout_any
       {| columns := ["fever"; "Cough"; "Disease"] |}
       [PyStr "FEVER"; PyInt 3; PyStr "rash"] = Ok (a, out)) /\
  take 2 [AvailableColumns ["fever"; "Cough"; "Disease"];
          ReceivedSymptoms [PyStr "FEVER"; PyInt 3; PyStr "rash"];
          ErrorProcessing (PyInt 3) (AttributeError (PyInt 3) "lower");
          WarningNotFound (PyStr "rash")]
  = [AvailableColumns ["fever"; "Cough"; "Disease"];
     ReceivedSymptoms [PyStr "FEVER"; PyInt 3; PyStr "rash"]] /\
  length [AvailableColumns ["fever"; "Cough"; "Disease"];
          ReceivedSymptoms [PyStr "FEVER"; PyInt 3; PyStr "rash"];
          ErrorProcessing (PyInt 3) (AttributeError (PyInt 3) "lower");
          WarningNotFound (PyStr "rash")] = 4%nat.
Proof.
  destruct (output_line_count Py.lower HelperPy.stdout_any
              {| columns := ["fever"; "Cough"; "Disease"] |}
              [PyStr "FEVER"; PyInt 3; PyStr "rash"]) as [Hret Hrun].
  - discriminate.
  - split.
    + apply Hret. intros line. reflexivity.
    + apply (Hrun [1%Z; 0%Z]). reflexivity.
Defined.

(** X6: every diagnostic in the output of a call that returns is about a
    symptom of the list. A warning is for a string that matches no column.
    An error line has one of three causes: an AttributeError for a value
    that is not a string, an IndexError for a string whose first match is
    the last column, or the error that [print] raised on the warning of a
    string that matches no column. No other error (a KeyError of the
    column look-up, say) is ever printed. *)
Theorem diagnostics_justified (lower : string -> string)
    (stdout : printed -> option exn) (df : DataFrame)
    (symptoms : list value) :
  columns df <> [] ->
  ((forall line, stdout line = None) ->
   exists a out,
     HelperPy.prepare_symptoms_array lower stdout df symptoms = Ok (a, out)) /\
  (forall a out,
     HelperPy.prepare_symptoms_array lower stdout df symptoms = Ok (a, out) ->
     (forall x, In (WarningNotFound x) out ->
        In x symptoms /\
        exists s, x = PyStr s /\
                  forall c, In c (columns df) -> lower c <> lower s) /\
     (forall x e, In (ErrorProcessing x e) out ->
        In x symptoms /\
        ((e = AttributeError x "lower" /\ forall s, x <> PyStr s) \/
         (e = IndexError (length (columns df) - 1) (length (columns df) - 1) /\
          exists s, x = PyStr s /\
                    HelperPy.first_match lower (columns df) (lower s)
                    = Some (length (columns df) - 1)%nat) \/
         (stdout (WarningNotFound x) = Some e /\
          exists s, x = PyStr s /\
                    forall c, In c (columns df) -> lower c <> lower s)))).
Proof.
  intros Hne. split.
  { intros Hall. do 2 eexists. apply run_returns; [exact Hne|].
    apply Forall_forall. auto. }
  intros a out Hrun.
  apply (run_returned lower stdout df _ _ _ Hne) in Hrun as (_ & -> & _).
  assert (Hline : forall line,
            In line (HelperPy.lines lower stdout df symptoms) ->
            (exists x, In x symptoms /\
                       In line (HelperPy.said lower stdout (columns df)
                                  (length (vocabulary df)) x))
            \/ line = AvailableColumns (columns df)
            \/ line = ReceivedSymptoms symptoms).
  { intros line Hin. apply in_app_or in Hin as [Hin|Hin].
    - simpl in Hin. intuition.
    - left. now apply in_flat_map in Hin. }
  assert (Hcases : forall y line,
            In line (HelperPy.said lower stdout (columns df)
                       (length (vocabulary df)) y) ->
            (line = WarningNotFound y /\
             exists s, y = PyStr s /\
                       forall c, In c (columns df) -> lower c <> lower s) \/
            (exists e, line = ErrorProcessing y e /\
               ((e = AttributeError y "lower" /\ forall s, y <> PyStr s) \/
                (e = IndexError (length (columns df) - 1)
                       (length (columns df) - 1) /\
                 exists s, y = PyStr s /\
                           HelperPy.first_match lower (columns df) (lower s)
                           = Some (length (columns df) - 1)%nat) \/
                (stdout (WarningNotFound y) = Some e /\
                 exists s, y = PyStr s /\
                           forall c, In c (columns df) ->
                                     lower c <> lower s)))).
  { intros y line Hs. unfold HelperPy.said, HelperPy.attempt_of in Hs.
    destruct y as [s| | |];
      try (destruct (columns df); [contradiction|];
           destruct Hs as [<-|[]]; right; eexists; split; [reflexivity|];
           left; split; [reflexivity|discriminate]).
    destruct (HelperPy.first_match lower (columns df) (lower s)) as [i|] eqn:Hf.
    - destruct (i <? length (vocabulary df))%nat eqn:E; [destruct Hs|].
      destruct Hs as [<-|[]]. right. eexists. split; [reflexivity|].
      right. left.
      apply Nat.ltb_ge in E. rewrite vocabulary_length in *.
      pose proof (run_first_match_lt lower _ _ _ Hf) as Hlt.
      assert (i = length (columns df) - 1)%nat as -> by lia.
      split; [reflexivity|]. eauto.
    - assert (Hnone : forall c, In c (columns df) -> lower c <> lower s)
        by now apply run_first_match_None.
      destruct (stdout (WarningNotFound (PyStr s))) as [e|] eqn:Ew;
        destruct Hs as [<-|[]].
      + right. eexists. split; [reflexivity|]. right. right. eauto.
      + left. eauto. }
  split.
  - intros x Hin.
    destruct (Hline _ Hin) as [(y & Hy & Hs)|[H|H]]; try discriminate.
    destruct (Hcases _ _ Hs) as [[[= ->] H]|(e & [=] & _)]. auto.
  - intros x e Hin.
    destruct (Hline _ Hin) as [(y & Hy & Hs)|[H|H]]; try discriminate.
    destruct (Hcases _ _ Hs) as [[[=] _]|(e' & [= -> ->] & H)]. auto.
Qed.

Lemma diagnostics_justified_witness :
  (exists a out,
     HelperPy.prepare_symptoms_array Py.lower HelperPy.stdout_any
       {| columns := ["fever"; "Cough"; "Disease"] |}
       [PyStr "disease"; PyInt 3; PyStr "rash"] = Ok (a, out)) /\
  (forall x,
     In (WarningNotFound x)
        [AvailableColumns ["fever"; "Cough"; "Disease"];
         ReceivedSymptoms [PyStr "disease"; PyInt 3; PyStr "rash"];
         ErrorProcessing (PyStr "disease") (IndexError 2 2);
         ErrorProcessing (PyInt 3) (AttributeError (PyInt 3) "lower");
         WarningNotFound (PyStr "rash")] ->
     In x [PyStr "disease"; PyInt 3; PyStr "rash"] /\
     exists s, x = PyStr s /\
               forall c, In c ["fever"; "Cough"; "Disease"] ->
                         Py.lower c <> Py.lower s) /\
  (forall x e,
     In (ErrorProcessing x e)
        [AvailableColumns ["fever"; "Cough"; "Disease"];
         ReceivedSymptoms [PyStr "disease"; PyInt 3; PyStr "rash"];
         ErrorProcessing (PyStr "disease") (IndexError 2 2);
         ErrorProcessing (PyInt 3) (AttributeError (PyInt 3) "lower");
         WarningNotFound (PyStr "rash")] ->
     In x [PyStr "disease"; PyInt 3; PyStr "rash"] /\
     ((e = AttributeError x "lower" /\ forall s, x <> PyStr s) \/
      (e = IndexError 2 2 /\
       exists s, x = PyStr s /\
                 HelperPy.first_match Py.lower ["fever"; "Cough"; "Disease"]
                   (Py.lower s) = Some 2%nat) \/
      (HelperPy.stdout_any (WarningNotFound x) = Some e /\
       exists s, x = PyStr s /\
                 forall c, In c ["fever"; "Cough"; "Disease"] ->
                           Py.lower c <> Py.lower s))).
Proof.
  destruct (diagnostics_justified Py.lower HelperPy.stdout_any
              {| columns := ["fever"; "Cough"; "Disease"] |}
              [PyStr "disease"; PyInt 3; PyStr "rash"]) as [Hret Hrun].
  - discriminate.
  - split.
    + apply Hret. intros line. reflexivity.
    + apply (Hrun [0%Z; 0%Z]). reflexivity.
Defined.

End HelperRunMoreClaims.

(** ** More on the forms *)

Section ObjectMoreFacts.
Import Js.
Context {A : Type}.
Implicit Types (o : obj A) (k : string).

Lemma obj_get_In o k : In k (keys o) <-> exists v, obj_get k o = Some v.
Proof.
  unfold keys. induction o as [|[k' v'] rest IH]; simpl.
  - split; [intros []|intros [v H]; discriminate].
  - destruct (String.eqb k' k) eqn:E.
    + apply String.eqb_eq in E. split; eauto.
    + apply String.eqb_neq in E. rewrite <- IH. tauto.
Qed.

Lemma obj_get_set_eq o k (v : A) : obj_get k (obj_set k v o) = Some v.
Proof.
  induction o as [|[k' v'] rest IH]; simpl.
  - now rewrite String.eqb_refl.
  - destruct (String.eqb k' k) eqn:E; simpl.
    + now rewrite String.eqb_refl.
    + now rewrite E.
Qed.

Lemma obj_get_set_ne o k k0 (v : A) :
  k0 <> k -> obj_get k0 (obj_set k v o) = obj_get k0 o.
Proof.
  intros Hne. induction o as [|[k' v'] rest IH]; simpl.
  - apply String.eqb_neq in Hne. now rewrite String.eqb_sym, Hne.
  - destruct (String.eqb k' k) eqn:E; simpl.
    + apply String.eqb_eq in E. subst k'.
      assert (String.eqb k k0 = false) as ->; [|reflexivity].
      apply String.eqb_neq. congruence.
    + now rewrite IH.
Qed.

Lemma keys_obj_set_In o k (v : A) :
  In k (keys o) -> keys (obj_set k v o) = keys o.
Proof.
  intros H. apply obj_get_In in H as [w Hw]. now apply (keys_obj_set _ _ _ w).
Qed.

Lemma keys_obj_set_fresh o k (v : A) :
  ~ In k (keys o) -> keys (obj_set k v o) = keys o ++ [k].
Proof.
  intros H. rewrite obj_set_fresh by exact H.
  unfold keys. now rewrite map_app.
Qed.

Lemma keys_obj_set_NoDup o k (v : A) :
  NoDup (keys o) -> NoDup (keys (obj_set k v o)).
Proof.
  intros Hnd. destruct (in_dec string_dec k (keys o)) as [Hin|Hout].
  - now rewrite keys_obj_set_In.
  - rewrite keys_obj_set_fresh by exact Hout.
    apply NoDup_app. split; [exact Hnd|]. split.
    + intros x Hx [->|[]]%list_elem_of_In. now apply list_elem_of_In in Hx.
    + apply NoDup_singleton.
Qed.

End ObjectMoreFacts.

Section FormMoreFacts.
Import Js.

Lemma includes_not_In (a : list string) (k : string) :
  ~ In k a -> includes a k = false.
Proof.
  intros H. unfold includes.
  destruct (existsb (String.eqb k) a) eqn:E; [|reflexivity].
  apply existsb_exists in E as (x & Hx & Hk).
  apply String.eqb_eq in Hk. now subst.
Qed.

Lemma keys_JSON_stringify (o : obj value) : keys (JSON_stringify o) = keys o.
Proof. unfold keys, JSON_stringify. rewrite map_map. reflexivity. Qed.

Lemma keys_reduce_entries {A B} (g : string -> A -> B) (o : obj A) :
  NoDup (keys o) -> keys (reduce_entries g o) = keys o.
Proof.
  intros H. rewrite reduce_entries_map by exact H.
  unfold keys. rewrite map_map. reflexivity.
Qed.

(** The body of a handler that maps the entries with [g]. *)
Lemma handler_body (g : string -> string -> value) (formData : obj string) :
  NoDup (keys formData) ->
  keys (JSON_stringify (reduce_entries g formData)) = keys formData /\
  forall k,
    obj_get k (JSON_stringify (reduce_entries g formData))
    = match obj_get k formData with
      | Some text => Some (json_of (g k text))
      | None => None
      end.
Proof.
  intros Hnd. split.
  - now rewrite keys_JSON_stringify, keys_reduce_entries.
  - intros k. rewrite reduce_entries_map by exact Hnd.
    rewrite obj_get_JSON_stringify, obj_get_map.
    now destruct (obj_get k formData).
Qed.

End FormMoreFacts.

Section FormMoreClaims.
Import Js.

(** X7: [handleInputChange] (the same code on the heart, kidney, breast,
    liver and lung pages) writes the one field it is given: the field then
    reads the new text, every other field reads as before, a field that
    was there keeps its place, a new one whose name is not an array index
    goes last, and no key comes to appear twice. *)
Theorem handleInputChange_field (prev : obj string) (name value : string) :
  obj_get name (HeartPage.handleInputChange name value prev) = Some value /\
  (forall k, k <> name ->
     obj_get k (HeartPage.handleInputChange name value prev) = obj_get k prev) /\
  (In name (keys prev) ->
     keys (HeartPage.handleInputChange name value prev) = keys prev) /\
  (~ In name (keys prev) -> JsText.array_index name = false ->
     keys (HeartPage.handleInputChange name value prev) = keys prev ++ [name]) /\
  (NoDup (keys prev) ->
     NoDup (keys (HeartPage.handleInputChange name value prev))) /\
  KidneyPage.handleInputChange name value prev
  = HeartPage.handleInputChange name value prev /\
  BreastPage.handleInputChange name value prev
  = HeartPage.handleInputChange name value prev /\
  LiverPage.handleInputChange name value prev
  = HeartPage.handleInputChange name value prev /\
  LungForm.handleInputChange name value prev
  = HeartPage.handleInputChange name value prev.
Proof.
  unfold HeartPage.handleInputChange.
  split; [apply obj_get_set_eq|].
  split; [intros k Hk; now apply obj_get_set_ne|].
  split; [apply keys_obj_set_In|].
  split; [intros Hout _; now apply keys_obj_set_fresh|].
  split; [apply keys_obj_set_NoDup|].
  repeat split.
Qed.

Lemma handleInputChange_field_witness :
  obj_get "chol" (HeartPage.handleInputChange "chol" "240" HeartPage.formData)
  = Some "240" /\
  obj_get "age" (HeartPage.handleInputChange "chol" "240" HeartPage.formData)
  = obj_get "age" HeartPage.formData /\
  keys (HeartPage.handleInputChange "chol" "240" HeartPage.formData)
  = keys HeartPage.formData /\
  keys (HeartPage.handleInputChange "oldpeak" "1.5" HeartPage.formData)
  = keys HeartPage.formData ++ ["oldpeak"] /\
  NoDup (keys (HeartPage.handleInputChange "chol" "240" HeartPage.formData)).
Proof.
  destruct (handleInputChange_field HeartPage.formData "chol" "240")
    as (Hget & Hother & Hkept & _ & Hnd & _).
  destruct (handleInputChange_field HeartPage.formData "oldpeak" "1.5")
    as (_ & _ & _ & Hlast & _).
  split; [exact Hget|].
  split; [apply Hother; discriminate|].
  split; [apply Hkept; simpl; tauto|].
  split.
  - apply Hlast; [|reflexivity].
    simpl. intros H. repeat (destruct H as [H|H]; [discriminate H|]).
    destruct H.
  - apply Hnd. apply (bool_decide_unpack _). vm_compute. exact I.
Defined.

(** X8: on the heart page (and with the same code on the Parkinson's
    page) the body has the fields of the form in their order, each one
    read with [parseFloat]: an empty field is sent as [null], a field
    typed as a decimal of at most 15 digits is sent as that number, and no
    field is ever sent as a string. *)
Theorem parseFloat_body (formData : obj string) :
  NoDup (keys formData) ->
  keys (HeartPage.handlePredict formData) = keys formData /\
  (forall k, obj_get k formData = Some "" ->
     obj_get k (HeartPage.handlePredict formData) = Some JNull) /\
  (forall k n f, (0 <= n < 10 ^ 15)%Z -> (f <= 20)%nat ->
     obj_get k formData = Some (fixed_digits n f) ->
     obj_get k (HeartPage.handlePredict formData)
     = Some (JNumber (decimal n f))) /\
  (forall k s, obj_get k (HeartPage.handlePredict formData) <> Some (JString s)) /\
  ParkinsonsForm.handlePredict formData = HeartPage.handlePredict formData.
Proof.
  intros Hnd. unfold HeartPage.handlePredict.
  destruct (handler_body (fun _ value => VNum (parseFloat value)) formData Hnd)
    as [Hkeys Hget].
  split; [exact Hkeys|].
  split; [intros k Hk; now rewrite Hget, Hk|].
  split.
  { intros k n f Hn _ Hk. rewrite Hget, Hk.
    destruct (read_fixed_digits n f (proj1 Hn)) as (_ & -> & _). reflexivity. }
  split; [|reflexivity].
  intros k s. rewrite Hget. destruct (obj_get k formData) as [text|];
    [|discriminate]. simpl. now destruct (parseFloat text).
Qed.

Lemma parseFloat_body_witness :
  keys (HeartPage.handlePredict (obj_set "chol" "240.5" HeartPage.formData))
  = keys (obj_set "chol" "240.5" HeartPage.formData) /\
  obj_get "age" (HeartPage.handlePredict (obj_set "chol" "240.5" HeartPage.formData))
  = Some JNull /\
  obj_get "chol" (HeartPage.handlePredict (obj_set "chol" "240.5" HeartPage.formData))
  = Some (JNumber (decimal 2405 1)) /\
  (forall k s, obj_get k (HeartPage.handlePredict
                            (obj_set "chol" "240.5" HeartPage.formData))
               <> Some (JString s)) /\
  ParkinsonsForm.handlePredict (obj_set "chol" "240.5" HeartPage.formData)
  = HeartPage.handlePredict (obj_set "chol" "240.5" HeartPage.formData).
Proof.
  destruct (parseFloat_body (obj_set "chol" "240.5" HeartPage.formData))
    as (Hkeys & Hempty & Htyped & Hstr & Hsame).
  - apply (bool_decide_unpack _). vm_compute. exact I.
  - split; [exact Hkeys|].
    split; [apply Hempty; reflexivity|].
    split; [apply (Htyped "chol" 2405%Z 1%nat); [lia|lia|reflexivity]|].
    split; [exact Hstr|exact Hsame].
Defined.

(** X9: on the kidney page the body has the fields of the form in their
    order; a field outside [numericFields] is sent as the string it
    holds, whatever it is; a field of [numericFields] is sent as 0 when
    empty, as the number typed when it is a decimal of at most 15 digits,
    and never as a string. *)
Theorem kidney_body (formData : obj string) :
  NoDup (keys formData) ->
  keys (KidneyPage.handleSubmit formData) = keys formData /\
  (forall k text, obj_get k formData = Some text ->
     ~ In k KidneyPage.numericFields ->
     obj_get k (KidneyPage.handleSubmit formData) = Some (JString text)) /\
  (forall k, obj_get k formData = Some "" ->
     In k KidneyPage.numericFields ->
     obj_get k (KidneyPage.handleSubmit formData) = Some (JNumber 0)) /\
  (forall k n f, (0 <= n < 10 ^ 15)%Z -> (f <= 20)%nat ->
     obj_get k formData = Some (fixed_digits n f) ->
     In k KidneyPage.numericFields ->
     obj_get k (KidneyPage.handleSubmit formData)
     = Some (JNumber (decimal n f))) /\
  (forall k s, In k KidneyPage.numericFields ->
     obj_get k (KidneyPage.handleSubmit formData) <> Some (JString s)).
Proof.
  intros Hnd. unfold KidneyPage.handleSubmit.
  destruct (handler_body KidneyPage.transformedValue formData Hnd)
    as [Hkeys Hget].
  split; [exact Hkeys|]. split; [|split; [|split]].
  - intros k text Hk Hout. rewrite Hget, Hk.
    unfold KidneyPage.transformedValue.
    now rewrite (includes_not_In _ _ Hout).
  - intros k Hk Hin. rewrite Hget, Hk.
    unfold KidneyPage.transformedValue. now rewrite (includes_In _ _ Hin).
  - intros k n f Hn _ Hk Hin. rewrite Hget, Hk.
    unfold KidneyPage.transformedValue. rewrite (includes_In _ _ Hin).
    destruct (read_fixed_digits n f (proj1 Hn)) as (-> & _).
    destruct (String.eqb_spec (fixed_digits n f) "") as [E|_];
      [|reflexivity].
    destruct (fixed_digits_nonempty n f). now rewrite E.
  - intros k s Hin. rewrite Hget.
    destruct (obj_get k formData) as [text|]; [|discriminate].
    unfold KidneyPage.transformedValue. rewrite (includes_In _ _ Hin).
    destruct (String.eqb text ""); [discriminate|].
    simpl. now destruct (Number text).
Qed.

Lemma kidney_body_witness :
  keys (KidneyPage.handleSubmit (obj_set "bp" "80.5" KidneyPage.formData))
  = keys (obj_set "bp" "80.5" KidneyPage.formData) /\
  obj_get "appet" (KidneyPage.handleSubmit (obj_set "bp" "80.5" KidneyPage.formData))
  = Some (JString "good") /\
  obj_get "age" (KidneyPage.handleSubmit (obj_set "bp" "80.5" KidneyPage.formData))
  = Some (JNumber 0) /\
  obj_get "bp" (KidneyPage.handleSubmit (obj_set "bp" "80.5" KidneyPage.formData))
  = Some (JNumber (decimal 805 1)) /\
  (forall s, obj_get "bp" (KidneyPage.handleSubmit
                             (obj_set "bp" "80.5" KidneyPage.formData))
             <> Some (JString s)).
Proof.
  destruct (kidney_body (obj_set "bp" "80.5" KidneyPage.formData))
    as (Hkeys & Hstr & Hempty & Htyped & Hnum).
  - apply (bool_decide_unpack _). vm_compute. exact I.
  - split; [exact Hkeys|].
    split.
    { apply Hstr; [reflexivity|]. simpl. intros H.
      repeat (destruct H as [H|H]; [discriminate H|]). destruct H. }
    split; [apply Hempty; [reflexivity|simpl; tauto]|].
    split; [apply (Htyped "bp" 805%Z 1%nat); [lia|lia|reflexivity|simpl; tauto]|].
    intros s. apply Hnum. simpl. tauto.
Defined.

End FormMoreClaims.

(** ** The sample data *)

Section SampleFacts.
Import Js DigitText SampleData SampleGenerators.
Local Open Scope Q_scope.

(** One numeric field of the sample data, from the draw to the number a
    handler reads in its text. *)
Lemma sample_number (r min max : Q) (d : nat) :
  0 <= r <= 1 -> 0 <= min -> min <= max ->
  has_decimals min d -> has_decimals max d -> (d <= 6)%nat ->
  max <= 30000 ->
  exists q,
    getRandomNumber r min max d = Fin q /\
    min <= q /\ q <= max /\ has_decimals q d /\
    parseFloat (formatNumber (getRandomNumber r min max d)) = Fin q /\
    Number (formatNumber (getRandomNumber r min max d)) = Fin q.
Proof.
  intros Hr Hmin Hle Hdmin Hdmax Hd Hmax.
  destruct (getRandomNumber_spec r min max d Hr Hmin Hle Hdmin Hdmax Hmax Hd)
    as (n & Hn & Hn0 & Hlo & Hhi).
  destruct (formatNumber_decimal n d Hn0 ltac:(lia)) as [Hpf Hnum].
  exists (decimal n d). rewrite Hn.
  repeat split; try assumption. apply decimal_has_decimals.
Qed.

Lemma sample_number_text (r min max : Q) (d : nat) :
  0 <= r <= 1 -> 0 <= min -> min <= max ->
  has_decimals min d -> has_decimals max d -> (d <= 6)%nat ->
  max <= 30000 ->
  formatNumber (getRandomNumber r min max d) <> "".
Proof.
  intros Hr Hmin Hle Hdmin Hdmax Hd Hmax E.
  destruct (sample_number r min max d Hr Hmin Hle Hdmin Hdmax Hd Hmax)
    as (q & _ & _ & _ & _ & Hpf & _).
  rewrite E in Hpf. discriminate.
Qed.

End SampleFacts.

Section SampleClaims.
Import Js DigitText SampleData SampleGenerators.
Local Open Scope Q_scope.

(** X10: for a draw between 0 and 1 and bounds between -30000 and 30000
    written with at most [decimals] digits after the point ([decimals] at
    most 6), [getRandomNumber], computed in binary64 arithmetic, returns
    the number written with [decimals] digits after the point that
    [toFixed] prints: it is finite, lies between [min] and [max], both
    included, and has at most [decimals] digits after the point. *)
Theorem getRandomNumber_range (r min max : Q) (decimals : nat) :
  0 <= r <= 1 -> min <= max -> -30000 <= min -> max <= 30000 ->
  has_decimals min decimals -> has_decimals max decimals ->
  (decimals <= 6)%nat ->
  exists q,
    getRandomNumber r min max decimals = Fin q /\
    min <= q /\ q <= max /\ has_decimals q decimals.
Proof.
  intros Hr Hle Hlo Hhi Hdmin Hdmax Hd.
  destruct (getRandomNumber_draw r min max decimals Hr Hle Hlo Hhi Hdmin Hdmax Hd)
    as (n & Hn & E).
  exists (decimal n decimals). split; [exact E|].
  split; [|split; [|apply decimal_has_decimals]].
  - rewrite <- (decimal_floor min decimals Hdmin). apply decimal_le, Hn.
  - rewrite <- (decimal_floor max decimals Hdmax). apply decimal_le, Hn.
Qed.

Lemma getRandomNumber_range_witness :
  exists q,
    getRandomNumber (1 # 2) (9 # 10) 6 1 = Fin q /\
    9 # 10 <= q /\ q <= 6 /\ has_decimals q 1.
Proof.
  apply (getRandomNumber_range (1 # 2) (9 # 10) 6 1).
  - split; discriminate.
  - discriminate.
  - discriminate.
  - discriminate.
  - reflexivity.
  - reflexivity.
  - lia.
Defined.

(** X11: the text [formatNumber] writes for a number of the sample data is
    a plain decimal, digits with at most [decimals] of them after a point
    and no exponent, and it is read back as that number by [parseFloat]
    and by [Number], the two conversions of the submit handlers; in
    particular it is never empty and never read as [NaN]. *)
Theorem sample_number_read_back (r min max : Q) (decimals : nat) :
  0 <= r <= 1 -> 0 <= min -> min <= max ->
  has_decimals min decimals -> has_decimals max decimals ->
  (decimals <= 6)%nat -> max <= 30000 ->
  parseFloat (formatNumber (getRandomNumber r min max decimals))
  = getRandomNumber r min max decimals /\
  Number (formatNumber (getRandomNumber r min max decimals))
  = getRandomNumber r min max decimals /\
  getRandomNumber r min max decimals <> NaN /\
  formatNumber (getRandomNumber r min max decimals) <> "" /\
  exists m f, (f <= decimals)%nat /\ (0 <= m)%Z /\
              formatNumber (getRandomNumber r min max decimals)
              = fixed_digits m f.
Proof.
  intros Hr Hmin Hle Hdmin Hdmax Hd Hmax.
  destruct (sample_number r min max decimals Hr Hmin Hle Hdmin Hdmax Hd Hmax)
    as (q & Hq & Hlo & _ & Hdec & Hpf & Hnum).
  split; [now rewrite Hpf, Hq|]. split; [now rewrite Hnum, Hq|].
  split; [now rewrite Hq|]. split; [now apply sample_number_text|].
  rewrite Hq. unfold formatNumber. apply toString_plain; [lra|exact Hdec].
Qed.

Lemma sample_number_read_back_witness :
  parseFloat (formatNumber (getRandomNumber (7 # 10) (1005 # 1000) (1025 # 1000) 3))
  = getRandomNumber (7 # 10) (1005 # 1000) (1025 # 1000) 3 /\
  Number (formatNumber (getRandomNumber (7 # 10) (1005 # 1000) (1025 # 1000) 3))
  = getRandomNumber (7 # 10) (1005 # 1000) (1025 # 1000) 3 /\
  getRandomNumber (7 # 10) (1005 # 1000) (1025 # 1000) 3 <> NaN /\
  formatNumber (getRandomNumber (7 # 10) (1005 # 1000) (1025 # 1000) 3) <> "" /\
  exists m f, (f <= 3)%nat /\ (0 <= m)%Z /\
              formatNumber
                (getRandomNumber (7 # 10) (1005 # 1000) (1025 # 1000) 3)
              = fixed_digits m f.
Proof.
  apply (sample_number_read_back (7 # 10) (1005 # 1000) (1025 # 1000) 3).
  - split; discriminate.
  - discriminate.
  - discriminate.
  - reflexivity.
  - reflexivity.
  - lia.
  - discriminate.
Defined.

End SampleClaims.

(** ** From the sample data to the request *)

Section SampleRequestFacts.
Import Js DigitText SampleData SampleGenerators.
Local Open Scope Q_scope.

Lemma sample_parseFloat (r min max : Q) (d : nat) :
  0 <= r <= 1 -> 0 <= min -> min <= max ->
  has_decimals min d -> has_decimals max d -> (d <= 6)%nat ->
  max <= 30000 ->
  parseFloat (formatNumber (getRandomNumber r min max d))
  = getRandomNumber r min max d.
Proof.
  intros Hr Hmin Hle Hdmin Hdmax Hd Hmax.
  destruct (sample_number r min max d Hr Hmin Hle Hdmin Hdmax Hd Hmax)
    as (q & Hq & _ & _ & _ & Hpf & _).
  now rewrite Hpf, Hq.
Qed.

Lemma sample_Number (r min max : Q) (d : nat) :
  0 <= r <= 1 -> 0 <= min -> min <= max ->
  has_decimals min d -> has_decimals max d -> (d <= 6)%nat ->
  max <= 30000 ->
  Number (formatNumber (getRandomNumber r min max d))
  = getRandomNumber r min max d.
Proof.
  intros Hr Hmin Hle Hdmin Hdmax Hd Hmax.
  destruct (sample_number r min max d Hr Hmin Hle Hdmin Hdmax Hd Hmax)
    as (q & Hq & _ & _ & _ & _ & Hnum).
  now rewrite Hnum, Hq.
Qed.

(** A drawn number as the body carries it. *)
Lemma sample_json (r min max lo hi : Q) (d : nat) :
  0 <= r <= 1 -> 0 <= min -> min <= max ->
  has_decimals min d -> has_decimals max d ->
  lo <= min -> max <= hi -> (d <= 6)%nat -> max <= 30000 ->
  exists q, json_of (VNum (getRandomNumber r min max d)) = JNumber q /\
            lo <= q /\ q <= hi.
Proof.
  intros Hr Hmin Hle Hdmin Hdmax Hlo Hhi Hd Hmax.
  destruct (getRandomNumber_spec r min max d Hr Hmin Hle Hdmin Hdmax Hmax Hd)
    as (n & Hn & _ & H1 & H2).
  exists (decimal n d). rewrite Hn. split; [reflexivity|]. lra.
Qed.

End SampleRequestFacts.

(** The side conditions on the bounds of a call of [getRandomNumber]. *)
Ltac sample_side :=
  solve [ assumption | discriminate | reflexivity | lia
        | match goal with H : forall k : nat, _ |- _ => apply H end ].

Section SampleRequestClaims.
Import Js DigitText SampleData SampleGenerators.
Local Open Scope Q_scope.

(** X12: after the sample-data button of the heart page, whatever the
    draws, the body carries for each of the 13 fields the very number
    that was drawn: every value is a number between 0 and 570, none is
    [null]. *)
Theorem heart_sample_request (rnd : nat -> Q) (prev : obj string) :
  (forall k, 0 <= rnd k <= 1) ->
  HeartPage.handlePredict (HeartPage.handleSampleData rnd prev)
  = JSON_stringify
      [ ("age", VNum (getRandomNumber (rnd 0%nat) 25 85 0));
        ("sex", VNum (getRandomNumber (rnd 1%nat) 0 1 0));
        ("cp", VNum (getRandomNumber (rnd 2%nat) 0 3 0));
        ("trestbps", VNum (getRandomNumber (rnd 3%nat) 90 200 0));
        ("chol", VNum (getRandomNumber (rnd 4%nat) 120 570 0));
        ("fbs", VNum (getRandomNumber (rnd 5%nat) 0 1 0));
        ("restecg", VNum (getRandomNumber (rnd 6%nat) 0 2 0));
        ("thalach", VNum (getRandomNumber (rnd 7%nat) 70 210 0));
        ("exang", VNum (getRandomNumber (rnd 8%nat) 0 1 0));
        ("oldpeak", VNum (getRandomNumber (rnd 9%nat) 0 (62 # 10) 1));
        ("slope", VNum (getRandomNumber (rnd 10%nat) 0 2 0));
        ("ca", VNum (getRandomNumber (rnd 11%nat) 0 4 0));
        ("thal", VNum (getRandomNumber (rnd 12%nat) 0 3 0)) ] /\
  Forall (fun kv => exists q, snd kv = JNumber q /\ 0 <= q /\ q <= 570)
         (HeartPage.handlePredict (HeartPage.handleSampleData rnd prev)).
Proof.
  intros Hrnd.
  assert (E : HeartPage.handlePredict (HeartPage.handleSampleData rnd prev)
              = JSON_stringify
                  [ ("age", VNum (getRandomNumber (rnd 0%nat) 25 85 0));
                    ("sex", VNum (getRandomNumber (rnd 1%nat) 0 1 0));
                    ("cp", VNum (getRandomNumber (rnd 2%nat) 0 3 0));
                    ("trestbps", VNum (getRandomNumber (rnd 3%nat) 90 200 0));
                    ("chol", VNum (getRandomNumber (rnd 4%nat) 120 570 0));
                    ("fbs", VNum (getRandomNumber (rnd 5%nat) 0 1 0));
                    ("restecg", VNum (getRandomNumber (rnd 6%nat) 0 2 0));
                    ("thalach", VNum (getRandomNumber (rnd 7%nat) 70 210 0));
                    ("exang", VNum (getRandomNumber (rnd 8%nat) 0 1 0));
                    ("oldpeak", VNum (getRandomNumber (rnd 9%nat) 0 (62 # 10) 1));
                    ("slope", VNum (getRandomNumber (rnd 10%nat) 0 2 0));
                    ("ca", VNum (getRandomNumber (rnd 11%nat) 0 4 0));
                    ("thal", VNum (getRandomNumber (rnd 12%nat) 0 3 0)) ]).
  { unfold HeartPage.handlePredict, HeartPage.handleSampleData.
    rewrite reduce_entries_map.
    - unfold SampleData.getRandomHeartData. cbn [map fst snd].
      rewrite !sample_parseFloat by sample_side. reflexivity.
    - unfold keys, SampleData.getRandomHeartData. cbn [map fst].
      apply (bool_decide_unpack _). vm_compute. exact I. }
  split; [exact E|]. rewrite E. unfold JSON_stringify. cbn [map fst snd].
  repeat (apply Forall_cons; split;
          [cbn [snd]; apply sample_json; sample_side|]).
  apply Forall_nil_2.
Qed.

Lemma heart_sample_request_witness :
  HeartPage.handlePredict (HeartPage.handleSampleData (fun _ => 1 # 2) HeartPage.formData)
  = JSON_stringify
      [ ("age", VNum (getRandomNumber (1 # 2) 25 85 0));
        ("sex", VNum (getRandomNumber (1 # 2) 0 1 0));
        ("cp", VNum (getRandomNumber (1 # 2) 0 3 0));
        ("trestbps", VNum (getRandomNumber (1 # 2) 90 200 0));
        ("chol", VNum (getRandomNumber (1 # 2) 120 570 0));
        ("fbs", VNum (getRandomNumber (1 # 2) 0 1 0));
        ("restecg", VNum (getRandomNumber (1 # 2) 0 2 0));
        ("thalach", VNum (getRandomNumber (1 # 2) 70 210 0));
        ("exang", VNum (getRandomNumber (1 # 2) 0 1 0));
        ("oldpeak", VNum (getRandomNumber (1 # 2) 0 (62 # 10) 1));
        ("slope", VNum (getRandomNumber (1 # 2) 0 2 0));
        ("ca", VNum (getRandomNumber (1 # 2) 0 4 0));
        ("thal", VNum (getRandomNumber (1 # 2) 0 3 0)) ] /\
  Forall (fun kv => exists q, snd kv = JNumber q /\ 0 <= q /\ q <= 570)
         (HeartPage.handlePredict
            (HeartPage.handleSampleData (fun _ => 1 # 2) HeartPage.formData)).
Proof.
  apply (heart_sample_request (fun _ => 1 # 2) HeartPage.formData).
  intros k. split; discriminate.
Defined.

End SampleRequestClaims.

Section LookupFacts.
Import Js.
Context {A : Type}.

Lemma obj_get_cons_eq (k : string) (v : A) (rest : obj A) :
  obj_get k ((k, v) :: rest) = Some v.
Proof. simpl. now rewrite String.eqb_refl. Qed.

Lemma obj_get_cons_ne (k k' : string) (v : A) (rest : obj A) :
  k' <> k -> obj_get k ((k', v) :: rest) = obj_get k rest.
Proof. intros H. simpl. apply String.eqb_neq in H. now rewrite H. Qed.

End LookupFacts.

(** Reads a property of an object that is written out. *)
Ltac obj_lookup :=
  repeat (rewrite obj_get_cons_eq || rewrite obj_get_cons_ne by discriminate).

(** Decides the calls of [includes] on written-out names. *)
Ltac decide_includes :=
  repeat match goal with
         | |- context [Js.includes ?a ?k] =>
             let b := eval vm_compute in (Js.includes a k) in
             change (Js.includes a k) with b
         end;
  cbv iota.

Section SampleFormFacts.
Import Js DigitText SampleData SampleGenerators.
Local Open Scope Q_scope.

Lemma coin_In (r : Q) (a b : string) : In (coin r a b) [a; b].
Proof. unfold coin. destruct (Qltb (1 # 2) r); simpl; tauto. Qed.

(** Writing again the properties an object has leaves it as it is. *)
Lemma respread (data : obj string) (ks : list string) :
  (forall k, In k ks -> In k (keys data)) ->
  fold_left (fun acc k => obj_set k (JsText.prop data k) acc) ks data
  = data.
Proof.
  induction ks as [|k ks IH]; intros H; [reflexivity|].
  simpl. rewrite obj_set_same.
  - apply IH. intros k' Hk'. apply H. now right.
  - unfold JsText.prop.
    destruct (proj1 (obj_get_In data k) (H k (or_introl eq_refl))) as [v ->].
    reflexivity.
Qed.

Lemma sample_kidney_numeric (k : string) (r min max : Q) (d : nat) :
  includes KidneyPage.numericFields k = true ->
  0 <= r <= 1 -> 0 <= min -> min <= max ->
  has_decimals min d -> has_decimals max d -> (d <= 6)%nat ->
  max <= 21000 ->
  exists q,
    json_of (KidneyPage.transformedValue k
               (formatNumber (getRandomNumber r min max d)))
    = JNumber q /\ 0 <= q /\ q <= 21000.
Proof.
  intros Hk Hr Hmin Hle Hdmin Hdmax Hd Hmax.
  unfold KidneyPage.transformedValue. rewrite Hk.
  assert (Hmax' : max <= 30000) by lra.
  pose proof (sample_number_text r min max d Hr Hmin Hle Hdmin Hdmax Hd Hmax')
    as Hne.
  apply String.eqb_neq in Hne. rewrite Hne.
  rewrite sample_Number by assumption.
  apply (sample_json r min max 0 21000 d); assumption.
Qed.

End SampleFormFacts.

Section SampleFormClaims.
Import Js DigitText SampleData SampleGenerators.
Local Open Scope Q_scope.

(** X13: after the sample-data button of the diabetes page, whatever the
    draws, the body carries for each of the 8 fields the very number that
    was drawn: every value is a number between 0 and 850, none is
    [null]. *)
Theorem diabetes_sample_request (rnd : nat -> Q) (prev : obj string) :
  (forall k, 0 <= rnd k <= 1) ->
  DiabetesPage.handlePredict (DiabetesSample.handleSampleData rnd prev)
  = JSON_stringify
      [ ("Pregnancies", VNum (getRandomNumber (rnd 0%nat) 0 17 0));
        ("Glucose", VNum (getRandomNumber (rnd 1%nat) 70 200 0));
        ("BloodPressure", VNum (getRandomNumber (rnd 2%nat) 50 130 0));
        ("SkinThickness", VNum (getRandomNumber (rnd 3%nat) 0 60 0));
        ("Insulin", VNum (getRandomNumber (rnd 4%nat) 0 850 0));
        ("BMI", VNum (getRandomNumber (rnd 5%nat) 15 60 1));
        ("DiabetesPedigreeFunction",
         VNum (getRandomNumber (rnd 6%nat) (1 # 10) (25 # 10) 3));
        ("Age", VNum (getRandomNumber (rnd 7%nat) 21 85 0)) ] /\
  Forall (fun kv => exists q, snd kv = JNumber q /\ 0 <= q /\ q <= 850)
         (DiabetesPage.handlePredict (DiabetesSample.handleSampleData rnd prev)).
Proof.
  intros Hrnd.
  assert (E : DiabetesPage.handlePredict (DiabetesSample.handleSampleData rnd prev)
              = JSON_stringify
                  [ ("Pregnancies", VNum (getRandomNumber (rnd 0%nat) 0 17 0));
                    ("Glucose", VNum (getRandomNumber (rnd 1%nat) 70 200 0));
                    ("BloodPressure", VNum (getRandomNumber (rnd 2%nat) 50 130 0));
                    ("SkinThickness", VNum (getRandomNumber (rnd 3%nat) 0 60 0));
                    ("Insulin", VNum (getRandomNumber (rnd 4%nat) 0 850 0));
                    ("BMI", VNum (getRandomNumber (rnd 5%nat) 15 60 1));
                    ("DiabetesPedigreeFunction",
                     VNum (getRandomNumber (rnd 6%nat) (1 # 10) (25 # 10) 3));
                    ("Age", VNum (getRandomNumber (rnd 7%nat) 21 85 0)) ]).
  { unfold DiabetesPage.handlePredict, DiabetesSample.handleSampleData,
      DiabetesPage.Number_of, getRandomDiabetesData.
    obj_lookup. rewrite !sample_Number by sample_side. reflexivity. }
  split; [exact E|]. rewrite E. unfold JSON_stringify. cbn [map fst snd].
  repeat (apply Forall_cons; split;
          [cbn [snd]; apply sample_json; sample_side|]).
  apply Forall_nil_2.
Qed.

Lemma diabetes_sample_request_witness :
  DiabetesPage.handlePredict
    (DiabetesSample.handleSampleData (fun _ => 1 # 2) DiabetesPage.formData)
  = JSON_stringify
      [ ("Pregnancies", VNum (getRandomNumber (1 # 2) 0 17 0));
        ("Glucose", VNum (getRandomNumber (1 # 2) 70 200 0));
        ("BloodPressure", VNum (getRandomNumber (1 # 2) 50 130 0));
        ("SkinThickness", VNum (getRandomNumber (1 # 2) 0 60 0));
        ("Insulin", VNum (getRandomNumber (1 # 2) 0 850 0));
        ("BMI", VNum (getRandomNumber (1 # 2) 15 60 1));
        ("DiabetesPedigreeFunction",
         VNum (getRandomNumber (1 # 2) (1 # 10) (25 # 10) 3));
        ("Age", VNum (getRandomNumber (1 # 2) 21 85 0)) ] /\
  Forall (fun kv => exists q, snd kv = JNumber q /\ 0 <= q /\ q <= 850)
         (DiabetesPage.handlePredict
            (DiabetesSample.handleSampleData (fun _ => 1 # 2) DiabetesPage.formData)).
Proof.
  apply (diabetes_sample_request (fun _ => 1 # 2) DiabetesPage.formData).
  intros k. split; discriminate.
Defined.

(** X14: the sample-data button of the kidney page sets the form to the
    generated object as it is (writing the ten choice fields again changes
    nothing); each choice field then holds one of the options of its
    select; and the body sent from it has a number between 0 and 21000 in
    every field of [numericFields] and a string in every other field. *)
Theorem kidney_sample_request (rnd : nat -> Q) (prev : obj string) :
  (forall k, 0 <= rnd k <= 1) ->
  KidneyPanel.handleSampleData rnd prev = getRandomKidneyData rnd /\
  Forall (fun fo => exists v,
            obj_get (fst fo) (KidneyPanel.handleSampleData rnd prev) = Some v /\
            In v (snd fo))
         KidneyPanel.selectGroups /\
  Forall (fun kv =>
            if includes KidneyPage.numericFields (fst kv)
            then exists q, snd kv = JNumber q /\ 0 <= q /\ q <= 21000
            else exists s, snd kv = JString s)
         (KidneyPage.handleSubmit (KidneyPanel.handleSampleData rnd prev)).
Proof.
  intros Hrnd.
  assert (E : KidneyPanel.handleSampleData rnd prev = getRandomKidneyData rnd).
  { unfold KidneyPanel.handleSampleData. apply respread.
    intros k Hk. unfold keys, getRandomKidneyData. cbn [map fst].
    simpl in Hk. simpl. intuition. }
  split; [exact E|]. rewrite E. split.
  - unfold KidneyPanel.selectGroups, getRandomKidneyData.
    repeat (apply Forall_cons; split;
            [cbn [fst snd]; obj_lookup; eexists; split;
             [reflexivity|apply coin_In]|]).
    apply Forall_nil_2.
  - unfold KidneyPage.handleSubmit. rewrite reduce_entries_map.
    + unfold getRandomKidneyData, JSON_stringify. cbn [map fst snd].
      repeat (apply Forall_cons; split;
              [cbn [fst snd]; decide_includes;
               first [ apply sample_kidney_numeric;
                       first [reflexivity | sample_side]
                     | eexists; unfold KidneyPage.transformedValue;
                       decide_includes; reflexivity ]|]).
      apply Forall_nil_2.
    + unfold keys, getRandomKidneyData. cbn [map fst].
      apply (bool_decide_unpack _). vm_compute. exact I.
Qed.

Lemma kidney_sample_request_witness :
  KidneyPanel.handleSampleData (fun _ => 1 # 2) KidneyPage.formData
  = getRandomKidneyData (fun _ => 1 # 2) /\
  Forall (fun fo => exists v,
            obj_get (fst fo)
              (KidneyPanel.handleSampleData (fun _ => 1 # 2) KidneyPage.formData)
            = Some v /\
            In v (snd fo))
         KidneyPanel.selectGroups /\
  Forall (fun kv =>
            if includes KidneyPage.numericFields (fst kv)
            then exists q, snd kv = JNumber q /\ 0 <= q /\ q <= 21000
            else exists s, snd kv = JString s)
         (KidneyPage.handleSubmit
            (KidneyPanel.handleSampleData (fun _ => 1 # 2) KidneyPage.formData)).
Proof.
  apply (kidney_sample_request (fun _ => 1 # 2) KidneyPage.formData).
  intros k. split; discriminate.
Defined.

End SampleFormClaims.

Section ParseIntFacts.
Import Js JsText DigitText.

Lemma radix_digit_ten (c : ascii) : radix_digit 10 c = digit c.
Proof. destruct c as [[] [] [] [] [] [] [] []]; reflexivity. Qed.

(** In radix 10 [parseInt] reads the digits [digits] reads. *)
Lemma radix_prefix_ten (l : list ascii) (acc : Z) (n : nat) :
  radix_prefix 10 l acc n = fst (digits l acc n).
Proof.
  revert acc n. induction l as [|c r IH]; intros acc n; [reflexivity|].
  simpl. rewrite radix_digit_ten. destruct (digit c); [apply IH|reflexivity].
Qed.

(** A text of digits and points is read in radix 10 from its first
    character. *)
Lemma parseInt_numeral (s : string) :
  Forall (fun c => numeralb c = true) (list_ascii_of_string s) ->
  parseInt s
  = (let '(v, n) := fst (digits (list_ascii_of_string s) 0 0) in
     if (n =? 0)%nat then NaN else Fin (inject_Z v)).
Proof.
  intros H. unfold parseInt.
  destruct (list_ascii_of_string s) as [|a r]; [reflexivity|].
  pose proof (Forall_inv H) as Ha.
  destruct (numeralb_facts a Ha) as (Hsp & _).
  rewrite (trim_start_head a r Hsp).
  assert (Hs : sign (a :: r) = (false, a :: r)).
  { destruct a as [[] [] [] [] [] [] [] []]; try discriminate Ha; reflexivity. }
  rewrite Hs.
  assert (Hb : match a :: r with
               | "0"%char :: p :: r0 =>
                   if Ascii.eqb p "x" || Ascii.eqb p "X"
                   then (16%Z, r0) else (10%Z, a :: r)
               | _ => (10%Z, a :: r)
               end = (10%Z, a :: r)).
  { destruct r as [|p r0].
    - destruct a as [[] [] [] [] [] [] [] []]; reflexivity.
    - apply Forall_inv_tail, Forall_inv in H.
      destruct (numeralb_facts p H) as (_ & Hx & _).
      destruct a as [[] [] [] [] [] [] [] []]; try reflexivity.
      now rewrite Hx. }
  rewrite Hb, radix_prefix_ten. reflexivity.
Qed.

(** The digits before the point of what [fixed_digits] writes. *)
Lemma digits_fixed_digits (n : Z) (f : nat) :
  (0 <= n)%Z ->
  exists k rest,
    digits (list_ascii_of_string (fixed_digits n f)) 0 0
    = ((n / 10 ^ Z.of_nat f)%Z, k, rest) /\ k <> 0%nat.
Proof.
  intros Hn.
  assert (Hpow : (0 < 10 ^ Z.of_nat f)%Z) by (apply Z.pow_pos_nonneg; lia).
  assert (Hip : (0 <= n / 10 ^ Z.of_nat f)%Z) by (apply Z.div_pos; lia).
  set (d := N.to_uint (Z.to_N (n / 10 ^ Z.of_nat f))).
  assert (Hval : uint_val d 0 = (n / 10 ^ Z.of_nat f)%Z).
  { unfold d. rewrite uint_val_to_uint. lia. }
  assert (Hd : d <> Decimal.Nil) by apply to_uint_nonnil.
  unfold fixed_digits. destruct f as [|f].
  - exists (Decimal.nb_digits d), [].
    rewrite string_of_nonneg_eq. fold d.
    rewrite <- (app_nil_r (list_ascii_of_string _)).
    rewrite digits_uint by exact I. rewrite Hval.
    split; [reflexivity|now apply nb_digits_pos].
  - eexists (Decimal.nb_digits d), _.
    rewrite list_ascii_of_string_app, string_of_nonneg_eq. fold d.
    rewrite digits_uint by reflexivity. rewrite Hval.
    split; [reflexivity|now apply nb_digits_pos].
Qed.

(** [parseInt] stops at the point: it keeps the whole part. *)
Lemma parseInt_fixed_digits (n : Z) (f : nat) :
  (0 <= n)%Z ->
  parseInt (fixed_digits n f) = Fin (inject_Z (n / 10 ^ Z.of_nat f)).
Proof.
  intros Hn. rewrite parseInt_numeral by apply numeralb_fixed_digits.
  destruct (digits_fixed_digits n f Hn) as (k & rest & E & Hk).
  rewrite E. cbn [fst]. apply Nat.eqb_neq in Hk. now rewrite Hk.
Qed.

Lemma decimal_whole (n : Z) : decimal n 0 = inject_Z n.
Proof.
  unfold decimal. rewrite <- (Qred_inject_Z n) at 2.
  apply Qred_complete. simpl. ring.
Qed.

(** A whole number that is not negative is printed as its digits. *)
Lemma toString_whole (n : Z) :
  (0 <= n)%Z -> toString (Fin (inject_Z n)) = fixed_digits n 0.
Proof.
  intros Hn. unfold toString.
  assert (H0 : (0 <= inject_Z n)%Q)
    by (change 0%Q with (inject_Z 0); now rewrite <- Zle_Qle).
  rewrite (Qabs_nonneg_eq _ H0).
  assert (E : (inject_Z n * Qpower (10 # 1) (Z.of_nat 0) == inject_Z n)%Q)
    by (simpl; ring).
  assert (Hf : fraction_digits (inject_Z n) 0 20 = 0%nat).
  { cbn [fraction_digits].
    rewrite (Qred_complete _ _ E), Qred_inject_Z. reflexivity. }
  rewrite Hf, (Qfloor_comp _ _ E), Qfloor_Z.
  assert (Qltb (inject_Z n) 0 = false) as -> by now apply Qltb_ge.
  reflexivity.
Qed.

Lemma lower_ascii_idem (c : ascii) :
  Py.lower_ascii (Py.lower_ascii c) = Py.lower_ascii c.
Proof. destruct c as [[] [] [] [] [] [] [] []]; reflexivity. Qed.

Lemma lower_idem (s : string) : Py.lower (Py.lower s) = Py.lower s.
Proof.
  induction s as [|c s IH]; [reflexivity|].
  simpl. now rewrite lower_ascii_idem, IH.
Qed.

End ParseIntFacts.

Section LiverFacts.
Import Js JsText DigitText SampleData SampleGenerators.
Local Open Scope Q_scope.

(** A whole number of the sample data, read back by [parseInt]. *)
Lemma sample_parseInt (r min max : Q) :
  0 <= r <= 1 -> 0 <= min -> min <= max ->
  has_decimals min 0 -> has_decimals max 0 -> max <= 30000 ->
  parseInt (formatNumber (getRandomNumber r min max 0))
  = getRandomNumber r min max 0.
Proof.
  intros Hr Hmin Hle Hdmin Hdmax Hmax.
  destruct (getRandomNumber_spec r min max 0 Hr Hmin Hle Hdmin Hdmax Hmax
              ltac:(lia))
    as (n & Hn & Hn0 & _).
  rewrite Hn, decimal_whole. unfold formatNumber.
  rewrite (toString_whole n Hn0), (parseInt_fixed_digits n 0 Hn0).
  simpl. now rewrite Z.div_1_r.
Qed.

(** The flag drawn for the gender is the number the body carries. *)
Lemma sample_gender (r : Q) :
  0 <= r <= 1 ->
  (if String.eqb (formatNumber (getRandomNumber r 0 1 0)) "1"
   then VNum (Fin 1) else VNum (Fin 0))
  = VNum (getRandomNumber r 0 1 0).
Proof.
  intros Hr.
  destruct (getRandomNumber_spec r 0 1 0 Hr) as (n & Hn & Hn0 & Hlo & Hhi);
    try (discriminate || reflexivity || lia).
  rewrite Hn. rewrite decimal_whole in *.
  change 1 with (inject_Z 1) in Hhi. rewrite <- Zle_Qle in Hhi.
  assert (Hcases : n = 0%Z \/ n = 1%Z) by lia.
  destruct Hcases as [-> | ->]; reflexivity.
Qed.

End LiverFacts.

Section LiverClaims.
Import Js JsText DigitText SampleData SampleGenerators.
Local Open Scope Q_scope.

(** X15: on the liver page an age typed with digits after the point (a
    decimal of at most 15 digits) is sent cut down to its whole part (the
    handler reads it with [parseInt]), while the same text in a
    measurement field keeps its decimals (read with [parseFloat]). *)
Theorem liver_age_whole_part (formData : obj string) (n : Z) (f : nat) :
  (0 <= n < 10 ^ 15)%Z -> (f <= 20)%nat ->
  obj_get "age" formData = Some (fixed_digits n f) ->
  obj_get "albumin" formData = Some (fixed_digits n f) ->
  obj_get "age" (LiverPage.handleSubmit formData)
  = Some (JNumber (inject_Z (n / 10 ^ Z.of_nat f))) /\
  obj_get "albumin" (LiverPage.handleSubmit formData)
  = Some (JNumber (decimal n f)).
Proof.
  intros [Hn _] _ Hage Halb.
  unfold LiverPage.handleSubmit, JSON_stringify. cbn [map fst snd].
  obj_lookup. unfold LiverPage.parseInt_of, LiverPage.parseFloat_of.
  rewrite Hage, Halb.
  rewrite (parseInt_fixed_digits n f Hn).
  destruct (read_fixed_digits n f Hn) as (_ & -> & _).
  split; reflexivity.
Qed.

Lemma liver_age_whole_part_witness :
  obj_get "age"
    (LiverPage.handleSubmit
       (obj_set "albumin" "45.7" (obj_set "age" "45.7" LiverPage.formData)))
  = Some (JNumber (inject_Z (457 / 10 ^ Z.of_nat 1))) /\
  obj_get "albumin"
    (LiverPage.handleSubmit
       (obj_set "albumin" "45.7" (obj_set "age" "45.7" LiverPage.formData)))
  = Some (JNumber (decimal 457 1)).
Proof.
  apply (liver_age_whole_part
           (obj_set "albumin" "45.7" (obj_set "age" "45.7" LiverPage.formData))
           457 1); [lia | lia | reflexivity | reflexivity].
Defined.

(** X16: whatever the form holds, the body of the liver request has
    exactly the ten fields, in the order written, and its [gender] is the
    number 1 when the form's text is ["1"] and the number 0 for every
    other text or when the property is missing: never [null]. *)
Theorem liver_body_fields (formData : obj string) :
  keys (LiverPage.handleSubmit formData) = keys LiverPage.formData /\
  obj_get "gender" (LiverPage.handleSubmit formData)
  = Some (JNumber (if bool_decide (obj_get "gender" formData = Some "1"%string)
                   then 1 else 0)).
Proof.
  split; [reflexivity|].
  unfold LiverPage.handleSubmit, JSON_stringify. cbn [map fst snd].
  obj_lookup. unfold LiverPage.gender_of.
  destruct (obj_get "gender" formData) as [s|] eqn:E.
  - destruct (String.eqb_spec s "1") as [->|Hne].
    + rewrite bool_decide_eq_true_2 by reflexivity. reflexivity.
    + rewrite bool_decide_eq_false_2 by congruence. reflexivity.
  - rewrite bool_decide_eq_false_2 by discriminate. reflexivity.
Qed.

(** X17: after the sample-data button of the liver page, whatever the
    draws, the body carries for each of the ten fields the very number that
    was drawn, the age read with [parseInt] and the gender flag included:
    every value is a number between 0 and 5000, none is [null]. *)
Theorem liver_sample_request (rnd : nat -> Q) (prev : obj string) :
  (forall k, 0 <= rnd k <= 1) ->
  LiverPage.handleSubmit (LiverPage.handleSampleData rnd prev)
  = JSON_stringify
      [ ("age", VNum (getRandomNumber (rnd 0%nat) 4 90 0));
        ("gender", VNum (getRandomNumber (rnd 1%nat) 0 1 0));
        ("total_bilirubin", VNum (getRandomNumber (rnd 2%nat) (1 # 10) 75 1));
        ("direct_bilirubin", VNum (getRandomNumber (rnd 3%nat) 0 20 1));
        ("alkaline_phosphotase",
         VNum (getRandomNumber (rnd 4%nat) 60 2200 0));
        ("alamine_aminotransferase",
         VNum (getRandomNumber (rnd 5%nat) 10 2000 0));
        ("aspartate_aminotransferase",
         VNum (getRandomNumber (rnd 6%nat) 10 5000 0));
        ("total_proteins", VNum (getRandomNumber (rnd 7%nat) 2 10 1));
        ("albumin", VNum (getRandomNumber (rnd 8%nat) (9 # 10) 6 1));
        ("albumin_globulin_ratio",
         VNum (getRandomNumber (rnd 9%nat) (3 # 10) 3 1)) ] /\
  Forall (fun kv => exists q, snd kv = JNumber q /\ 0 <= q /\ q <= 5000)
         (LiverPage.handleSubmit (LiverPage.handleSampleData rnd prev)).
Proof.
  intros Hrnd.
  assert (E : LiverPage.handleSubmit (LiverPage.handleSampleData rnd prev)
              = JSON_stringify
                  [ ("age", VNum (getRandomNumber (rnd 0%nat) 4 90 0));
                    ("gender", VNum (getRandomNumber (rnd 1%nat) 0 1 0));
                    ("total_bilirubin",
                     VNum (getRandomNumber (rnd 2%nat) (1 # 10) 75 1));
                    ("direct_bilirubin",
                     VNum (getRandomNumber (rnd 3%nat) 0 20 1));
                    ("alkaline_phosphotase",
                     VNum (getRandomNumber (rnd 4%nat) 60 2200 0));
                    ("alamine_aminotransferase",
                     VNum (getRandomNumber (rnd 5%nat) 10 2000 0));
                    ("aspartate_aminotransferase",
                     VNum (getRandomNumber (rnd 6%nat) 10 5000 0));
                    ("total_proteins", VNum (getRandomNumber (rnd 7%nat) 2 10 1));
                    ("albumin", VNum (getRandomNumber (rnd 8%nat) (9 # 10) 6 1));
                    ("albumin_globulin_ratio",
                     VNum (getRandomNumber (rnd 9%nat) (3 # 10) 3 1)) ]).
  { unfold LiverPage.handleSubmit, LiverPage.handleSampleData,
      LiverPage.parseFloat_of, LiverPage.parseInt_of, LiverPage.gender_of,
      getRandomLiverData.
    obj_lookup. rewrite sample_gender by apply Hrnd.
    rewrite sample_parseInt by sample_side.
    rewrite !sample_parseFloat by sample_side. reflexivity. }
  split; [exact E|]. rewrite E. unfold JSON_stringify. cbn [map fst snd].
  repeat (apply Forall_cons; split;
          [cbn [snd]; apply sample_json; sample_side|]).
  apply Forall_nil_2.
Qed.

Lemma liver_sample_request_witness :
  LiverPage.handleSubmit
    (LiverPage.handleSampleData (fun _ => 1 # 2) LiverPage.formData)
  = JSON_stringify
      [ ("age", VNum (getRandomNumber (1 # 2) 4 90 0));
        ("gender", VNum (getRandomNumber (1 # 2) 0 1 0));
        ("total_bilirubin", VNum (getRandomNumber (1 # 2) (1 # 10) 75 1));
        ("direct_bilirubin", VNum (getRandomNumber (1 # 2) 0 20 1));
        ("alkaline_phosphotase", VNum (getRandomNumber (1 # 2) 60 2200 0));
        ("alamine_aminotransferase",
         VNum (getRandomNumber (1 # 2) 10 2000 0));
        ("aspartate_aminotransferase",
         VNum (getRandomNumber (1 # 2) 10 5000 0));
        ("total_proteins", VNum (getRandomNumber (1 # 2) 2 10 1));
        ("albumin", VNum (getRandomNumber (1 # 2) (9 # 10) 6 1));
        ("albumin_globulin_ratio",
         VNum (getRandomNumber (1 # 2) (3 # 10) 3 1)) ] /\
  Forall (fun kv => exists q, snd kv = JNumber q /\ 0 <= q /\ q <= 5000)
         (LiverPage.handleSubmit
            (LiverPage.handleSampleData (fun _ => 1 # 2) LiverPage.formData)).
Proof.
  apply (liver_sample_request (fun _ => 1 # 2) LiverPage.formData).
  intros k. split; discriminate.
Defined.

End LiverClaims.

Section BreastSampleFacts.
Import Js DigitText SampleData SampleGenerators.
Local Open Scope Q_scope.

Lemma sample_breast_numeric (k : string) (r min max : Q) (d : nat) :
  0 <= r <= 1 -> 0 <= min -> min <= max ->
  has_decimals min d -> has_decimals max d -> (d <= 6)%nat ->
  max <= 4000 ->
  exists q,
    json_of (BreastPage.transformedValue k
               (formatNumber (getRandomNumber r min max d)))
    = JNumber q /\ 0 <= q /\ q <= 4000.
Proof.
  intros Hr Hmin Hle Hdmin Hdmax Hd Hmax.
  unfold BreastPage.transformedValue.
  assert (Hmax' : max <= 30000) by lra.
  pose proof (sample_number_text r min max d Hr Hmin Hle Hdmin Hdmax Hd Hmax')
    as Hne.
  apply String.eqb_neq in Hne. rewrite Hne.
  rewrite sample_parseFloat by assumption.
  apply (sample_json r min max 0 4000 d); assumption.
Qed.

End BreastSampleFacts.

Section BreastSampleClaims.
Import Js DigitText SampleData SampleGenerators.
Local Open Scope Q_scope.

(** X18: after the sample-data button of the breast page, whatever the
    draws, the body has exactly the thirty fields of the form, in its
    order, and every value is a number between 0 and 4000: none is [null]. *)
Theorem breast_sample_request (rnd : nat -> Q) (prev : obj string) :
  (forall k, 0 <= rnd k <= 1) ->
  keys (BreastPage.handleSubmit (BreastSample.handleSampleData rnd prev))
  = BreastPage.fields /\
  Forall (fun kv => exists q, snd kv = JNumber q /\ 0 <= q /\ q <= 4000)
         (BreastPage.handleSubmit (BreastSample.handleSampleData rnd prev)).
Proof.
  intros Hrnd.
  assert (Hnd : NoDup (keys (getRandomBreastData rnd))).
  { unfold keys, getRandomBreastData. cbn [map fst].
    apply (bool_decide_unpack _). vm_compute. exact I. }
  unfold BreastPage.handleSubmit, BreastSample.handleSampleData. split.
  - rewrite keys_JSON_stringify, keys_reduce_entries by exact Hnd.
    reflexivity.
  - rewrite reduce_entries_map by exact Hnd.
    unfold getRandomBreastData, JSON_stringify. cbn [map fst snd].
    repeat (apply Forall_cons; split;
            [cbn [snd]; apply sample_breast_numeric; sample_side|]).
    apply Forall_nil_2.
Qed.

Lemma breast_sample_request_witness :
  keys (BreastPage.handleSubmit
          (BreastSample.handleSampleData (fun _ => 1 # 2) BreastPage.formData))
  = BreastPage.fields /\
  Forall (fun kv => exists q, snd kv = JNumber q /\ 0 <= q /\ q <= 4000)
         (BreastPage.handleSubmit
            (BreastSample.handleSampleData (fun _ => 1 # 2) BreastPage.formData)).
Proof.
  apply (breast_sample_request (fun _ => 1 # 2) BreastPage.formData).
  intros k. split; discriminate.
Defined.

End BreastSampleClaims.

Section KidneyPanelClaims.
Import Js JsText.
Local Open Scope Q_scope.

(** X19: in the kidney result panel the colour of the percentage and the
    stroke of the circle always name the same band: red from 70 up, yellow
    from 30 up to 70, green below 30. *)
Theorem kidney_probability_colours (p : Q) :
  (KidneyPanel.getProbabilityColor p = "text-red-500"%string <-> 70 <= p) /\
  (KidneyPanel.stroke p = "#EF4444"%string <-> 70 <= p) /\
  (KidneyPanel.getProbabilityColor p = "text-yellow-500"%string
   <-> 30 <= p /\ p < 70) /\
  (KidneyPanel.stroke p = "#F59E0B"%string <-> 30 <= p /\ p < 70) /\
  (KidneyPanel.getProbabilityColor p = "text-green-500"%string <-> p < 30) /\
  (KidneyPanel.stroke p = "#10B981"%string <-> p < 30).
Proof.
  unfold KidneyPanel.getProbabilityColor, KidneyPanel.stroke.
  destruct (Qle_bool 70 p) eqn:E1; destruct (Qle_bool 30 p) eqn:E2;
    try (apply Qle_bool_iff in E1); try (apply Qle_bool_iff in E2);
    try (assert (H70 : ~ 70 <= p)
           by (rewrite <- Qle_bool_iff; congruence));
    try (assert (H30 : ~ 30 <= p)
           by (rewrite <- Qle_bool_iff; congruence));
    repeat split; intros; try discriminate; try reflexivity; try lra.
Qed.

(** X20: in the kidney result panel the risk level is read without regard
    to letter case; its text is red exactly when its background is red,
    yellow exactly when the background is yellow, and a level that is not
    high, medium or low gets green text on the blue background. *)
Theorem kidney_risk_colours (risk : string) :
  KidneyPanel.getRiskColor (toLowerCase risk) = KidneyPanel.getRiskColor risk /\
  KidneyPanel.risk_text (toLowerCase risk) = KidneyPanel.risk_text risk /\
  (KidneyPanel.risk_text risk = "red"%string
   <-> KidneyPanel.getRiskColor risk = "bg-red-500"%string) /\
  (KidneyPanel.risk_text risk = "yellow"%string
   <-> KidneyPanel.getRiskColor risk = "bg-yellow-500"%string) /\
  (KidneyPanel.risk_text risk = "green"%string
   <-> KidneyPanel.getRiskColor risk = "bg-green-500"%string \/
       KidneyPanel.getRiskColor risk = "bg-blue-500"%string).
Proof.
  unfold KidneyPanel.getRiskColor, KidneyPanel.risk_text, toLowerCase.
  rewrite lower_idem.
  destruct (String.eqb (Py.lower risk) "high");
    destruct (String.eqb (Py.lower risk) "medium");
    destruct (String.eqb (Py.lower risk) "low");
    repeat split; intros; try discriminate; try reflexivity;
    try (left; reflexivity); try (right; reflexivity);
    try (destruct H; discriminate).
Qed.

End KidneyPanelClaims.

Section SignedSampleFacts.
Import Js DigitText SampleData SampleGenerators.
Local Open Scope Q_scope.

(** The number [getRandomNumber] returns when the range may go below
    zero. *)
Lemma getRandomNumber_signed (r min max : Q) (d : nat) :
  0 <= r <= 1 -> min <= max -> -30000 <= min -> max <= 30000 ->
  has_decimals min d -> has_decimals max d -> (d <= 6)%nat ->
  exists q,
    getRandomNumber r min max d = Fin q /\ Qred q = q /\
    has_decimals (Qabs q) d /\ min <= q /\ q <= max.
Proof.
  intros Hr Hle Hlo Hhi Hdmin Hdmax Hd.
  destruct (getRandomNumber_draw r min max d Hr Hle Hlo Hhi Hdmin Hdmax Hd)
    as (n & Hn & E).
  exists (decimal n d). split; [exact E|].
  split; [apply Qred_involutive|]. split; [|split].
  - unfold has_decimals.
    assert (E' : Qabs (decimal n d) * Qpower (10 # 1) (Z.of_nat d)
                 == decimal (Z.abs n) d * Qpower (10 # 1) (Z.of_nat d)).
    { apply Qmult_comp; [|reflexivity].
      destruct (Z.le_ge_cases 0 n) as [H|H].
      - rewrite Z.abs_eq by exact H.
        apply Qabs_pos. now apply decimal_nonneg.
      - rewrite Z.abs_neq by exact H. rewrite decimal_opp.
        apply Qabs_neg.
        assert (H' : 0 <= decimal (- n) d) by (apply decimal_nonneg; lia).
        rewrite decimal_opp in H'. lra. }
    rewrite (Qred_complete _ _ E'). apply decimal_has_decimals.
  - rewrite <- (decimal_floor min d Hdmin). apply decimal_le, Hn.
  - rewrite <- (decimal_floor max d Hdmax). apply decimal_le, Hn.
Qed.

(** Such a number, printed by [formatNumber], is read back by
    [parseFloat]. *)
Lemma sample_parseFloat_signed (r min max : Q) (d : nat) :
  0 <= r <= 1 -> min <= max -> -30000 <= min -> max <= 30000 ->
  has_decimals min d -> has_decimals max d -> (d <= 6)%nat ->
  parseFloat (formatNumber (getRandomNumber r min max d))
  = getRandomNumber r min max d.
Proof.
  intros Hr Hle Hlo Hhi Hdmin Hdmax Hd.
  destruct (getRandomNumber_signed r min max d Hr Hle Hlo Hhi Hdmin Hdmax Hd)
    as (q & Hq & Hred & Hdec & _).
  rewrite Hq. unfold formatNumber.
  apply (toString_read q Hred).
  apply (has_decimals_more _ d 20 Hdec). lia.
Qed.

Lemma sample_json_signed (r min max lo hi : Q) (d : nat) :
  0 <= r <= 1 -> min <= max -> -30000 <= min -> max <= 30000 ->
  has_decimals min d -> has_decimals max d -> (d <= 6)%nat ->
  lo <= min -> max <= hi ->
  exists q, json_of (VNum (getRandomNumber r min max d)) = JNumber q /\
            lo <= q /\ q <= hi.
Proof.
  intros Hr Hle Hlo Hhi Hdmin Hdmax Hd Hl Hh.
  destruct (getRandomNumber_signed r min max d Hr Hle Hlo Hhi Hdmin Hdmax Hd)
    as (q & Hq & _ & _ & H1 & H2).
  exists q. rewrite Hq. split; [reflexivity|]. lra.
Qed.

End SignedSampleFacts.

Section ParkinsonsSampleClaims.
Import Js JsText DigitText SampleData SampleGenerators.
Local Open Scope Q_scope.

(** X21: the sample-data button of the Parkinson's page stores each
    generated value under the name the form uses for it, so the body sent
    next has exactly the 22 fields of the form, in their order, each the
    very number that was drawn for it (the one range that goes below zero
    included): every value is a number between -8 and 260, none is
    [null]. *)
Theorem parkinsons_sample_request (rnd : nat -> Q) (prev : obj string) :
  (forall k, 0 <= rnd k <= 1) ->
  ParkinsonsForm.handlePredict (ParkinsonsForm.handleSampleData rnd prev)
  = JSON_stringify
      [ ("fo", VNum (getRandomNumber (rnd 0%nat) 80 260 3));
        ("fhi", VNum (getRandomNumber (rnd 1%nat) 80 260 3));
        ("flo", VNum (getRandomNumber (rnd 2%nat) 80 260 3));
        ("jitter_percent", VNum (getRandomNumber (rnd 3%nat) 0 1 3));
        ("jitter_abs", VNum (getRandomNumber (rnd 4%nat) 0 (1 # 1000) 6));
        ("rap", VNum (getRandomNumber (rnd 5%nat) 0 (3 # 1000) 6));
        ("ppq", VNum (getRandomNumber (rnd 6%nat) 0 (3 # 1000) 6));
        ("ddp", VNum (getRandomNumber (rnd 7%nat) 0 (3 # 1000) 6));
        ("shimmer", VNum (getRandomNumber (rnd 8%nat) 0 (2 # 10) 3));
        ("shimmer_db", VNum (getRandomNumber (rnd 9%nat) 0 2 3));
        ("apq3", VNum (getRandomNumber (rnd 10%nat) 0 (5 # 100) 3));
        ("apq5", VNum (getRandomNumber (rnd 11%nat) 0 (5 # 100) 3));
        ("apq", VNum (getRandomNumber (rnd 12%nat) 0 (15 # 100) 3));
        ("dda", VNum (getRandomNumber (rnd 13%nat) 0 (15 # 100) 3));
        ("nhr", VNum (getRandomNumber (rnd 14%nat) 0 (5 # 10) 3));
        ("hnr", VNum (getRandomNumber (rnd 15%nat) 0 40 3));
        ("rpde", VNum (getRandomNumber (rnd 16%nat) 0 1 3));
        ("dfa", VNum (getRandomNumber (rnd 17%nat) 0 1 3));
        ("spread1", VNum (getRandomNumber (rnd 18%nat) (-8) 8 3));
        ("spread2", VNum (getRandomNumber (rnd 19%nat) 0 1 3));
        ("d2", VNum (getRandomNumber (rnd 20%nat) 0 5 3));
        ("ppe", VNum (getRandomNumber (rnd 21%nat) 0 1 3)) ] /\
  keys (ParkinsonsForm.handlePredict (ParkinsonsForm.handleSampleData rnd prev))
  = ParkinsonsForm.fields /\
  Forall (fun kv => exists q, snd kv = JNumber q /\ -8 <= q /\ q <= 260)
         (ParkinsonsForm.handlePredict
            (ParkinsonsForm.handleSampleData rnd prev)).
Proof.
  intros Hrnd.
  assert (E : ParkinsonsForm.handlePredict
                (ParkinsonsForm.handleSampleData rnd prev)
              = JSON_stringify
                  (map (fun kv => (fst kv, VNum (parseFloat (snd kv))))
                       (ParkinsonsForm.handleSampleData rnd prev))).
  { unfold ParkinsonsForm.handlePredict. rewrite reduce_entries_map;
      [reflexivity|].
    unfold keys, ParkinsonsForm.handleSampleData. cbn [map fst].
    apply (bool_decide_unpack _). vm_compute. exact I. }
  rewrite E. clear E.
  unfold ParkinsonsForm.handleSampleData, getRandomParkinsonsData.
  cbv [prop obj_get String.eqb Ascii.eqb Bool.eqb].
  unfold JSON_stringify, keys. cbn [map fst snd].
  rewrite !sample_parseFloat_signed by sample_side.
  split; [reflexivity|]. split; [reflexivity|].
  repeat (apply Forall_cons; split;
          [cbn [snd]; apply sample_json_signed; sample_side|]).
  apply Forall_nil_2.
Qed.

Lemma parkinsons_sample_request_witness :
  ParkinsonsForm.handlePredict
    (ParkinsonsForm.handleSampleData (fun _ => 1 # 2) ParkinsonsForm.formData)
  = JSON_stringify
      [ ("fo", VNum (getRandomNumber (1 # 2) 80 260 3));
        ("fhi", VNum (getRandomNumber (1 # 2) 80 260 3));
        ("flo", VNum (getRandomNumber (1 # 2) 80 260 3));
        ("jitter_percent", VNum (getRandomNumber (1 # 2) 0 1 3));
        ("jitter_abs", VNum (getRandomNumber (1 # 2) 0 (1 # 1000) 6));
        ("rap", VNum (getRandomNumber (1 # 2) 0 (3 # 1000) 6));
        ("ppq", VNum (getRandomNumber (1 # 2) 0 (3 # 1000) 6));
        ("ddp", VNum (getRandomNumber (1 # 2) 0 (3 # 1000) 6));
        ("shimmer", VNum (getRandomNumber (1 # 2) 0 (2 # 10) 3));
        ("shimmer_db", VNum (getRandomNumber (1 # 2) 0 2 3));
        ("apq3", VNum (getRandomNumber (1 # 2) 0 (5 # 100) 3));
        ("apq5", VNum (getRandomNumber (1 # 2) 0 (5 # 100) 3));
        ("apq", VNum (getRandomNumber (1 # 2) 0 (15 # 100) 3));
        ("dda", VNum (getRandomNumber (1 # 2) 0 (15 # 100) 3));
        ("nhr", VNum (getRandomNumber (1 # 2) 0 (5 # 10) 3));
        ("hnr", VNum (getRandomNumber (1 # 2) 0 40 3));
        ("rpde", VNum (getRandomNumber (1 # 2) 0 1 3));
        ("dfa", VNum (getRandomNumber (1 # 2) 0 1 3));
        ("spread1", VNum (getRandomNumber (1 # 2) (-8) 8 3));
        ("spread2", VNum (getRandomNumber (1 # 2) 0 1 3));
        ("d2", VNum (getRandomNumber (1 # 2) 0 5 3));
        ("ppe", VNum (getRandomNumber (1 # 2) 0 1 3)) ] /\
  keys (ParkinsonsForm.handlePredict
          (ParkinsonsForm.handleSampleData (fun _ => 1 # 2)
             ParkinsonsForm.formData))
  = ParkinsonsForm.fields /\
  Forall (fun kv => exists q, snd kv = JNumber q /\ -8 <= q /\ q <= 260)
         (ParkinsonsForm.handlePredict
            (ParkinsonsForm.handleSampleData (fun _ => 1 # 2)
               ParkinsonsForm.formData)).
Proof.
  apply (parkinsons_sample_request (fun _ => 1 # 2) ParkinsonsForm.formData).
  intros k. split; discriminate.
Defined.

End ParkinsonsSampleClaims.

Section LungSampleFacts.
Import Js DigitText SampleData SampleGenerators.
Local Open Scope Q_scope.

(** A flag of the sample data is printed as [0] or as [1]. *)
Lemma sample_flag (r : Q) :
  0 <= r <= 1 ->
  formatNumber (getRandomNumber r 0 1 0) = "0"%string \/
  formatNumber (getRandomNumber r 0 1 0) = "1"%string.
Proof.
  intros Hr.
  destruct (getRandomNumber_spec r 0 1 0 Hr) as (n & Hn & Hn0 & Hlo & Hhi);
    try (discriminate || reflexivity || lia).
  rewrite Hn. rewrite decimal_whole in *.
  change 1 with (inject_Z 1) in Hhi. rewrite <- Zle_Qle in Hhi.
  assert (Hcases : n = 0%Z \/ n = 1%Z) by lia.
  destruct Hcases as [-> | ->]; [left|right]; reflexivity.
Qed.

End LungSampleFacts.

Section LungSampleClaims.
Import Js DigitText SampleData SampleGenerators.
Local Open Scope Q_scope.

(** X22: after the sample-data button of the lung page, whatever the
    draws, the body has the fifteen fields of the form and every value is
    sent as a string, not as a number: the gender is [M] or [F], the age is
    the text of a whole number between 20 and 90, and each of the thirteen
    select fields holds one of the options of its select ([0] or [1],
    never [2]). *)
Theorem lung_sample_request (rnd : nat -> Q) (prev : obj string) :
  (forall k, 0 <= rnd k <= 1) ->
  let body := LungForm.handleSubmit (LungForm.handleUseSampleData rnd prev) in
  keys body = keys LungForm.formData /\
  Forall (fun kv => exists s, snd kv = JString s) body /\
  (obj_get "gender" body = Some (JString "M") \/
   obj_get "gender" body = Some (JString "F")) /\
  (exists text q,
     obj_get "age" body = Some (JString text) /\
     Number text = Fin q /\ has_decimals q 0 /\ 20 <= q /\ q <= 90) /\
  Forall (fun k => exists s,
            obj_get k body = Some (JString s) /\
            In s LungForm.options /\ s <> "2"%string)
         LungForm.selects.
Proof.
  intros Hrnd body. subst body.
  unfold LungForm.handleSubmit, LungForm.handleUseSampleData,
    getRandomLungData, JSON_stringify, keys.
  cbn [map fst snd json_of].
  split; [reflexivity|]. split.
  { repeat (apply Forall_cons; split; [eexists; reflexivity|]).
    apply Forall_nil_2. }
  split.
  { obj_lookup. unfold coin. destruct (Qltb (1 # 2) (rnd 0%nat)); auto. }
  split.
  { destruct (sample_number (rnd 1%nat) 20 90 0) as (q & _ & H1 & H2 & H3 & _ & H4);
      try sample_side.
    eexists _, q. obj_lookup. repeat split; try eassumption. }
  unfold LungForm.selects, LungForm.options.
  repeat (apply Forall_cons; split;
          [obj_lookup;
           match goal with
           | |- context [getRandomNumber (rnd ?i) 0 1 0] =>
               destruct (sample_flag (rnd i) (Hrnd i)) as [-> | ->]
           end;
           (eexists; split;
            [reflexivity|split; [simpl; tauto|discriminate]])|]).
  apply Forall_nil_2.
Qed.

Lemma lung_sample_request_witness :
  let body :=
    LungForm.handleSubmit
      (LungForm.handleUseSampleData (fun _ => 1 # 2) LungForm.formData) in
  keys body = keys LungForm.formData /\
  Forall (fun kv => exists s, snd kv = JString s) body /\
  (obj_get "gender" body = Some (JString "M") \/
   obj_get "gender" body = Some (JString "F")) /\
  (exists text q,
     obj_get "age" body = Some (JString text) /\
     Number text = Fin q /\ has_decimals q 0 /\ 20 <= q /\ q <= 90) /\
  Forall (fun k => exists s,
            obj_get k body = Some (JString s) /\
            In s LungForm.options /\ s <> "2"%string)
         LungForm.selects.
Proof.
  apply (lung_sample_request (fun _ => 1 # 2) LungForm.formData).
  intros k. split; discriminate.
Defined.

End LungSampleClaims.
